(** * Botifinanzas: a shallow embedding of [bot_finanzas.py]

    The bot keeps a personal ledger in three worksheets (Movimientos,
    Presupuestos, Objetivos) and is driven by chat commands.  This file
    embeds the ledger logic of [bot_finanzas.py] and proves properties of it.

    Conventions of the embedding.

    - Python [float] is IEEE binary64; it is modelled by [spec_float] with
      the operations of [SpecFloat] at precision 53 and maximal exponent
      1024, so every rounding of the program is the real one.
    - Python [int] is [Z].
    - Python [str] is a sequence of code points.  It is kept as the
      [string] of its UTF-8 encoding, so a literal of this file is the text
      it shows; a lone surrogate is encoded like any other code point.  The
      methods of [str] and the conversions [int] and [float] work on the
      code points, with the character data of Unicode 14.0 that CPython
      3.11 has: white space, decimal digits of every script, and the full
      case mappings with the rule of the final sigma.
    - A message text has at most 4096 characters, so the limit of 4300
      digits that [int] puts on a literal is never met and is not modelled.
    - Exceptions are values of [exn]; a computation that can raise returns a
      [result].  Commands run in a state-and-exception monad over [World].
    - The clock is read as one instant while a command runs; [strftime]
      prints years of four digits.
    - The worksheet client (gspread) is outside the program.  A worksheet is
      the list of its data rows under a fixed header row; a row is the list
      of its cells; appending, reading all records and updating one cell are
      the three operations of the store interface, and a cell reads back as
      the value that was written. *)

From Stdlib Require Import ZArith List String Ascii Bool Lia Permutation.
From Stdlib Require Import DecimalString.
From Stdlib Require Import Floats.SpecFloat.
Import ListNotations.

Local Open Scope string_scope.
Local Open Scope Z_scope.

(** ** Python built-ins used by the program *)

Module Py.

(** *** Exceptions and results *)

(** The classes of [Exception] the program can meet.  The message of an
    error raised by a built-in stops before the offending literal, which the
    program never inspects. *)
Inductive exn : Type :=
| ValueError (msg : string)
| OverflowError (msg : string)
| TypeError (msg : string)
| AttributeError (msg : string)
| KeyError (key : string)
| IndexError (msg : string).

Inductive result (A : Type) : Type :=
| Ok (a : A)
| Raise (e : exn).
Arguments Ok {A} a.
Arguments Raise {A} e.

Definition rbind {A B} (r : result A) (k : A -> result B) : result B :=
  match r with
  | Ok a => k a
  | Raise e => Raise e
  end.

(** *** Text *)

(** A [str] is a sequence of code points.  It is kept as the [string] of
    its UTF-8 encoding, which is how a literal of this file reads; the
    methods of [str] decode it, work on the code points, and encode the
    result. *)
Definition text : Type := list Z.

Bind Scope list_scope with text.

Definition code (c : ascii) : Z := Z.of_N (N_of_ascii c).
Definition byte (n : Z) : ascii := ascii_of_N (Z.to_N n).

Definition is_continuation (b : ascii) : bool := (0x80 <=? code b) && (code b <=? 0xBF).
Definition low6 (b : ascii) : Z := code b - 0x80.

(** The code point of a sequence of two, three or four bytes; none when the
    bytes are not the encoding of a code point, or not the shortest one. *)
Definition two_bytes (b0 b1 : ascii) : option Z :=
  if (0xC2 <=? code b0) && (code b0 <=? 0xDF) && is_continuation b1
  then Some ((code b0 - 0xC0) * 0x40 + low6 b1)
  else None.

Definition three_bytes (b0 b1 b2 : ascii) : option Z :=
  let c := (code b0 - 0xE0) * 0x1000 + low6 b1 * 0x40 + low6 b2 in
  if (0xE0 <=? code b0) && (code b0 <=? 0xEF) && is_continuation b1 && is_continuation b2
     && (0x800 <=? c)
  then Some c
  else None.

Definition four_bytes (b0 b1 b2 b3 : ascii) : option Z :=
  let c := (code b0 - 0xF0) * 0x40000 + low6 b1 * 0x1000 + low6 b2 * 0x40 + low6 b3 in
  if (0xF0 <=? code b0) && (code b0 <=? 0xF4) && is_continuation b1 && is_continuation b2
     && is_continuation b3 && (0x10000 <=? c) && (c <=? 0x10FFFF)
  then Some c
  else None.

(** The code points of a UTF-8 [string].  A byte that starts no encoding
    reads as U+FFFD; no [str] has such an encoding. *)
Fixpoint decode (s : string) : text :=
  match s with
  | EmptyString => []
  | String b0 r0 =>
      if code b0 <? 0x80 then code b0 :: decode r0
      else
        match r0 with
        | String b1 r1 =>
            match two_bytes b0 b1 with
            | Some c => c :: decode r1
            | None =>
                match r1 with
                | String b2 r2 =>
                    match three_bytes b0 b1 b2 with
                    | Some c => c :: decode r2
                    | None =>
                        match r2 with
                        | String b3 r3 =>
                            match four_bytes b0 b1 b2 b3 with
                            | Some c => c :: decode r3
                            | None => 0xFFFD :: decode r0
                            end
                        | EmptyString => 0xFFFD :: decode r0
                        end
                    end
                | EmptyString => 0xFFFD :: decode r0
                end
            end
        | EmptyString => [0xFFFD]
        end
  end.

(** The UTF-8 encoding of a code point and of a text. *)
Definition encode_char (c : Z) : string :=
  if c <? 0x80 then String (byte c) EmptyString
  else if c <? 0x800 then
    String (byte (0xC0 + c / 0x40)) (String (byte (0x80 + c mod 0x40)) EmptyString)
  else if c <? 0x10000 then
    String (byte (0xE0 + c / 0x1000))
      (String (byte (0x80 + c / 0x40 mod 0x40)) (String (byte (0x80 + c mod 0x40)) EmptyString))
  else
    String (byte (0xF0 + c / 0x40000))
      (String (byte (0x80 + c / 0x1000 mod 0x40))
         (String (byte (0x80 + c / 0x40 mod 0x40))
            (String (byte (0x80 + c mod 0x40)) EmptyString))).

Fixpoint encode (l : text) : string :=
  match l with
  | [] => EmptyString
  | c :: r => (encode_char c ++ encode r)%string
  end.

(** A code point. *)
Definition is_char (c : Z) : bool := (0 <=? c) && (c <=? 0x10FFFF).

(** The character data of Unicode 14.0, as CPython 3.11 has it. *)

Definition in_ranges (c : Z) (t : list (Z * Z)) : bool :=
  existsb (fun r => (fst r <=? c) && (c <=? snd r)) t.

(** A run [(a, n, step, d)] of a case mapping: each of the [n] code points
    [a], [a + step], [a + 2 * step], ... maps to itself plus [d]. *)
Definition run : Type := Z * Z * Z * Z.

Fixpoint run_image (c : Z) (t : list run) : option Z :=
  match t with
  | [] => None
  | (a, n, step, d) :: t' =>
      if (a <=? c) && (c <? a + n * step) && ((c - a) mod step =? 0) then Some (c + d)
      else run_image c t'
  end.

Fixpoint assoc (c : Z) (t : list (Z * text)) : option text :=
  match t with
  | [] => None
  | (k, v) :: t' => if c =? k then Some v else assoc c t'
  end.

(** The image of [c] under a case mapping given by its runs and by the
    characters whose image is more than one character. *)
Definition mapped (runs : list run) (special : list (Z * text)) (c : Z) : option text :=
  match assoc c special with
  | Some l => Some l
  | None =>
      match run_image c runs with
      | Some x => Some [x]
      | None => None
      end
  end.

(** The white space of [str.isspace], [str.strip] and [str.split]. *)
Definition space : list (Z * Z) :=
  [(0x9, 0xD); (0x1C, 0x20); (0x85, 0x85); (0xA0, 0xA0); (0x1680, 0x1680);
   (0x2000, 0x200A); (0x2028, 0x2029); (0x202F, 0x202F); (0x205F, 0x205F);
   (0x3000, 0x3000)].

(** The zero of every run of ten decimal digits. *)
Definition digit_zeros : list Z :=
  [0x30; 0x660; 0x6F0; 0x7C0; 0x966; 0x9E6; 0xA66; 0xAE6; 0xB66; 0xBE6; 0xC66;
   0xCE6; 0xD66; 0xDE6; 0xE50; 0xED0; 0xF20; 0x1040; 0x1090; 0x17E0; 0x1810;
   0x1946; 0x19D0; 0x1A80; 0x1A90; 0x1B50; 0x1BB0; 0x1C40; 0x1C50; 0xA620;
   0xA8D0; 0xA900; 0xA9D0; 0xA9F0; 0xAA50; 0xABF0; 0xFF10; 0x104A0; 0x10D30;
   0x11066; 0x110F0; 0x11136; 0x111D0; 0x112F0; 0x11450; 0x114D0; 0x11650;
   0x116C0; 0x11730; 0x118E0; 0x11950; 0x11C50; 0x11D50; 0x11DA0; 0x16A60;
   0x16AC0; 0x16B50; 0x1D7CE; 0x1D7D8; 0x1D7E2; 0x1D7EC; 0x1D7F6; 0x1E140;
   0x1E2F0; 0x1E950; 0x1FBF0].

(** The characters with the property Cased. *)
Definition cased : list (Z * Z) :=
  [(0x41, 0x5A); (0x61, 0x7A); (0xAA, 0xAA); (0xB5, 0xB5); (0xBA, 0xBA);
   (0xC0, 0xD6); (0xD8, 0xF6); (0xF8, 0x1BA); (0x1BC, 0x1BF); (0x1C4, 0x293);
   (0x295, 0x2B8); (0x2C0, 0x2C1); (0x2E0, 0x2E4); (0x345, 0x345);
   (0x370, 0x373); (0x376, 0x377); (0x37A, 0x37D); (0x37F, 0x37F);
   (0x386, 0x386); (0x388, 0x38A); (0x38C, 0x38C); (0x38E, 0x3A1);
   (0x3A3, 0x3F5); (0x3F7, 0x481); (0x48A, 0x52F); (0x531, 0x556);
   (0x560, 0x588); (0x10A0, 0x10C5); (0x10C7, 0x10C7); (0x10CD, 0x10CD);
   (0x10D0, 0x10FA); (0x10FD, 0x10FF); (0x13A0, 0x13F5); (0x13F8, 0x13FD);
   (0x1C80, 0x1C88); (0x1C90, 0x1CBA); (0x1CBD, 0x1CBF); (0x1D00, 0x1DBF);
   (0x1E00, 0x1F15); (0x1F18, 0x1F1D); (0x1F20, 0x1F45); (0x1F48, 0x1F4D);
   (0x1F50, 0x1F57); (0x1F59, 0x1F59); (0x1F5B, 0x1F5B); (0x1F5D, 0x1F5D);
   (0x1F5F, 0x1F7D); (0x1F80, 0x1FB4); (0x1FB6, 0x1FBC); (0x1FBE, 0x1FBE);
   (0x1FC2, 0x1FC4); (0x1FC6, 0x1FCC); (0x1FD0, 0x1FD3); (0x1FD6, 0x1FDB);
   (0x1FE0, 0x1FEC); (0x1FF2, 0x1FF4); (0x1FF6, 0x1FFC); (0x2071, 0x2071);
   (0x207F, 0x207F); (0x2090, 0x209C); (0x2102, 0x2102); (0x2107, 0x2107);
   (0x210A, 0x2113); (0x2115, 0x2115); (0x2119, 0x211D); (0x2124, 0x2124);
   (0x2126, 0x2126); (0x2128, 0x2128); (0x212A, 0x212D); (0x212F, 0x2134);
   (0x2139, 0x2139); (0x213C, 0x213F); (0x2145, 0x2149); (0x214E, 0x214E);
   (0x2160, 0x217F); (0x2183, 0x2184); (0x24B6, 0x24E9); (0x2C00, 0x2CE4);
   (0x2CEB, 0x2CEE); (0x2CF2, 0x2CF3); (0x2D00, 0x2D25); (0x2D27, 0x2D27);
   (0x2D2D, 0x2D2D); (0xA640, 0xA66D); (0xA680, 0xA69D); (0xA722, 0xA787);
   (0xA78B, 0xA78E); (0xA790, 0xA7CA); (0xA7D0, 0xA7D1); (0xA7D3, 0xA7D3);
   (0xA7D5, 0xA7D9); (0xA7F5, 0xA7F6); (0xA7F8, 0xA7FA); (0xAB30, 0xAB5A);
   (0xAB5C, 0xAB68); (0xAB70, 0xABBF); (0xFB00, 0xFB06); (0xFB13, 0xFB17);
   (0xFF21, 0xFF3A); (0xFF41, 0xFF5A); (0x10400, 0x1044F); (0x104B0, 0x104D3);
   (0x104D8, 0x104FB); (0x10570, 0x1057A); (0x1057C, 0x1058A);
   (0x1058C, 0x10592); (0x10594, 0x10595); (0x10597, 0x105A1);
   (0x105A3, 0x105B1); (0x105B3, 0x105B9); (0x105BB, 0x105BC);
   (0x10780, 0x10780); (0x10783, 0x10785); (0x10787, 0x107B0);
   (0x107B2, 0x107BA); (0x10C80, 0x10CB2); (0x10CC0, 0x10CF2);
   (0x118A0, 0x118DF); (0x16E40, 0x16E7F); (0x1D400, 0x1D454);
   (0x1D456, 0x1D49C); (0x1D49E, 0x1D49F); (0x1D4A2, 0x1D4A2);
   (0x1D4A5, 0x1D4A6); (0x1D4A9, 0x1D4AC); (0x1D4AE, 0x1D4B9);
   (0x1D4BB, 0x1D4BB); (0x1D4BD, 0x1D4C3); (0x1D4C5, 0x1D505);
   (0x1D507, 0x1D50A); (0x1D50D, 0x1D514); (0x1D516, 0x1D51C);
   (0x1D51E, 0x1D539); (0x1D53B, 0x1D53E); (0x1D540, 0x1D544);
   (0x1D546, 0x1D546); (0x1D54A, 0x1D550); (0x1D552, 0x1D6A5);
   (0x1D6A8, 0x1D6C0); (0x1D6C2, 0x1D6DA); (0x1D6DC, 0x1D6FA);
   (0x1D6FC, 0x1D714); (0x1D716, 0x1D734); (0x1D736, 0x1D74E);
   (0x1D750, 0x1D76E); (0x1D770, 0x1D788); (0x1D78A, 0x1D7A8);
   (0x1D7AA, 0x1D7C2); (0x1D7C4, 0x1D7CB); (0x1DF00, 0x1DF09);
   (0x1DF0B, 0x1DF1E); (0x1E900, 0x1E943); (0x1F130, 0x1F149);
   (0x1F150, 0x1F169); (0x1F170, 0x1F189)].

(** The characters with the property Case_Ignorable. *)
Definition ignorable : list (Z * Z) :=
  [(0x27, 0x27); (0x2E, 0x2E); (0x3A, 0x3A); (0x5E, 0x5E); (0x60, 0x60);
   (0xA8, 0xA8); (0xAD, 0xAD); (0xAF, 0xAF); (0xB4, 0xB4); (0xB7, 0xB8);
   (0x2B0, 0x36F); (0x374, 0x375); (0x37A, 0x37A); (0x384, 0x385);
   (0x387, 0x387); (0x483, 0x489); (0x559, 0x559); (0x55F, 0x55F);
   (0x591, 0x5BD); (0x5BF, 0x5BF); (0x5C1, 0x5C2); (0x5C4, 0x5C5);
   (0x5C7, 0x5C7); (0x5F4, 0x5F4); (0x600, 0x605); (0x610, 0x61A);
   (0x61C, 0x61C); (0x640, 0x640); (0x64B, 0x65F); (0x670, 0x670);
   (0x6D6, 0x6DD); (0x6DF, 0x6E8); (0x6EA, 0x6ED); (0x70F, 0x70F);
   (0x711, 0x711); (0x730, 0x74A); (0x7A6, 0x7B0); (0x7EB, 0x7F5);
   (0x7FA, 0x7FA); (0x7FD, 0x7FD); (0x816, 0x82D); (0x859, 0x85B);
   (0x888, 0x888); (0x890, 0x891); (0x898, 0x89F); (0x8C9, 0x902);
   (0x93A, 0x93A); (0x93C, 0x93C); (0x941, 0x948); (0x94D, 0x94D);
   (0x951, 0x957); (0x962, 0x963); (0x971, 0x971); (0x981, 0x981);
   (0x9BC, 0x9BC); (0x9C1, 0x9C4); (0x9CD, 0x9CD); (0x9E2, 0x9E3);
   (0x9FE, 0x9FE); (0xA01, 0xA02); (0xA3C, 0xA3C); (0xA41, 0xA42);
   (0xA47, 0xA48); (0xA4B, 0xA4D); (0xA51, 0xA51); (0xA70, 0xA71);
   (0xA75, 0xA75); (0xA81, 0xA82); (0xABC, 0xABC); (0xAC1, 0xAC5);
   (0xAC7, 0xAC8); (0xACD, 0xACD); (0xAE2, 0xAE3); (0xAFA, 0xAFF);
   (0xB01, 0xB01); (0xB3C, 0xB3C); (0xB3F, 0xB3F); (0xB41, 0xB44);
   (0xB4D, 0xB4D); (0xB55, 0xB56); (0xB62, 0xB63); (0xB82, 0xB82);
   (0xBC0, 0xBC0); (0xBCD, 0xBCD); (0xC00, 0xC00); (0xC04, 0xC04);
   (0xC3C, 0xC3C); (0xC3E, 0xC40); (0xC46, 0xC48); (0xC4A, 0xC4D);
   (0xC55, 0xC56); (0xC62, 0xC63); (0xC81, 0xC81); (0xCBC, 0xCBC);
   (0xCBF, 0xCBF); (0xCC6, 0xCC6); (0xCCC, 0xCCD); (0xCE2, 0xCE3);
   (0xD00, 0xD01); (0xD3B, 0xD3C); (0xD41, 0xD44); (0xD4D, 0xD4D);
   (0xD62, 0xD63); (0xD81, 0xD81); (0xDCA, 0xDCA); (0xDD2, 0xDD4);
   (0xDD6, 0xDD6); (0xE31, 0xE31); (0xE34, 0xE3A); (0xE46, 0xE4E);
   (0xEB1, 0xEB1); (0xEB4, 0xEBC); (0xEC6, 0xEC6); (0xEC8, 0xECD);
   (0xF18, 0xF19); (0xF35, 0xF35); (0xF37, 0xF37); (0xF39, 0xF39);
   (0xF71, 0xF7E); (0xF80, 0xF84); (0xF86, 0xF87); (0xF8D, 0xF97);
   (0xF99, 0xFBC); (0xFC6, 0xFC6); (0x102D, 0x1030); (0x1032, 0x1037);
   (0x1039, 0x103A); (0x103D, 0x103E); (0x1058, 0x1059); (0x105E, 0x1060);
   (0x1071, 0x1074); (0x1082, 0x1082); (0x1085, 0x1086); (0x108D, 0x108D);
   (0x109D, 0x109D); (0x10FC, 0x10FC); (0x135D, 0x135F); (0x1712, 0x1714);
   (0x1732, 0x1733); (0x1752, 0x1753); (0x1772, 0x1773); (0x17B4, 0x17B5);
   (0x17B7, 0x17BD); (0x17C6, 0x17C6); (0x17C9, 0x17D3); (0x17D7, 0x17D7);
   (0x17DD, 0x17DD); (0x180B, 0x180F); (0x1843, 0x1843); (0x1885, 0x1886);
   (0x18A9, 0x18A9); (0x1920, 0x1922); (0x1927, 0x1928); (0x1932, 0x1932);
   (0x1939, 0x193B); (0x1A17, 0x1A18); (0x1A1B, 0x1A1B); (0x1A56, 0x1A56);
   (0x1A58, 0x1A5E); (0x1A60, 0x1A60); (0x1A62, 0x1A62); (0x1A65, 0x1A6C);
   (0x1A73, 0x1A7C); (0x1A7F, 0x1A7F); (0x1AA7, 0x1AA7); (0x1AB0, 0x1ACE);
   (0x1B00, 0x1B03); (0x1B34, 0x1B34); (0x1B36, 0x1B3A); (0x1B3C, 0x1B3C);
   (0x1B42, 0x1B42); (0x1B6B, 0x1B73); (0x1B80, 0x1B81); (0x1BA2, 0x1BA5);
   (0x1BA8, 0x1BA9); (0x1BAB, 0x1BAD); (0x1BE6, 0x1BE6); (0x1BE8, 0x1BE9);
   (0x1BED, 0x1BED); (0x1BEF, 0x1BF1); (0x1C2C, 0x1C33); (0x1C36, 0x1C37);
   (0x1C78, 0x1C7D); (0x1CD0, 0x1CD2); (0x1CD4, 0x1CE0); (0x1CE2, 0x1CE8);
   (0x1CED, 0x1CED); (0x1CF4, 0x1CF4); (0x1CF8, 0x1CF9); (0x1D2C, 0x1D6A);
   (0x1D78, 0x1D78); (0x1D9B, 0x1DFF); (0x1FBD, 0x1FBD); (0x1FBF, 0x1FC1);
   (0x1FCD, 0x1FCF); (0x1FDD, 0x1FDF); (0x1FED, 0x1FEF); (0x1FFD, 0x1FFE);
   (0x200B, 0x200F); (0x2018, 0x2019); (0x2024, 0x2024); (0x2027, 0x2027);
   (0x202A, 0x202E); (0x2060, 0x2064); (0x2066, 0x206F); (0x2071, 0x2071);
   (0x207F, 0x207F); (0x2090, 0x209C); (0x20D0, 0x20F0); (0x2C7C, 0x2C7D);
   (0x2CEF, 0x2CF1); (0x2D6F, 0x2D6F); (0x2D7F, 0x2D7F); (0x2DE0, 0x2DFF);
   (0x2E2F, 0x2E2F); (0x3005, 0x3005); (0x302A, 0x302D); (0x3031, 0x3035);
   (0x303B, 0x303B); (0x3099, 0x309E); (0x30FC, 0x30FE); (0xA015, 0xA015);
   (0xA4F8, 0xA4FD); (0xA60C, 0xA60C); (0xA66F, 0xA672); (0xA674, 0xA67D);
   (0xA67F, 0xA67F); (0xA69C, 0xA69F); (0xA6F0, 0xA6F1); (0xA700, 0xA721);
   (0xA770, 0xA770); (0xA788, 0xA78A); (0xA7F2, 0xA7F4); (0xA7F8, 0xA7F9);
   (0xA802, 0xA802); (0xA806, 0xA806); (0xA80B, 0xA80B); (0xA825, 0xA826);
   (0xA82C, 0xA82C); (0xA8C4, 0xA8C5); (0xA8E0, 0xA8F1); (0xA8FF, 0xA8FF);
   (0xA926, 0xA92D); (0xA947, 0xA951); (0xA980, 0xA982); (0xA9B3, 0xA9B3);
   (0xA9B6, 0xA9B9); (0xA9BC, 0xA9BD); (0xA9CF, 0xA9CF); (0xA9E5, 0xA9E6);
   (0xAA29, 0xAA2E); (0xAA31, 0xAA32); (0xAA35, 0xAA36); (0xAA43, 0xAA43);
   (0xAA4C, 0xAA4C); (0xAA70, 0xAA70); (0xAA7C, 0xAA7C); (0xAAB0, 0xAAB0);
   (0xAAB2, 0xAAB4); (0xAAB7, 0xAAB8); (0xAABE, 0xAABF); (0xAAC1, 0xAAC1);
   (0xAADD, 0xAADD); (0xAAEC, 0xAAED); (0xAAF3, 0xAAF4); (0xAAF6, 0xAAF6);
   (0xAB5B, 0xAB5F); (0xAB69, 0xAB6B); (0xABE5, 0xABE5); (0xABE8, 0xABE8);
   (0xABED, 0xABED); (0xFB1E, 0xFB1E); (0xFBB2, 0xFBC2); (0xFE00, 0xFE0F);
   (0xFE13, 0xFE13); (0xFE20, 0xFE2F); (0xFE52, 0xFE52); (0xFE55, 0xFE55);
   (0xFEFF, 0xFEFF); (0xFF07, 0xFF07); (0xFF0E, 0xFF0E); (0xFF1A, 0xFF1A);
   (0xFF3E, 0xFF3E); (0xFF40, 0xFF40); (0xFF70, 0xFF70); (0xFF9E, 0xFF9F);
   (0xFFE3, 0xFFE3); (0xFFF9, 0xFFFB); (0x101FD, 0x101FD); (0x102E0, 0x102E0);
   (0x10376, 0x1037A); (0x10780, 0x10785); (0x10787, 0x107B0);
   (0x107B2, 0x107BA); (0x10A01, 0x10A03); (0x10A05, 0x10A06);
   (0x10A0C, 0x10A0F); (0x10A38, 0x10A3A); (0x10A3F, 0x10A3F);
   (0x10AE5, 0x10AE6); (0x10D24, 0x10D27); (0x10EAB, 0x10EAC);
   (0x10F46, 0x10F50); (0x10F82, 0x10F85); (0x11001, 0x11001);
   (0x11038, 0x11046); (0x11070, 0x11070); (0x11073, 0x11074);
   (0x1107F, 0x11081); (0x110B3, 0x110B6); (0x110B9, 0x110BA);
   (0x110BD, 0x110BD); (0x110C2, 0x110C2); (0x110CD, 0x110CD);
   (0x11100, 0x11102); (0x11127, 0x1112B); (0x1112D, 0x11134);
   (0x11173, 0x11173); (0x11180, 0x11181); (0x111B6, 0x111BE);
   (0x111C9, 0x111CC); (0x111CF, 0x111CF); (0x1122F, 0x11231);
   (0x11234, 0x11234); (0x11236, 0x11237); (0x1123E, 0x1123E);
   (0x112DF, 0x112DF); (0x112E3, 0x112EA); (0x11300, 0x11301);
   (0x1133B, 0x1133C); (0x11340, 0x11340); (0x11366, 0x1136C);
   (0x11370, 0x11374); (0x11438, 0x1143F); (0x11442, 0x11444);
   (0x11446, 0x11446); (0x1145E, 0x1145E); (0x114B3, 0x114B8);
   (0x114BA, 0x114BA); (0x114BF, 0x114C0); (0x114C2, 0x114C3);
   (0x115B2, 0x115B5); (0x115BC, 0x115BD); (0x115BF, 0x115C0);
   (0x115DC, 0x115DD); (0x11633, 0x1163A); (0x1163D, 0x1163D);
   (0x1163F, 0x11640); (0x116AB, 0x116AB); (0x116AD, 0x116AD);
   (0x116B0, 0x116B5); (0x116B7, 0x116B7); (0x1171D, 0x1171F);
   (0x11722, 0x11725); (0x11727, 0x1172B); (0x1182F, 0x11837);
   (0x11839, 0x1183A); (0x1193B, 0x1193C); (0x1193E, 0x1193E);
   (0x11943, 0x11943); (0x119D4, 0x119D7); (0x119DA, 0x119DB);
   (0x119E0, 0x119E0); (0x11A01, 0x11A0A); (0x11A33, 0x11A38);
   (0x11A3B, 0x11A3E); (0x11A47, 0x11A47); (0x11A51, 0x11A56);
   (0x11A59, 0x11A5B); (0x11A8A, 0x11A96); (0x11A98, 0x11A99);
   (0x11C30, 0x11C36); (0x11C38, 0x11C3D); (0x11C3F, 0x11C3F);
   (0x11C92, 0x11CA7); (0x11CAA, 0x11CB0); (0x11CB2, 0x11CB3);
   (0x11CB5, 0x11CB6); (0x11D31, 0x11D36); (0x11D3A, 0x11D3A);
   (0x11D3C, 0x11D3D); (0x11D3F, 0x11D45); (0x11D47, 0x11D47);
   (0x11D90, 0x11D91); (0x11D95, 0x11D95); (0x11D97, 0x11D97);
   (0x11EF3, 0x11EF4); (0x13430, 0x13438); (0x16AF0, 0x16AF4);
   (0x16B30, 0x16B36); (0x16B40, 0x16B43); (0x16F4F, 0x16F4F);
   (0x16F8F, 0x16F9F); (0x16FE0, 0x16FE1); (0x16FE3, 0x16FE4);
   (0x1AFF0, 0x1AFF3); (0x1AFF5, 0x1AFFB); (0x1AFFD, 0x1AFFE);
   (0x1BC9D, 0x1BC9E); (0x1BCA0, 0x1BCA3); (0x1CF00, 0x1CF2D);
   (0x1CF30, 0x1CF46); (0x1D167, 0x1D169); (0x1D173, 0x1D182);
   (0x1D185, 0x1D18B); (0x1D1AA, 0x1D1AD); (0x1D242, 0x1D244);
   (0x1DA00, 0x1DA36); (0x1DA3B, 0x1DA6C); (0x1DA75, 0x1DA75);
   (0x1DA84, 0x1DA84); (0x1DA9B, 0x1DA9F); (0x1DAA1, 0x1DAAF);
   (0x1E000, 0x1E006); (0x1E008, 0x1E018); (0x1E01B, 0x1E021);
   (0x1E023, 0x1E024); (0x1E026, 0x1E02A); (0x1E130, 0x1E13D);
   (0x1E2AE, 0x1E2AE); (0x1E2EC, 0x1E2EF); (0x1E8D0, 0x1E8D6);
   (0x1E944, 0x1E94B); (0x1F3FB, 0x1F3FF); (0xE0001, 0xE0001);
   (0xE0020, 0xE007F); (0xE0100, 0xE01EF)].

(** The lower case of the characters that have one other than themselves,
    past ASCII. *)
Definition lower_runs : list run :=
  [(0xC0, 23, 1, 32); (0xD8, 7, 1, 32); (0x100, 24, 2, 1); (0x132, 3, 2, 1);
   (0x139, 8, 2, 1); (0x14A, 23, 2, 1); (0x178, 1, 1, (-121));
   (0x179, 3, 2, 1); (0x181, 1, 1, 210); (0x182, 2, 2, 1); (0x186, 1, 1, 206);
   (0x187, 1, 1, 1); (0x189, 2, 1, 205); (0x18B, 1, 1, 1); (0x18E, 1, 1, 79);
   (0x18F, 1, 1, 202); (0x190, 1, 1, 203); (0x191, 1, 1, 1);
   (0x193, 1, 1, 205); (0x194, 1, 1, 207); (0x196, 1, 1, 211);
   (0x197, 1, 1, 209); (0x198, 1, 1, 1); (0x19C, 1, 1, 211);
   (0x19D, 1, 1, 213); (0x19F, 1, 1, 214); (0x1A0, 3, 2, 1);
   (0x1A6, 1, 1, 218); (0x1A7, 1, 1, 1); (0x1A9, 1, 1, 218); (0x1AC, 1, 1, 1);
   (0x1AE, 1, 1, 218); (0x1AF, 1, 1, 1); (0x1B1, 2, 1, 217); (0x1B3, 2, 2, 1);
   (0x1B7, 1, 1, 219); (0x1B8, 1, 1, 1); (0x1BC, 1, 1, 1); (0x1C4, 1, 1, 2);
   (0x1C5, 1, 1, 1); (0x1C7, 1, 1, 2); (0x1C8, 1, 1, 1); (0x1CA, 1, 1, 2);
   (0x1CB, 9, 2, 1); (0x1DE, 9, 2, 1); (0x1F1, 1, 1, 2); (0x1F2, 2, 2, 1);
   (0x1F6, 1, 1, (-97)); (0x1F7, 1, 1, (-56)); (0x1F8, 20, 2, 1);
   (0x220, 1, 1, (-130)); (0x222, 9, 2, 1); (0x23A, 1, 1, 10795);
   (0x23B, 1, 1, 1); (0x23D, 1, 1, (-163)); (0x23E, 1, 1, 10792);
   (0x241, 1, 1, 1); (0x243, 1, 1, (-195)); (0x244, 1, 1, 69);
   (0x245, 1, 1, 71); (0x246, 5, 2, 1); (0x370, 2, 2, 1); (0x376, 1, 1, 1);
   (0x37F, 1, 1, 116); (0x386, 1, 1, 38); (0x388, 3, 1, 37);
   (0x38C, 1, 1, 64); (0x38E, 2, 1, 63); (0x391, 17, 1, 32);
   (0x3A3, 9, 1, 32); (0x3CF, 1, 1, 8); (0x3D8, 12, 2, 1);
   (0x3F4, 1, 1, (-60)); (0x3F7, 1, 1, 1); (0x3F9, 1, 1, (-7));
   (0x3FA, 1, 1, 1); (0x3FD, 3, 1, (-130)); (0x400, 16, 1, 80);
   (0x410, 32, 1, 32); (0x460, 17, 2, 1); (0x48A, 27, 2, 1);
   (0x4C0, 1, 1, 15); (0x4C1, 7, 2, 1); (0x4D0, 48, 2, 1); (0x531, 38, 1, 48);
   (0x10A0, 38, 1, 7264); (0x10C7, 1, 1, 7264); (0x10CD, 1, 1, 7264);
   (0x13A0, 80, 1, 38864); (0x13F0, 6, 1, 8); (0x1C90, 43, 1, (-3008));
   (0x1CBD, 3, 1, (-3008)); (0x1E00, 75, 2, 1); (0x1E9E, 1, 1, (-7615));
   (0x1EA0, 48, 2, 1); (0x1F08, 8, 1, (-8)); (0x1F18, 6, 1, (-8));
   (0x1F28, 8, 1, (-8)); (0x1F38, 8, 1, (-8)); (0x1F48, 6, 1, (-8));
   (0x1F59, 4, 2, (-8)); (0x1F68, 8, 1, (-8)); (0x1F88, 8, 1, (-8));
   (0x1F98, 8, 1, (-8)); (0x1FA8, 8, 1, (-8)); (0x1FB8, 2, 1, (-8));
   (0x1FBA, 2, 1, (-74)); (0x1FBC, 1, 1, (-9)); (0x1FC8, 4, 1, (-86));
   (0x1FCC, 1, 1, (-9)); (0x1FD8, 2, 1, (-8)); (0x1FDA, 2, 1, (-100));
   (0x1FE8, 2, 1, (-8)); (0x1FEA, 2, 1, (-112)); (0x1FEC, 1, 1, (-7));
   (0x1FF8, 2, 1, (-128)); (0x1FFA, 2, 1, (-126)); (0x1FFC, 1, 1, (-9));
   (0x2126, 1, 1, (-7517)); (0x212A, 1, 1, (-8383)); (0x212B, 1, 1, (-8262));
   (0x2132, 1, 1, 28); (0x2160, 16, 1, 16); (0x2183, 1, 1, 1);
   (0x24B6, 26, 1, 26); (0x2C00, 48, 1, 48); (0x2C60, 1, 1, 1);
   (0x2C62, 1, 1, (-10743)); (0x2C63, 1, 1, (-3814));
   (0x2C64, 1, 1, (-10727)); (0x2C67, 3, 2, 1); (0x2C6D, 1, 1, (-10780));
   (0x2C6E, 1, 1, (-10749)); (0x2C6F, 1, 1, (-10783));
   (0x2C70, 1, 1, (-10782)); (0x2C72, 1, 1, 1); (0x2C75, 1, 1, 1);
   (0x2C7E, 2, 1, (-10815)); (0x2C80, 50, 2, 1); (0x2CEB, 2, 2, 1);
   (0x2CF2, 1, 1, 1); (0xA640, 23, 2, 1); (0xA680, 14, 2, 1);
   (0xA722, 7, 2, 1); (0xA732, 31, 2, 1); (0xA779, 2, 2, 1);
   (0xA77D, 1, 1, (-35332)); (0xA77E, 5, 2, 1); (0xA78B, 1, 1, 1);
   (0xA78D, 1, 1, (-42280)); (0xA790, 2, 2, 1); (0xA796, 10, 2, 1);
   (0xA7AA, 1, 1, (-42308)); (0xA7AB, 1, 1, (-42319));
   (0xA7AC, 1, 1, (-42315)); (0xA7AD, 1, 1, (-42305));
   (0xA7AE, 1, 1, (-42308)); (0xA7B0, 1, 1, (-42258));
   (0xA7B1, 1, 1, (-42282)); (0xA7B2, 1, 1, (-42261)); (0xA7B3, 1, 1, 928);
   (0xA7B4, 8, 2, 1); (0xA7C4, 1, 1, (-48)); (0xA7C5, 1, 1, (-42307));
   (0xA7C6, 1, 1, (-35384)); (0xA7C7, 2, 2, 1); (0xA7D0, 1, 1, 1);
   (0xA7D6, 2, 2, 1); (0xA7F5, 1, 1, 1); (0xFF21, 26, 1, 32);
   (0x10400, 40, 1, 40); (0x104B0, 36, 1, 40); (0x10570, 19, 2, 39);
   (0x10571, 5, 2, 39); (0x1057D, 7, 2, 39); (0x1058D, 3, 2, 39);
   (0x10595, 1, 1, 39); (0x10C80, 51, 1, 64); (0x118A0, 32, 1, 32);
   (0x16E40, 32, 1, 32); (0x1E900, 34, 1, 34)].

(** The lower case that is more than one character. *)
Definition lower_special : list (Z * text) :=
  [(0x130, [0x69; 0x307])].

(** The upper case, likewise. *)
Definition upper_runs : list run :=
  [(0xB5, 1, 1, 743); (0xE0, 23, 1, (-32)); (0xF8, 7, 1, (-32));
   (0xFF, 1, 1, 121); (0x101, 24, 2, (-1)); (0x131, 1, 1, (-232));
   (0x133, 3, 2, (-1)); (0x13A, 8, 2, (-1)); (0x14B, 23, 2, (-1));
   (0x17A, 3, 2, (-1)); (0x17F, 1, 1, (-300)); (0x180, 1, 1, 195);
   (0x183, 2, 2, (-1)); (0x188, 1, 1, (-1)); (0x18C, 1, 1, (-1));
   (0x192, 1, 1, (-1)); (0x195, 1, 1, 97); (0x199, 1, 1, (-1));
   (0x19A, 1, 1, 163); (0x19E, 1, 1, 130); (0x1A1, 3, 2, (-1));
   (0x1A8, 1, 1, (-1)); (0x1AD, 1, 1, (-1)); (0x1B0, 1, 1, (-1));
   (0x1B4, 2, 2, (-1)); (0x1B9, 1, 1, (-1)); (0x1BD, 1, 1, (-1));
   (0x1BF, 1, 1, 56); (0x1C5, 1, 1, (-1)); (0x1C6, 1, 1, (-2));
   (0x1C8, 1, 1, (-1)); (0x1C9, 1, 1, (-2)); (0x1CB, 1, 1, (-1));
   (0x1CC, 1, 1, (-2)); (0x1CE, 8, 2, (-1)); (0x1DD, 1, 1, (-79));
   (0x1DF, 9, 2, (-1)); (0x1F2, 1, 1, (-1)); (0x1F3, 1, 1, (-2));
   (0x1F5, 1, 1, (-1)); (0x1F9, 20, 2, (-1)); (0x223, 9, 2, (-1));
   (0x23C, 1, 1, (-1)); (0x23F, 2, 1, 10815); (0x242, 1, 1, (-1));
   (0x247, 5, 2, (-1)); (0x250, 1, 1, 10783); (0x251, 1, 1, 10780);
   (0x252, 1, 1, 10782); (0x253, 1, 1, (-210)); (0x254, 1, 1, (-206));
   (0x256, 2, 1, (-205)); (0x259, 1, 1, (-202)); (0x25B, 1, 1, (-203));
   (0x25C, 1, 1, 42319); (0x260, 1, 1, (-205)); (0x261, 1, 1, 42315);
   (0x263, 1, 1, (-207)); (0x265, 1, 1, 42280); (0x266, 1, 1, 42308);
   (0x268, 1, 1, (-209)); (0x269, 1, 1, (-211)); (0x26A, 1, 1, 42308);
   (0x26B, 1, 1, 10743); (0x26C, 1, 1, 42305); (0x26F, 1, 1, (-211));
   (0x271, 1, 1, 10749); (0x272, 1, 1, (-213)); (0x275, 1, 1, (-214));
   (0x27D, 1, 1, 10727); (0x280, 1, 1, (-218)); (0x282, 1, 1, 42307);
   (0x283, 1, 1, (-218)); (0x287, 1, 1, 42282); (0x288, 1, 1, (-218));
   (0x289, 1, 1, (-69)); (0x28A, 2, 1, (-217)); (0x28C, 1, 1, (-71));
   (0x292, 1, 1, (-219)); (0x29D, 1, 1, 42261); (0x29E, 1, 1, 42258);
   (0x345, 1, 1, 84); (0x371, 2, 2, (-1)); (0x377, 1, 1, (-1));
   (0x37B, 3, 1, 130); (0x3AC, 1, 1, (-38)); (0x3AD, 3, 1, (-37));
   (0x3B1, 17, 1, (-32)); (0x3C2, 1, 1, (-31)); (0x3C3, 9, 1, (-32));
   (0x3CC, 1, 1, (-64)); (0x3CD, 2, 1, (-63)); (0x3D0, 1, 1, (-62));
   (0x3D1, 1, 1, (-57)); (0x3D5, 1, 1, (-47)); (0x3D6, 1, 1, (-54));
   (0x3D7, 1, 1, (-8)); (0x3D9, 12, 2, (-1)); (0x3F0, 1, 1, (-86));
   (0x3F1, 1, 1, (-80)); (0x3F2, 1, 1, 7); (0x3F3, 1, 1, (-116));
   (0x3F5, 1, 1, (-96)); (0x3F8, 1, 1, (-1)); (0x3FB, 1, 1, (-1));
   (0x430, 32, 1, (-32)); (0x450, 16, 1, (-80)); (0x461, 17, 2, (-1));
   (0x48B, 27, 2, (-1)); (0x4C2, 7, 2, (-1)); (0x4CF, 1, 1, (-15));
   (0x4D1, 48, 2, (-1)); (0x561, 38, 1, (-48)); (0x10D0, 43, 1, 3008);
   (0x10FD, 3, 1, 3008); (0x13F8, 6, 1, (-8)); (0x1C80, 1, 1, (-6254));
   (0x1C81, 1, 1, (-6253)); (0x1C82, 1, 1, (-6244)); (0x1C83, 2, 1, (-6242));
   (0x1C85, 1, 1, (-6243)); (0x1C86, 1, 1, (-6236)); (0x1C87, 1, 1, (-6181));
   (0x1C88, 1, 1, 35266); (0x1D79, 1, 1, 35332); (0x1D7D, 1, 1, 3814);
   (0x1D8E, 1, 1, 35384); (0x1E01, 75, 2, (-1)); (0x1E9B, 1, 1, (-59));
   (0x1EA1, 48, 2, (-1)); (0x1F00, 8, 1, 8); (0x1F10, 6, 1, 8);
   (0x1F20, 8, 1, 8); (0x1F30, 8, 1, 8); (0x1F40, 6, 1, 8); (0x1F51, 4, 2, 8);
   (0x1F60, 8, 1, 8); (0x1F70, 2, 1, 74); (0x1F72, 4, 1, 86);
   (0x1F76, 2, 1, 100); (0x1F78, 2, 1, 128); (0x1F7A, 2, 1, 112);
   (0x1F7C, 2, 1, 126); (0x1FB0, 2, 1, 8); (0x1FBE, 1, 1, (-7205));
   (0x1FD0, 2, 1, 8); (0x1FE0, 2, 1, 8); (0x1FE5, 1, 1, 7);
   (0x214E, 1, 1, (-28)); (0x2170, 16, 1, (-16)); (0x2184, 1, 1, (-1));
   (0x24D0, 26, 1, (-26)); (0x2C30, 48, 1, (-48)); (0x2C61, 1, 1, (-1));
   (0x2C65, 1, 1, (-10795)); (0x2C66, 1, 1, (-10792)); (0x2C68, 3, 2, (-1));
   (0x2C73, 1, 1, (-1)); (0x2C76, 1, 1, (-1)); (0x2C81, 50, 2, (-1));
   (0x2CEC, 2, 2, (-1)); (0x2CF3, 1, 1, (-1)); (0x2D00, 38, 1, (-7264));
   (0x2D27, 1, 1, (-7264)); (0x2D2D, 1, 1, (-7264)); (0xA641, 23, 2, (-1));
   (0xA681, 14, 2, (-1)); (0xA723, 7, 2, (-1)); (0xA733, 31, 2, (-1));
   (0xA77A, 2, 2, (-1)); (0xA77F, 5, 2, (-1)); (0xA78C, 1, 1, (-1));
   (0xA791, 2, 2, (-1)); (0xA794, 1, 1, 48); (0xA797, 10, 2, (-1));
   (0xA7B5, 8, 2, (-1)); (0xA7C8, 2, 2, (-1)); (0xA7D1, 1, 1, (-1));
   (0xA7D7, 2, 2, (-1)); (0xA7F6, 1, 1, (-1)); (0xAB53, 1, 1, (-928));
   (0xAB70, 80, 1, (-38864)); (0xFF41, 26, 1, (-32)); (0x10428, 40, 1, (-40));
   (0x104D8, 36, 1, (-40)); (0x10597, 19, 2, (-39)); (0x10598, 5, 2, (-39));
   (0x105A4, 7, 2, (-39)); (0x105B4, 3, 2, (-39)); (0x105BC, 1, 1, (-39));
   (0x10CC0, 51, 1, (-64)); (0x118C0, 32, 1, (-32)); (0x16E60, 32, 1, (-32));
   (0x1E922, 34, 1, (-34))].

(** The upper case that is more than one character. *)
Definition upper_special : list (Z * text) :=
  [(0xDF, [0x53; 0x53]); (0x149, [0x2BC; 0x4E]); (0x1F0, [0x4A; 0x30C]);
   (0x390, [0x399; 0x308; 0x301]); (0x3B0, [0x3A5; 0x308; 0x301]);
   (0x587, [0x535; 0x552]); (0x1E96, [0x48; 0x331]); (0x1E97, [0x54; 0x308]);
   (0x1E98, [0x57; 0x30A]); (0x1E99, [0x59; 0x30A]); (0x1E9A, [0x41; 0x2BE]);
   (0x1F50, [0x3A5; 0x313]); (0x1F52, [0x3A5; 0x313; 0x300]);
   (0x1F54, [0x3A5; 0x313; 0x301]); (0x1F56, [0x3A5; 0x313; 0x342]);
   (0x1F80, [0x1F08; 0x399]); (0x1F81, [0x1F09; 0x399]);
   (0x1F82, [0x1F0A; 0x399]); (0x1F83, [0x1F0B; 0x399]);
   (0x1F84, [0x1F0C; 0x399]); (0x1F85, [0x1F0D; 0x399]);
   (0x1F86, [0x1F0E; 0x399]); (0x1F87, [0x1F0F; 0x399]);
   (0x1F88, [0x1F08; 0x399]); (0x1F89, [0x1F09; 0x399]);
   (0x1F8A, [0x1F0A; 0x399]); (0x1F8B, [0x1F0B; 0x399]);
   (0x1F8C, [0x1F0C; 0x399]); (0x1F8D, [0x1F0D; 0x399]);
   (0x1F8E, [0x1F0E; 0x399]); (0x1F8F, [0x1F0F; 0x399]);
   (0x1F90, [0x1F28; 0x399]); (0x1F91, [0x1F29; 0x399]);
   (0x1F92, [0x1F2A; 0x399]); (0x1F93, [0x1F2B; 0x399]);
   (0x1F94, [0x1F2C; 0x399]); (0x1F95, [0x1F2D; 0x399]);
   (0x1F96, [0x1F2E; 0x399]); (0x1F97, [0x1F2F; 0x399]);
   (0x1F98, [0x1F28; 0x399]); (0x1F99, [0x1F29; 0x399]);
   (0x1F9A, [0x1F2A; 0x399]); (0x1F9B, [0x1F2B; 0x399]);
   (0x1F9C, [0x1F2C; 0x399]); (0x1F9D, [0x1F2D; 0x399]);
   (0x1F9E, [0x1F2E; 0x399]); (0x1F9F, [0x1F2F; 0x399]);
   (0x1FA0, [0x1F68; 0x399]); (0x1FA1, [0x1F69; 0x399]);
   (0x1FA2, [0x1F6A; 0x399]); (0x1FA3, [0x1F6B; 0x399]);
   (0x1FA4, [0x1F6C; 0x399]); (0x1FA5, [0x1F6D; 0x399]);
   (0x1FA6, [0x1F6E; 0x399]); (0x1FA7, [0x1F6F; 0x399]);
   (0x1FA8, [0x1F68; 0x399]); (0x1FA9, [0x1F69; 0x399]);
   (0x1FAA, [0x1F6A; 0x399]); (0x1FAB, [0x1F6B; 0x399]);
   (0x1FAC, [0x1F6C; 0x399]); (0x1FAD, [0x1F6D; 0x399]);
   (0x1FAE, [0x1F6E; 0x399]); (0x1FAF, [0x1F6F; 0x399]);
   (0x1FB2, [0x1FBA; 0x399]); (0x1FB3, [0x391; 0x399]);
   (0x1FB4, [0x386; 0x399]); (0x1FB6, [0x391; 0x342]);
   (0x1FB7, [0x391; 0x342; 0x399]); (0x1FBC, [0x391; 0x399]);
   (0x1FC2, [0x1FCA; 0x399]); (0x1FC3, [0x397; 0x399]);
   (0x1FC4, [0x389; 0x399]); (0x1FC6, [0x397; 0x342]);
   (0x1FC7, [0x397; 0x342; 0x399]); (0x1FCC, [0x397; 0x399]);
   (0x1FD2, [0x399; 0x308; 0x300]); (0x1FD3, [0x399; 0x308; 0x301]);
   (0x1FD6, [0x399; 0x342]); (0x1FD7, [0x399; 0x308; 0x342]);
   (0x1FE2, [0x3A5; 0x308; 0x300]); (0x1FE3, [0x3A5; 0x308; 0x301]);
   (0x1FE4, [0x3A1; 0x313]); (0x1FE6, [0x3A5; 0x342]);
   (0x1FE7, [0x3A5; 0x308; 0x342]); (0x1FF2, [0x1FFA; 0x399]);
   (0x1FF3, [0x3A9; 0x399]); (0x1FF4, [0x38F; 0x399]);
   (0x1FF6, [0x3A9; 0x342]); (0x1FF7, [0x3A9; 0x342; 0x399]);
   (0x1FFC, [0x3A9; 0x399]); (0xFB00, [0x46; 0x46]); (0xFB01, [0x46; 0x49]);
   (0xFB02, [0x46; 0x4C]); (0xFB03, [0x46; 0x46; 0x49]);
   (0xFB04, [0x46; 0x46; 0x4C]); (0xFB05, [0x53; 0x54]);
   (0xFB06, [0x53; 0x54]); (0xFB13, [0x544; 0x546]); (0xFB14, [0x544; 0x535]);
   (0xFB15, [0x544; 0x53B]); (0xFB16, [0x54E; 0x546]);
   (0xFB17, [0x544; 0x53D])].

(** The title case where it is not the upper case. *)
Definition title_runs : list run :=
  [(0x1C4, 1, 1, 1); (0x1C5, 1, 1, 0); (0x1C6, 1, 1, (-1)); (0x1C7, 1, 1, 1);
   (0x1C8, 1, 1, 0); (0x1C9, 1, 1, (-1)); (0x1CA, 1, 1, 1); (0x1CB, 1, 1, 0);
   (0x1CC, 1, 1, (-1)); (0x1F1, 1, 1, 1); (0x1F2, 1, 1, 0);
   (0x1F3, 1, 1, (-1)); (0x10D0, 43, 1, 0); (0x10FD, 3, 1, 0);
   (0x1F80, 8, 1, 8); (0x1F88, 8, 1, 0); (0x1F90, 8, 1, 8); (0x1F98, 8, 1, 0);
   (0x1FA0, 8, 1, 8); (0x1FA8, 8, 1, 0); (0x1FB3, 1, 1, 9); (0x1FBC, 1, 1, 0);
   (0x1FC3, 1, 1, 9); (0x1FCC, 1, 1, 0); (0x1FF3, 1, 1, 9); (0x1FFC, 1, 1, 0)].

(** The title case that is more than one character. *)
Definition title_special : list (Z * text) :=
  [(0xDF, [0x53; 0x73]); (0x587, [0x535; 0x582]); (0x1FB2, [0x1FBA; 0x345]);
   (0x1FB4, [0x386; 0x345]); (0x1FB7, [0x391; 0x342; 0x345]);
   (0x1FC2, [0x1FCA; 0x345]); (0x1FC4, [0x389; 0x345]);
   (0x1FC7, [0x397; 0x342; 0x345]); (0x1FF2, [0x1FFA; 0x345]);
   (0x1FF4, [0x38F; 0x345]); (0x1FF7, [0x3A9; 0x342; 0x345]);
   (0xFB00, [0x46; 0x66]); (0xFB01, [0x46; 0x69]); (0xFB02, [0x46; 0x6C]);
   (0xFB03, [0x46; 0x66; 0x69]); (0xFB04, [0x46; 0x66; 0x6C]);
   (0xFB05, [0x53; 0x74]); (0xFB06, [0x53; 0x74]); (0xFB13, [0x544; 0x576]);
   (0xFB14, [0x544; 0x565]); (0xFB15, [0x544; 0x56B]);
   (0xFB16, [0x54E; 0x576]); (0xFB17, [0x544; 0x56D])].

(** [str.isspace] of a character. *)
Definition is_space (c : Z) : bool := in_ranges c space.

(** The value of a decimal digit, of any script. *)
Fixpoint digit_from (c : Z) (zeros : list Z) : option Z :=
  match zeros with
  | [] => None
  | z :: zeros' => if (z <=? c) && (c <? z + 10) then Some (c - z) else digit_from c zeros'
  end.
Definition decimal_value (c : Z) : option Z := digit_from c digit_zeros.

Definition is_cased (c : Z) : bool := in_ranges c cased.
Definition is_case_ignorable (c : Z) : bool := in_ranges c ignorable.

(** The lower, upper and title case of one character. *)
Definition lower_char (c : Z) : text :=
  if c <? 0x80 then [if (0x41 <=? c) && (c <=? 0x5A) then c + 0x20 else c]
  else
    match mapped lower_runs lower_special c with
    | Some l => l
    | None => [c]
    end.

Definition upper_char (c : Z) : text :=
  if c <? 0x80 then [if (0x61 <=? c) && (c <=? 0x7A) then c - 0x20 else c]
  else
    match mapped upper_runs upper_special c with
    | Some l => l
    | None => [c]
    end.

Definition title_char (c : Z) : text :=
  match mapped title_runs title_special c with
  | Some l => l
  | None => upper_char c
  end.

(** The first character that is not case-ignorable. *)
Fixpoint skip_ignorable (l : text) : text :=
  match l with
  | [] => []
  | c :: r => if is_case_ignorable c then skip_ignorable r else l
  end.

(** A capital sigma is final when a cased letter comes before it and none
    comes after it, case-ignorable characters apart; [before] is the text
    before it, nearest character first. *)
Definition final_sigma (before after : text) : bool :=
  match skip_ignorable before with
  | c :: _ =>
      is_cased c &&
      match skip_ignorable after with
      | d :: _ => negb (is_cased d)
      | [] => true
      end
  | [] => false
  end.

(** The lower case of the text [l] that follows [before]. *)
Fixpoint lower_from (before l : text) : text :=
  match l with
  | [] => []
  | c :: r =>
      ((if c =? 0x3A3 then [if final_sigma before r then 0x3C2 else 0x3C3] else lower_char c)
         ++ lower_from (c :: before) r)%list
  end.

(** [s.lower()], [s.upper()], [s.capitalize()] *)
Definition lower (s : string) : string := encode (lower_from [] (decode s)).
Definition upper (s : string) : string := encode (flat_map upper_char (decode s)).
Definition capitalize (s : string) : string :=
  match decode s with
  | [] => EmptyString
  | c :: r => encode (title_char c ++ lower_from [c] r)%list
  end.

Fixpoint map_string (f : ascii -> ascii) (s : string) : string :=
  match s with
  | EmptyString => EmptyString
  | String c r => String (f c) (map_string f r)
  end.

(** [s.replace(",", ".")]; a comma is one byte, and the byte is part of no
    other encoding. *)
Definition replace_comma (s : string) : string :=
  map_string (fun c => if Ascii.eqb c "," then "."%char else c) s.

Fixpoint lstrip_text (l : text) : text :=
  match l with
  | [] => []
  | c :: r => if is_space c then lstrip_text r else l
  end.

(** The text without its trailing white space: a character is kept when
    something that is not white space follows or it is not white space. *)
Fixpoint rstrip_text (l : text) : text :=
  match l with
  | [] => []
  | c :: r =>
      match rstrip_text r with
      | [] => if is_space c then [] else [c]
      | r' => c :: r'
      end
  end.

(** The maximal runs of characters that are not white space. *)
Fixpoint split_text (l : text) : list text :=
  match l with
  | [] => []
  | c :: r =>
      if is_space c then split_text r
      else
        match r with
        | [] => [[c]]
        | c' :: _ =>
            if is_space c' then [c] :: split_text r
            else
              match split_text r with
              | w :: ws => (c :: w) :: ws
              | [] => [[c]]
              end
        end
  end.

(** [s.strip()] and [s.split()] *)
Definition strip (s : string) : string := encode (rstrip_text (lstrip_text (decode s))).
Definition split (s : string) : list string := map encode (split_text (decode s)).

(** [sep.join(l)] *)
Definition join (sep : string) (l : list string) : string := String.concat sep l.

(** ["@" in s] and [s.split("@", 1)[0]] *)
Fixpoint contains_at (s : string) : bool :=
  match s with
  | EmptyString => false
  | String c r => Ascii.eqb c "@" || contains_at r
  end.

Fixpoint before_at (s : string) : string :=
  match s with
  | EmptyString => EmptyString
  | String c r => if Ascii.eqb c "@" then EmptyString else String c (before_at r)
  end.

(** Decimal text of an integer, as [str(n)] and [%d] print it. *)
Definition str_of_Z (z : Z) : string := NilZero.string_of_int (Z.to_int z).

(** *** Integer literals *)

(** What [int] and [float] read of a text: white space past ASCII becomes
    a space and a decimal digit of any script the ASCII digit of its value;
    the first other character past ASCII becomes a question mark and ends
    the text. *)
Fixpoint to_ascii (l : text) : string :=
  match l with
  | [] => EmptyString
  | c :: r =>
      if c <? 127 then String (byte c) (to_ascii r)
      else if is_space c then String " " (to_ascii r)
      else
        match decimal_value c with
        | Some d => String (byte (0x30 + d)) (to_ascii r)
        | None => String "?" EmptyString
        end
  end.

(** The white space of the C locale, which is what a literal may have
    around it: TAB..CR and the space. *)
Definition is_c_space (c : ascii) : bool :=
  ((9 <=? code c) && (code c <=? 13)) || (code c =? 32).

Fixpoint c_lstrip (s : string) : string :=
  match s with
  | EmptyString => EmptyString
  | String c r => if is_c_space c then c_lstrip r else s
  end.

Fixpoint c_rstrip (s : string) : string :=
  match s with
  | EmptyString => EmptyString
  | String c r =>
      match c_rstrip r with
      | EmptyString => if is_c_space c then EmptyString else String c EmptyString
      | r' => String c r'
      end
  end.

Definition c_strip (s : string) : string := c_rstrip (c_lstrip s).

(** The letters of a literal in lower case: A..Z only. *)
Definition ascii_lower (s : string) : string :=
  map_string (fun c => if (65 <=? code c) && (code c <=? 90)
                       then ascii_of_N (N_of_ascii c + 32) else c) s.

Definition digit_val (c : ascii) : option Z :=
  let n := code c in
  if (48 <=? n) && (n <=? 57) then Some (n - 48) else None.

(** The rest of a [digitpart ::= digit (["_"] digit)*] once its first digit
    is read: [acc] is the value so far and [n] the number of digits.  The
    result is the value, the number of digits and the text left over. *)
Fixpoint digits_tail (acc n : Z) (s : string) : Z * Z * string :=
  match s with
  | EmptyString => (acc, n, s)
  | String c r =>
      match digit_val c with
      | Some d => digits_tail (10 * acc + d) (n + 1) r
      | None =>
          if Ascii.eqb c "_" then
            match r with
            | String c2 r2 =>
                match digit_val c2 with
                | Some d => digits_tail (10 * acc + d) (n + 1) r2
                | None => (acc, n, s)
                end
            | EmptyString => (acc, n, s)
            end
          else (acc, n, s)
      end
  end.

(** A [digitpart] continuing the number [acc]. *)
Definition digitpart (acc : Z) (s : string) : option (Z * Z * string) :=
  match s with
  | String c r =>
      match digit_val c with
      | Some d => Some (digits_tail (10 * acc + d) 1 r)
      | None => None
      end
  | EmptyString => None
  end.

(** An optional sign: [true] for a minus. *)
Definition sign_of (s : string) : bool * string :=
  match s with
  | String "+" r => (false, r)
  | String "-" r => (true, r)
  | _ => (false, s)
  end.

(** An integer literal in base ten, as [PyLong_FromString] reads it:
    optional white space around an optional sign and a [digitpart]. *)
Definition int_literal (s : string) : option Z :=
  let '(neg, body) := sign_of (c_strip s) in
  match digitpart 0 body with
  | Some (v, _, EmptyString) => Some (if neg then - v else v)
  | _ => None
  end.

(** [int(s)] for a string *)
Definition parse_int (s : string) : option Z := int_literal (to_ascii (decode s)).

(** *** Floating point *)

Definition prec : Z := 53.
Definition emax : Z := 1024.

Definition fadd : spec_float -> spec_float -> spec_float := SFadd prec emax.
Definition fsub : spec_float -> spec_float -> spec_float := SFsub prec emax.
Definition fdiv : spec_float -> spec_float -> spec_float := SFdiv prec emax.

(** The double nearest to the integer [z] (ties to even), an infinity when
    [z] is out of range. *)
Definition nearest_of_Z (z : Z) : spec_float := binary_normalize prec emax z 0 false.

(** The double nearest to [m * 10 ^ e10] for [m >= 0], with the sign [neg]:
    what the correctly rounded [strtod] returns for a decimal literal. *)
Definition float_of_decimal (neg : bool) (m e10 : Z) : spec_float :=
  match m with
  | Zpos p =>
      if 0 <=? e10 then binary_round prec emax neg (Z.to_pos (m * 10 ^ e10)) 0
      else fdiv (S754_finite neg p 0) (S754_finite false (Z.to_pos (10 ^ (- e10))) 0)
  | _ => S754_zero neg
  end.

(** The exponent part of a float literal: nothing, or [e] or [E], an optional
    sign and a [digitpart], up to the end of the text. *)
Definition parse_exponent (s : string) : option Z :=
  match s with
  | EmptyString => Some 0
  | String c r =>
      if Ascii.eqb c "e" || Ascii.eqb c "E" then
        let '(neg, body) := sign_of r in
        match digitpart 0 body with
        | Some (v, _, EmptyString) => Some (if neg then - v else v)
        | _ => None
        end
      else None
  end.

(** [number ::= [digitpart] "." digitpart | digitpart ["."]]: the digits read
    as one integer, the number of digits after the point, the text left. *)
Definition parse_number (s : string) : option (Z * Z * string) :=
  match s with
  | String "." r =>
      match digitpart 0 r with
      | Some (m, n, rest) => Some (m, n, rest)
      | None => None
      end
  | _ =>
      match digitpart 0 s with
      | Some (i, _, String "." r) =>
          match digitpart i r with
          | Some (m, n, rest) => Some (m, n, rest)
          | None => Some (i, 0, r)
          end
      | Some (i, _, rest) => Some (i, 0, rest)
      | None => None
      end
  end.

(** A float literal: optional white space around an optional sign and
    [inf], [infinity] or [nan] in any letter case, or a decimal number with
    an optional exponent. *)
Definition float_literal (s : string) : option spec_float :=
  let '(neg, body) := sign_of (c_strip s) in
  let word := ascii_lower body in
  if String.eqb word "inf" || String.eqb word "infinity" then Some (S754_infinity neg)
  else if String.eqb word "nan" then Some S754_nan
  else
    match parse_number body with
    | Some (m, nfrac, rest) =>
        match parse_exponent rest with
        | Some e => Some (float_of_decimal neg m (e - nfrac))
        | None => None
        end
    | None => None
    end.

(** [float(s)] for a string *)
Definition parse_float (s : string) : option spec_float :=
  float_literal (to_ascii (decode s)).

(** [float(n)] for an integer. *)
Definition float_of_int (z : Z) : result spec_float :=
  match nearest_of_Z z with
  | S754_infinity _ => Raise (OverflowError "int too large to convert to float")
  | f => Ok f
  end.

(** [int(x)] for a float: truncation towards zero. *)
Definition int_of_float (x : spec_float) : result Z :=
  match x with
  | S754_zero _ => Ok 0
  | S754_finite s m e =>
      let a := if 0 <=? e then Zpos m * 2 ^ e else Zpos m / 2 ^ (- e) in
      Ok (if s then - a else a)
  | S754_infinity _ => Raise (OverflowError "cannot convert float infinity to integer")
  | S754_nan => Raise (ValueError "cannot convert float NaN to integer")
  end.

(** The integer nearest to [a / b] for [0 <= a] and [0 < b], a tie going to
    the even neighbour. *)
Definition div_half_even (a b : Z) : Z :=
  let q := a / b in
  match 2 * (a mod b) ?= b with
  | Lt => q
  | Gt => q + 1
  | Eq => if Z.even q then q else q + 1
  end.

(** The number of hundredths nearest to the magnitude of a finite float,
    ties to even: the digits [dtoa] produces in mode 3 with two decimals. *)
Definition hundredths (m : positive) (e : Z) : Z :=
  if 0 <=? e then Zpos m * 2 ^ e * 100
  else div_half_even (Zpos m * 100) (2 ^ (- e)).

(** [round(x, 2)]: the exact value of [x] is rounded to two decimals, ties
    to even, and the decimal result is read back as the nearest double;
    infinities, NaN and zeros round to themselves. *)
Definition round2 (x : spec_float) : spec_float :=
  match x with
  | S754_finite s m e =>
      match hundredths m e with
      | Zpos n => fdiv (S754_finite s n 0) (S754_finite false 100 0)
      | _ => S754_zero s
      end
  | _ => x
  end.

(** The digits of [n >= 0] with a comma before every group of three. *)
Fixpoint group_thousands (fuel : nat) (n : Z) : string :=
  match fuel with
  | O => str_of_Z n
  | S fuel' =>
      if n <? 1000 then str_of_Z n
      else
        let r := n mod 1000 in
        let pad := if r <? 10 then "00" else if r <? 100 then "0" else "" in
        (group_thousands fuel' (n / 1000) ++ "," ++ pad ++ str_of_Z r)%string
  end.

(** [f"{x:.2f}"], and [f"{x:,.2f}"] when [grouping] is set. *)
Definition fmt_2f (grouping : bool) (x : spec_float) : string :=
  let sign (s : bool) := if s then "-" else "" in
  let body (n : Z) :=
    let i := n / 100 in
    let c := n mod 100 in
    let units := if grouping then group_thousands (Z.to_nat (Z.log2 i)) i else str_of_Z i in
    let pad := if c <? 10 then "0" else "" in
    (units ++ "." ++ pad ++ str_of_Z c)%string in
  match x with
  | S754_nan => "nan"
  | S754_infinity s => (sign s ++ "inf")%string
  | S754_zero s => (sign s ++ "0.00")%string
  | S754_finite s m e => (sign s ++ body (hundredths m e))%string
  end.

(** *** Values *)

(** The values that reach the program: cells of a worksheet and the parts
    of a decoded JSON update. *)
#[warnings="-register-all"]
Inductive PyVal : Type :=
| VNone
| VBool (b : bool)
| VInt (z : Z)
| VFloat (f : spec_float)
| VStr (s : string)
| VList (l : list PyVal)
| VDict (d : list (string * PyVal)).

(** Truth value of an object. *)
Definition truthy (v : PyVal) : bool :=
  match v with
  | VNone => false
  | VBool b => b
  | VInt z => negb (z =? 0)
  | VFloat (S754_zero _) => false
  | VFloat _ => true
  | VStr EmptyString => false
  | VStr _ => true
  | VList [] => false
  | VList _ => true
  | VDict [] => false
  | VDict _ => true
  end.

(** [a or b] *)
Definition py_or (a b : PyVal) : PyVal := if truthy a then a else b.

(** A dictionary with string keys, in insertion order. *)
Definition dict : Type := list (string * PyVal).

Fixpoint lookup (k : string) (d : dict) : option PyVal :=
  match d with
  | [] => None
  | (k', v) :: d' => if String.eqb k k' then Some v else lookup k d'
  end.

(** [d.get(k)] and [d.get(k, default)] *)
Definition get_or (k : string) (default : PyVal) (d : dict) : PyVal :=
  match lookup k d with
  | Some v => v
  | None => default
  end.
Definition get (k : string) (d : dict) : PyVal := get_or k VNone d.

(** [v.get(k)]: only a dictionary has the method. *)
Definition get_attr (k : string) (v : PyVal) : result PyVal :=
  match v with
  | VDict d => Ok (get k d)
  | _ => Raise (AttributeError "object has no attribute 'get'")
  end.

(** [v[k]] for a string key. *)
Definition getitem (k : string) (v : PyVal) : result PyVal :=
  match v with
  | VDict d =>
      match lookup k d with
      | Some x => Ok x
      | None => Raise (KeyError k)
      end
  | VStr _ => Raise (TypeError "string indices must be integers")
  | VList _ => Raise (TypeError "list indices must be integers or slices")
  | _ => Raise (TypeError "object is not subscriptable")
  end.

(** [int(v)] *)
Definition py_int (v : PyVal) : result Z :=
  match v with
  | VBool b => Ok (if b then 1 else 0)
  | VInt z => Ok z
  | VFloat f => int_of_float f
  | VStr s =>
      match parse_int s with
      | Some z => Ok z
      | None => Raise (ValueError "invalid literal for int() with base 10")
      end
  | _ => Raise (TypeError "int() argument must be a string or a real number")
  end.

(** [float(v)] *)
Definition py_float (v : PyVal) : result spec_float :=
  match v with
  | VBool b => Ok (if b then nearest_of_Z 1 else S754_zero false)
  | VInt z => float_of_int z
  | VFloat f => Ok f
  | VStr s =>
      match parse_float s with
      | Some f => Ok f
      | None => Raise (ValueError "could not convert string to float")
      end
  | _ => Raise (TypeError "float() argument must be a string or a real number")
  end.

(** [v.lower()], [v.upper()], [v.strip()]: only a string has the methods. *)
Definition str_method (name : string) (f : string -> string) (v : PyVal) : result string :=
  match v with
  | VStr s => Ok (f s)
  | _ => Raise (AttributeError ("object has no attribute '" ++ name ++ "'"))
  end.
Definition py_lower : PyVal -> result string := str_method "lower" lower.
Definition py_upper : PyVal -> result string := str_method "upper" upper.
Definition py_strip : PyVal -> result string := str_method "strip" strip.

End Py.
Import Py.

(** ** Dates *)

(** [datetime.datetime]; a [datetime.date] is one at midnight.  The program
    reads no finer unit than the second. *)
Record datetime : Type := mk_datetime {
  dt_year : Z;
  dt_month : Z;
  dt_day : Z;
  dt_hour : Z;
  dt_minute : Z;
  dt_second : Z
}.

Definition MINYEAR : Z := 1.
Definition MAXYEAR : Z := 9999.

(** [calendar.isleap] *)
Definition isleap (year : Z) : bool :=
  (year mod 4 =? 0) && (negb (year mod 100 =? 0) || (year mod 400 =? 0)).

(** [calendar.mdays] *)
Definition mdays (month : Z) : Z :=
  match month with
  | 2 => 28
  | 4 | 6 | 9 | 11 => 30
  | _ => 31
  end.

(** [calendar.monthrange(year, month)[1]] for a month in 1..12 *)
Definition days_in_month (year month : Z) : Z :=
  mdays month + (if (month =? 2) && isleap year then 1 else 0).

(** [datetime.datetime(year, month, day)] *)
Definition make_datetime (year month day : Z) : result datetime :=
  if negb ((MINYEAR <=? year) && (year <=? MAXYEAR)) then
    Raise (ValueError ("year " ++ str_of_Z year ++ " is out of range"))
  else if negb ((1 <=? month) && (month <=? 12)) then
    Raise (ValueError "month must be in 1..12")
  else if negb ((1 <=? day) && (day <=? days_in_month year month)) then
    Raise (ValueError "day is out of range for month")
  else Ok (mk_datetime year month day 0 0 0).

(** A well-formed date. *)
Definition valid_date (d : datetime) : Prop :=
  MINYEAR <= dt_year d <= MAXYEAR /\
  1 <= dt_month d <= 12 /\
  1 <= dt_day d <= days_in_month (dt_year d) (dt_month d).

Definition pad (width : nat) (z : Z) : string :=
  let digits := str_of_Z z in
  (string_of_list_ascii (repeat "0"%char (width - String.length digits)) ++ digits)%string.

(** [d.strftime("%Y-%m-%d %H:%M:%S")] *)
Definition strftime (d : datetime) : string :=
  (pad 4 (dt_year d) ++ "-" ++ pad 2 (dt_month d) ++ "-" ++ pad 2 (dt_day d) ++ " "
     ++ pad 2 (dt_hour d) ++ ":" ++ pad 2 (dt_minute d) ++ ":" ++ pad 2 (dt_second d))%string.

(** ** The store and the state of the world *)

Definition row : Type := list PyVal.

(** The data rows of a sheet; the header row above them is row 1 of the
    sheet, so data row [i] (from 0) is row [i + 2] of the sheet. *)
Definition worksheet : Type := list row.

Bind Scope list_scope with row worksheet.

Definition movimientos_headers : list string :=
  ["Fecha"; "Usuario"; "Tipo"; "Categoria"; "Descripcion"; "Monto"; "Año"; "Mes"; "Moneda"].
Definition presupuestos_headers : list string := ["Categoria"; "PresupuestoMensual"].
Definition objetivos_headers : list string := ["Nombre"; "MontoObjetivo"].

(** [ws.get_all_records()]: every data row zipped with the header. *)
Definition get_all_records (headers : list string) (ws : worksheet) : list dict :=
  map (fun r : row => combine headers r) ws.

(** [ws.append_row(r)] *)
Definition append_row (r : row) (ws : worksheet) : worksheet := (ws ++ [r])%list.

(** The list with [v] at position [n], blank cells filling a short row. *)
Fixpoint set_nth (n : nat) (v : PyVal) (l : row) : row :=
  match n, l with
  | O, [] => [v]
  | O, _ :: l' => v :: l'
  | S n', [] => VStr "" :: set_nth n' v []
  | S n', x :: l' => x :: set_nth n' v l'
  end.

Fixpoint alter_nth {A} (f : A -> A) (n : nat) (l : list A) : list A :=
  match n, l with
  | _, [] => []
  | O, x :: l' => f x :: l'
  | S n', x :: l' => x :: alter_nth f n' l'
  end.

(** [ws.update_cell(fila, col, v)], rows and columns counted from 1 with
    the header in row 1. *)
Definition update_cell (fila col : nat) (v : PyVal) (ws : worksheet) : worksheet :=
  alter_nth (set_nth (col - 1) v) (fila - 2) ws.

(** What the program reads and writes: the three sheets, the messages
    posted to the chat (chat identifier and text, oldest first) and the
    clock, read as one instant throughout a command. *)
Record World : Type := mk_world {
  mov_ws : worksheet;
  pres_ws : worksheet;
  obj_ws : worksheet;
  outbox : list (PyVal * string);
  now : datetime
}.

Definition with_mov_ws (ws : worksheet) (w : World) : World :=
  mk_world ws (pres_ws w) (obj_ws w) (outbox w) (now w).
Definition with_pres_ws (ws : worksheet) (w : World) : World :=
  mk_world (mov_ws w) ws (obj_ws w) (outbox w) (now w).
Definition with_obj_ws (ws : worksheet) (w : World) : World :=
  mk_world (mov_ws w) (pres_ws w) ws (outbox w) (now w).
Definition with_outbox (o : list (PyVal * string)) (w : World) : World :=
  mk_world (mov_ws w) (pres_ws w) (obj_ws w) o (now w).

(** Commands: state passing with exceptions; the state reached when an
    exception is raised is kept. *)
Definition M (A : Type) : Type := World -> result A * World.

Definition ret {A} (a : A) : M A := fun w => (Ok a, w).
Definition raise {A} (e : exn) : M A := fun w => (Raise e, w).
Definition bind {A B} (m : M A) (k : A -> M B) : M B :=
  fun w =>
    match m w with
    | (Ok a, w') => k a w'
    | (Raise e, w') => (Raise e, w')
    end.
Definition lift {A} (r : result A) : M A := fun w => (r, w).

Declare Scope cmd_scope.
Delimit Scope cmd_scope with cmd.
Notation "x <- m ;; k" := (bind m (fun x => k))
  (at level 61, m at next level, right associativity) : cmd_scope.
Notation "m ;; k" := (bind m (fun _ => k))
  (at level 61, right associativity) : cmd_scope.
Notation "'let?' x := r 'in' k" := (rbind r (fun x => k))
  (at level 10, x pattern, r at level 100, k at level 200).

(** ** Core functions *)

(** [add_movimiento]: one row appended to Movimientos. *)
Definition add_movimiento (tipo categoria : string) (monto : spec_float)
    (descripcion : string) (fecha : option datetime) (moneda usuario : string) : M unit :=
  fun w =>
    let fecha := match fecha with None => now w | Some f => f end in
    let year := dt_year fecha in
    let month := dt_month fecha in
    let fecha_str := strftime fecha in
    let row :=
      [VStr fecha_str; VStr usuario; VStr (lower tipo); VStr categoria;
       VStr descripcion; VFloat monto; VInt year; VInt month; VStr (upper moneda)] in
    (Ok tt, with_mov_ws (append_row row (mov_ws w)) w).

Definition cero : spec_float := S754_zero false.

(** The two [int(...)] of the loop body, inside its [try]. *)
Definition leer_anio_mes (row : dict) : result (Z * Z) :=
  let? anio := py_int (py_or (get "Año" row) (VInt 0)) in
  let? mes := py_int (py_or (get "Mes" row) (VInt 0)) in
  Ok (anio, mes).

(** One turn of the loop of [sumar_movimientos_del_mes] on the running
    totals (ingresos, gastos). *)
Definition sumar_fila (year month : Z) (tot : spec_float * spec_float) (row : dict)
  : result (spec_float * spec_float) :=
  match leer_anio_mes row with
  | Raise (ValueError _) => Ok tot
  | Raise e => Raise e
  | Ok (anio, mes) =>
      if (anio =? year) && (mes =? month) then
        let? moneda := py_upper (py_or (get "Moneda" row) (VStr "ARS")) in
        if String.eqb moneda "ARS" then
          let? monto := py_float (py_or (get "Monto" row) (VInt 0)) in
          let? tipo := py_lower (py_or (get "Tipo" row) (VStr "")) in
          if String.eqb tipo "ingreso" then Ok (fadd (fst tot) monto, snd tot)
          else if String.eqb tipo "gasto" then Ok (fst tot, fadd (snd tot) monto)
          else Ok tot
        else Ok tot
      else Ok tot
  end.

Fixpoint sumar_desde (year month : Z) (tot : spec_float * spec_float) (registros : list dict)
  : result (spec_float * spec_float) :=
  match registros with
  | [] => Ok tot
  | row :: resto =>
      let? tot' := sumar_fila year month tot row in
      sumar_desde year month tot' resto
  end.

(** The loop of [sumar_movimientos_del_mes] over the records read. *)
Definition sumar_registros (year month : Z) (registros : list dict)
  : result (spec_float * spec_float) :=
  sumar_desde year month (cero, cero) registros.

(** [sumar_movimientos_del_mes]: (ingresos, gastos) of the month. *)
Definition sumar_movimientos_del_mes (year month : Z) : M (spec_float * spec_float) :=
  fun w => (sumar_registros year month (get_all_records movimientos_headers (mov_ws w)), w).

(** The scan of [set_presupuesto] and [set_objetivo]: the sheet row of the
    first record whose key cell equals [clave] without regard to case. *)
Fixpoint buscar_fila (columna clave : string) (idx : nat) (registros : list dict)
  : result (option nat) :=
  match registros with
  | [] => Ok None
  | row :: resto =>
      let? k := py_lower (py_or (get columna row) (VStr "")) in
      if String.eqb k (lower clave) then Ok (Some idx)
      else buscar_fila columna clave (S idx) resto
  end.

(** The body shared by [set_presupuesto] and [set_objetivo], on one sheet. *)
Definition upsert (headers : list string) (columna clave : string) (monto : spec_float)
    (ws : worksheet) : result worksheet :=
  let? found := buscar_fila columna clave 2 (get_all_records headers ws) in
  match found with
  | Some idx => Ok (update_cell idx 2 (VFloat monto) ws)
  | None => Ok (append_row [VStr clave; VFloat monto] ws)
  end.

Definition set_presupuesto (categoria : string) (monto : spec_float) : M unit :=
  fun w =>
    match upsert presupuestos_headers "Categoria" categoria monto (pres_ws w) with
    | Ok ws => (Ok tt, with_pres_ws ws w)
    | Raise e => (Raise e, w)
    end.

Definition set_objetivo (nombre : string) (monto : spec_float) : M unit :=
  fun w =>
    match upsert objetivos_headers "Nombre" nombre monto (obj_ws w) with
    | Ok ws => (Ok tt, with_obj_ws ws w)
    | Raise e => (Raise e, w)
    end.

Definition msg_faltan_datos : string := "Faltan datos. Usa: categoria monto descripcion".
Definition msg_monto_invalido : string := "El monto no es válido.".

(** [float(str(a).replace(",", "."))] *)
Definition parse_monto (a : string) : result spec_float :=
  py_float (VStr (replace_comma a)).

(** [parse_movimiento_args]: (categoria, monto, descripcion). *)
Definition parse_movimiento_args (args : list string) : result (string * spec_float * string) :=
  if (List.length args <? 2)%nat then Raise (ValueError msg_faltan_datos)
  else
    let categoria := nth 0 args "" in
    match parse_monto (nth 1 args "") with
    | Raise (ValueError _) => Raise (ValueError msg_monto_invalido)
    | Raise e => Raise e
    | Ok monto =>
        let descripcion := if (2 <? List.length args)%nat then join " " (skipn 2 args) else "" in
        Ok (categoria, monto, descripcion)
    end.

(** [month_add] *)
Definition month_add (base_date : datetime) (offset_months : Z) : result datetime :=
  let m := dt_month base_date - 1 + offset_months in
  let year := dt_year base_date + m / 12 in
  let month := m mod 12 + 1 in
  let day := Z.min (dt_day base_date) (days_in_month year month) in
  make_datetime year month day.

(** ** Telegram helper *)

(** [send_message]: the post is attempted and its own failures are logged
    there, so nothing is raised; the outbox records the attempt. *)
Definition send_message (chat_id : PyVal) (text : string) : M unit :=
  fun w => (Ok tt, with_outbox (outbox w ++ [(chat_id, text)])%list w).

(** ** Command handlers *)

Definition nl : string := String "010"%char EmptyString.

Definition try_except {A} (body : M A) (handler : exn -> M A) : M A :=
  fun w =>
    match body w with
    | (Raise e, w') => handler e w'
    | r => r
    end.

Local Open Scope cmd_scope.

Definition cmd_movimiento (chat_id first_name : PyVal) (args : list string)
    (tipo moneda : string) : M unit :=
  match parse_movimiento_args args with
  | Raise (ValueError e) =>
      send_message chat_id
        ("❌ " ++ e ++ nl ++ "Ejemplo: /" ++ tipo ++ " comida 5000 empanadas")%string
  | Raise e => raise e
  | Ok (categoria, monto, descripcion) =>
      add_movimiento tipo categoria monto descripcion None moneda "Mica" ;;
      let simbolo := if String.eqb (upper moneda) "ARS" then "$" else "USD " in
      send_message chat_id
        ("✅ " ++ capitalize tipo ++ " registrado: " ++ simbolo ++ fmt_2f false monto
           ++ " en '" ++ categoria ++ "' (" ++ upper moneda ++ ").")%string
  end.

Definition msg_cuotas_faltan : string :=
  ("❌ Faltan datos." ++ nl ++ "Usa: /cuotas categoria monto descripcion cantidad" ++ nl
     ++ "Ej: /cuotas hogar 30000 pava electrica 3")%string.
Definition msg_cuotas_monto : string := "❌ El monto no es válido.".
Definition msg_cuotas_no_entero : string :=
  ("❌ La cantidad de cuotas debe ser un número entero." ++ nl
     ++ "Ej: /cuotas hogar 30000 pava electrica 3")%string.
Definition msg_cuotas_no_positiva : string := "❌ La cantidad de cuotas debe ser mayor a 0.".

(** The date of today: the clock without the time of day. *)
Definition today (w : World) : datetime :=
  mk_datetime (dt_year (now w)) (dt_month (now w)) (dt_day (now w)) 0 0 0.

(** [f"{descripcion} (cuota {i+1}/{cantidad_cuotas})".strip()] *)
Definition desc_cuota (descripcion : string) (i cantidad_cuotas : Z) : string :=
  strip (descripcion ++ " (cuota " ++ str_of_Z (i + 1) ++ "/" ++ str_of_Z cantidad_cuotas ++ ")")%string.

(** The loop of [cmd_cuotas] from index [i], for [n] more turns. *)
Fixpoint registrar_cuotas (hoy : datetime) (categoria descripcion : string)
    (monto_cuota : spec_float) (cantidad_cuotas i : Z) (n : nat) : M unit :=
  match n with
  | O => ret tt
  | S n' =>
      fecha_cuota <- lift (month_add hoy i) ;;
      add_movimiento "gasto" categoria monto_cuota (desc_cuota descripcion i cantidad_cuotas)
        (Some fecha_cuota) "ARS" "Mica" ;;
      registrar_cuotas hoy categoria descripcion monto_cuota cantidad_cuotas (i + 1) n'
  end.

(** [monto_total / cantidad_cuotas]: the integer is converted first. *)
Definition dividir (monto_total : spec_float) (cantidad_cuotas : Z) : result spec_float :=
  let? c := float_of_int cantidad_cuotas in
  Ok (fdiv monto_total c).

(** [" ".join(args[2:-1]) if len(args) > 3 else ""] *)
Definition descripcion_cuotas (args : list string) : string :=
  if (3 <? List.length args)%nat then join " " (removelast (skipn 2 args)) else "".

Definition msg_cuotas_ok (monto_total : spec_float) (cantidad_cuotas : Z)
    (monto_cuota : spec_float) : string :=
  ("✅ Compra en cuotas registrada." ++ nl ++ "Total: $" ++ fmt_2f false monto_total
     ++ " en " ++ str_of_Z cantidad_cuotas ++ " cuotas de $"
     ++ fmt_2f false monto_cuota ++ ".")%string.

Definition cmd_cuotas (chat_id first_name : PyVal) (args : list string) : M unit :=
  if (List.length args <? 3)%nat then send_message chat_id msg_cuotas_faltan
  else
    let categoria := nth 0 args "" in
    match parse_monto (nth 1 args "") with
    | Raise (ValueError _) => send_message chat_id msg_cuotas_monto
    | Raise e => raise e
    | Ok monto_total =>
        match py_int (VStr (last args "")) with
        | Raise (ValueError _) => send_message chat_id msg_cuotas_no_entero
        | Raise e => raise e
        | Ok cantidad_cuotas =>
            if cantidad_cuotas <=? 0 then send_message chat_id msg_cuotas_no_positiva
            else
              let descripcion := descripcion_cuotas args in
              q <- lift (dividir monto_total cantidad_cuotas) ;;
              let monto_cuota := round2 q in
              hoy <- (fun w => (Ok (today w), w)) ;;
              registrar_cuotas hoy categoria descripcion monto_cuota cantidad_cuotas 0
                (Z.to_nat cantidad_cuotas) ;;
              send_message chat_id (msg_cuotas_ok monto_total cantidad_cuotas monto_cuota)
        end
    end.

Definition cmd_resumen (chat_id : PyVal) : M unit :=
  hoy <- (fun w => (Ok (today w), w)) ;;
  tot <- sumar_movimientos_del_mes (dt_year hoy) (dt_month hoy) ;;
  let '(ingresos, gastos) := tot in
  let saldo := fsub ingresos gastos in
  send_message chat_id
    ("📅 Resumen de " ++ str_of_Z (dt_month hoy) ++ "/" ++ str_of_Z (dt_year hoy)
       ++ " (solo ARS)" ++ nl ++ nl
       ++ "💰 Ingresos: $" ++ fmt_2f true ingresos ++ nl
       ++ "💸 Gastos: $" ++ fmt_2f true gastos ++ nl
       ++ "🧾 Saldo: $" ++ fmt_2f true saldo)%string.

Definition cmd_saldo (chat_id : PyVal) : M unit :=
  hoy <- (fun w => (Ok (today w), w)) ;;
  tot <- sumar_movimientos_del_mes (dt_year hoy) (dt_month hoy) ;;
  let '(ingresos, gastos) := tot in
  let saldo_valor := fsub ingresos gastos in
  send_message chat_id ("💼 Saldo del mes actual (ARS): $" ++ fmt_2f true saldo_valor)%string.

Definition cmd_presupuesto (chat_id : PyVal) (args : list string) : M unit :=
  if (List.length args <? 2)%nat then
    send_message chat_id
      ("❌ Usa: /presupuesto categoria monto" ++ nl ++ "Ej: /presupuesto comida 50000")%string
  else
    let categoria := nth 0 args "" in
    match parse_monto (nth 1 args "") with
    | Raise (ValueError _) => send_message chat_id msg_cuotas_monto
    | Raise e => raise e
    | Ok monto =>
        set_presupuesto categoria monto ;;
        send_message chat_id
          ("✅ Presupuesto guardado para '" ++ categoria ++ "': $" ++ fmt_2f false monto
             ++ " por mes.")%string
    end.

Definition cmd_objetivo (chat_id : PyVal) (args : list string) : M unit :=
  if (List.length args <? 2)%nat then
    send_message chat_id
      ("❌ Usa: /objetivo nombre monto" ++ nl ++ "Ej: /objetivo viaje_brasil 300000")%string
  else
    let nombre := nth 0 args "" in
    match parse_monto (nth 1 args "") with
    | Raise (ValueError _) => send_message chat_id msg_cuotas_monto
    | Raise e => raise e
    | Ok monto =>
        set_objetivo nombre monto ;;
        send_message chat_id
          ("✅ Objetivo '" ++ nombre ++ "' guardado por $" ++ fmt_2f false monto ++ ".")%string
    end.

Definition msg_no_reconocido : string :=
  "❓ Comando no reconocido. Usa /help para ver las opciones.".
Definition msg_error : string :=
  "⚠️ Ocurrió un error procesando el comando. Probá de nuevo.".

(** ** The router *)

Section Router.

(** The text an f-string gives for a value ([str] of it); the program
    applies it to the sender's first name only. *)
Variable str_of_value : PyVal -> string.

Definition cmd_start (chat_id first_name : PyVal) : M unit :=
  let text :=
    ("Hola " ++ str_of_value (py_or first_name (VStr "Mica")) ++ " 👋" ++ nl
       ++ "Soy tu bot de finanzas." ++ nl ++ nl
       ++ "Comandos disponibles:" ++ nl
       ++ "/gasto categoria monto descripcion" ++ nl
       ++ "/gasto_usd categoria monto descripcion" ++ nl
       ++ "/ingreso categoria monto descripcion" ++ nl
       ++ "/ingreso_usd categoria monto descripcion" ++ nl
       ++ "/cuotas categoria monto descripcion cantidad" ++ nl
       ++ "/resumen - Resumen del mes actual" ++ nl
       ++ "/saldo - Ingresos - Gastos del mes actual" ++ nl
       ++ "/presupuesto categoria monto" ++ nl
       ++ "/objetivo nombre monto" ++ nl
       ++ "/help - Ver este mensaje otra vez")%string in
  send_message chat_id text.

Definition cmd_help (chat_id first_name : PyVal) : M unit :=
  cmd_start chat_id first_name.

(** The [if]/[elif] chain inside the [try] of [handle_update]. *)
Definition dispatch (chat_id first_name : PyVal) (command : string) (args : list string)
  : M unit :=
  if String.eqb command "/start" then cmd_start chat_id first_name
  else if String.eqb command "/help" then cmd_help chat_id first_name
  else if String.eqb command "/gasto" then cmd_movimiento chat_id first_name args "gasto" "ARS"
  else if String.eqb command "/gasto_usd" then cmd_movimiento chat_id first_name args "gasto" "USD"
  else if String.eqb command "/ingreso" then cmd_movimiento chat_id first_name args "ingreso" "ARS"
  else if String.eqb command "/ingreso_usd" then
    cmd_movimiento chat_id first_name args "ingreso" "USD"
  else if String.eqb command "/cuotas" then cmd_cuotas chat_id first_name args
  else if String.eqb command "/resumen" then cmd_resumen chat_id
  else if String.eqb command "/saldo" then cmd_saldo chat_id
  else if String.eqb command "/presupuesto" then cmd_presupuesto chat_id args
  else if String.eqb command "/objetivo" then cmd_objetivo chat_id args
  else send_message chat_id msg_no_reconocido.

(** The command token and the arguments of a message text. *)
Definition command_of (parts : list string) : result string :=
  match parts with
  | [] => Raise (IndexError "list index out of range")
  | command :: _ => Ok (if contains_at command then before_at command else command)
  end.

Definition handle_update (update : PyVal) : M unit :=
  message0 <- lift (get_attr "message" update) ;;
  let message := py_or message0 (VDict []) in
  text0 <- lift (get_attr "text" message) ;;
  text <- lift (py_strip (py_or text0 (VStr ""))) ;;
  if String.eqb text "" then ret tt
  else
    chat <- lift (getitem "chat" message) ;;
    chat_id <- lift (getitem "id" chat) ;;
    user0 <- lift (get_attr "from" message) ;;
    let user := py_or user0 (VDict []) in
    first_name <- lift (match user with
                        | VDict d => Ok (get_or "first_name" (VStr "Mica") d)
                        | _ => Raise (AttributeError "object has no attribute 'get'")
                        end) ;;
    let parts := split text in
    command <- lift (command_of parts) ;;
    let args := tl parts in
    try_except (dispatch chat_id first_name command args)
      (fun _ => send_message chat_id msg_error).

End Router.

(** ** Opening the sheets *)

(** A spreadsheet: its sheets by title, in tab order.  A sheet is here the
    list of all its rows, the header row included. *)
Definition spreadsheet : Type := list (string * list row).

Bind Scope list_scope with spreadsheet.

(** [sh.worksheet(name)]; [None] stands for [WorksheetNotFound]. *)
Fixpoint worksheet_of (sh : spreadsheet) (name : string) : option (list row) :=
  match sh with
  | [] => None
  | (title, ws) :: sh' => if String.eqb name title then Some ws else worksheet_of sh' name
  end.

(** [get_or_create_worksheet]: the spreadsheet afterwards and the sheet
    returned.  A new sheet is added last; it gets the header row when
    [headers] is given and not empty. *)
Definition get_or_create_worksheet (sh : spreadsheet) (name : string)
    (headers : option (list string)) : spreadsheet * list row :=
  match worksheet_of sh name with
  | Some ws => (sh, ws)
  | None =>
      let ws :=
        match headers with
        | Some (h :: hs) => [map VStr (h :: hs)]
        | _ => []
        end in
      ((sh ++ [(name, ws)])%list, ws)
  end.

(** ** Vocabulary of the statements *)

(** The year and month fields of a record, read as the loop reads them,
    are [year] and [month]. *)
Definition anio_mes_coinciden (year month : Z) (row : dict) : bool :=
  match leer_anio_mes row with
  | Ok (anio, mes) => (anio =? year) && (mes =? month)
  | Raise _ => false
  end.

(** The currency of a record in capitals, ARS standing for a blank. *)
Definition moneda_de (row : dict) : option string :=
  match py_or (get "Moneda" row) (VStr "ARS") with
  | VStr s => Some (upper s)
  | _ => None
  end.

Definition es_ARS (row : dict) : bool :=
  match moneda_de row with
  | Some s => String.eqb s "ARS"
  | None => false
  end.

(** The rows the aggregation is about: those of the month, in ARS. *)
Definition seleccionada (year month : Z) (row : dict) : bool :=
  anio_mes_coinciden year month row && es_ARS row.

(** The rows the loop passes over without a word: year or month that is no
    number, another year or month, another currency. *)
Definition filtrada (year month : Z) (row : dict) : bool :=
  match leer_anio_mes row with
  | Raise (ValueError _) => true
  | Raise _ => false
  | Ok (anio, mes) =>
      if (anio =? year) && (mes =? month) then
        match moneda_de row with
        | Some s => negb (String.eqb s "ARS")
        | None => false
        end
      else true
  end.


(** A blank cell: no such key, [None] or the empty text. *)
Definition en_blanco (v : PyVal) : bool :=
  match v with
  | VNone => true
  | VStr EmptyString => true
  | _ => false
  end.

(** A cell holding text that is no integer literal. *)
Definition no_numerico (v : PyVal) : bool :=
  match v with
  | VStr EmptyString => false
  | VStr s =>
      match parse_int s with
      | None => true
      | Some _ => false
      end
  | _ => false
  end.

Definition lee_entero (v : PyVal) : bool :=
  match py_int (py_or v (VInt 0)) with
  | Ok _ => true
  | Raise _ => false
  end.

(** The year is text that is no number, or the year reads and the month is
    text that is no number. *)
Definition anio_o_mes_no_numerico (row : dict) : bool :=
  no_numerico (get "Año" row) || (lee_entero (get "Año" row) && no_numerico (get "Mes" row)).

(** What a selected row adds, and to which total ([true]: ingresos). *)
Definition aporte_de (row : dict) : result (list (bool * spec_float)) :=
  let? monto := py_float (py_or (get "Monto" row) (VInt 0)) in
  let? tipo := py_lower (py_or (get "Tipo" row) (VStr "")) in
  if String.eqb tipo "ingreso" then Ok [(true, monto)]
  else if String.eqb tipo "gasto" then Ok [(false, monto)]
  else Ok [].

Definition aportes_fila (year month : Z) (row : dict) : list (bool * spec_float) :=
  if seleccionada year month row then
    match aporte_de row with
    | Ok l => l
    | Raise _ => []
    end
  else [].

(** The amounts the rows add, in row order. *)
Definition aportes (year month : Z) (registros : list dict) : list (bool * spec_float) :=
  flat_map (aportes_fila year month) registros.

Definition sumar_aporte (tot : spec_float * spec_float) (a : bool * spec_float)
  : spec_float * spec_float :=
  if fst a then (fadd (fst tot) (snd a), snd tot) else (fst tot, fadd (snd tot) (snd a)).

(** The amounts added one after the other, from the left, in floating point. *)
Definition totales (tot : spec_float * spec_float) (l : list (bool * spec_float))
  : spec_float * spec_float :=
  fold_left sumar_aporte l tot.

(** The loop body goes through on the row: it adds the amounts of the row
    to the totals, whatever they are. *)
Definition pasa (year month : Z) (row : dict) : Prop :=
  forall tot, sumar_fila year month tot row = Ok (totales tot (aportes_fila year month row)).

(** The double a decimal literal denotes. *)
Definition decimal (s : string) : spec_float :=
  match parse_float s with
  | Some f => f
  | None => S754_nan
  end.

(** An expense of January 2024 in ARS, as a record of the sheet. *)
Definition gasto_de (monto : string) : dict :=
  [("Fecha", VStr "2024-01-05 10:00:00"); ("Usuario", VStr "Mica"); ("Tipo", VStr "gasto");
   ("Categoria", VStr "kiosco"); ("Descripcion", VStr ""); ("Monto", VFloat (decimal monto));
   ("Año", VInt 2024); ("Mes", VInt 1); ("Moneda", VStr "ARS")].

(** The key of a data row of Presupuestos or Objetivos: its first cell in
    lower case, the empty text for a blank cell; none when the cell holds
    something that is not text, where the scan stops with an error. *)
Definition clave_fila (r : row) : option string :=
  match py_or (hd VNone r) (VStr "") with
  | VStr s => Some (lower s)
  | _ => None
  end.

(** The row has the key [clave], letter case apart. *)
Definition coincide (clave : string) (r : row) : bool :=
  match clave_fila r with
  | Some k => String.eqb k (lower clave)
  | None => false
  end.

(** The row has a key, and it is not [clave]. *)
Definition otra_clave (clave : string) (r : row) : bool :=
  match clave_fila r with
  | Some k => negb (String.eqb k (lower clave))
  | None => false
  end.

(** The key cell of the row is text or blank. *)
Definition tiene_clave (r : row) : bool :=
  match clave_fila r with
  | Some _ => true
  | None => false
  end.



(** The date [i] calendar months after [d]: months are counted from year
    0, the day is kept when the target month has it and is the last day of
    the target month otherwise. *)
Definition avanzar_meses (d : datetime) (i : Z) : datetime :=
  let n := 12 * dt_year d + (dt_month d - 1) + i in
  let y := n / 12 in
  let m := n mod 12 + 1 in
  let ultimo := days_in_month y m in
  mk_datetime y m (if dt_day d <=? ultimo then dt_day d else ultimo) 0 0 0.

(** The row of installment [i] (from 0) due on [fecha]. *)
Definition fila_cuota (categoria descripcion : string) (monto_cuota : spec_float)
    (cantidad_cuotas i : Z) (fecha : datetime) : row :=
  [VStr (strftime fecha); VStr "Mica"; VStr "gasto"; VStr categoria;
   VStr (desc_cuota descripcion i cantidad_cuotas); VFloat monto_cuota;
   VInt (dt_year fecha); VInt (dt_month fecha); VStr "ARS"].

(** The indices [i], [i + 1], ..., [i + n - 1]. *)
Definition desde (i : Z) (n : nat) : list Z := map (fun k => i + Z.of_nat k) (seq 0 n).

(** The rows of a purchase in [cantidad_cuotas] installments made on [hoy]. *)
Definition filas_cuotas (hoy : datetime) (categoria descripcion : string)
    (monto_cuota : spec_float) (cantidad_cuotas : Z) : list row :=
  map (fun i => fila_cuota categoria descripcion monto_cuota cantidad_cuotas i
                  (avanzar_meses hoy i))
      (desde 0 (Z.to_nat cantidad_cuotas)).

(** The amount cell of a row of Movimientos. *)
Definition monto_de_fila (r : row) : PyVal := nth 5 r VNone.

(** The integer nearest to [a / b] for [0 <= a] and [0 < b], a tie going
    up: rounding half up. *)
Definition div_half_up (a b : Z) : Z := (2 * a + b) / (2 * b).

(** Rounding to two decimals half up, on the exact value of the float: what
    [round2] would be if ties went up. *)
Definition round2_half_up (x : spec_float) : spec_float :=
  match x with
  | S754_finite s m e =>
      let n := if 0 <=? e then Zpos m * 2 ^ e * 100
               else div_half_up (Zpos m * 100) (2 ^ (- e)) in
      match n with
      | Zpos p => fdiv (S754_finite s p 0) (S754_finite false 100 0)
      | _ => S754_zero s
      end
  | _ => x
  end.

(** A world with empty sheets and nothing sent, at the instant [ahora]. *)
Definition mundo_vacio (ahora : datetime) : World := mk_world [] [] [] [] ahora.

(** The message of an update: the update is an object and its message is
    an object, or is missing. *)
Definition mensaje_de (update : PyVal) : option dict :=
  match update with
  | VDict u =>
      match py_or (get "message" u) (VDict []) with
      | VDict m => Some m
      | _ => None
      end
  | _ => None
  end.

(** The text of a message without the white space around it; the empty
    text when the message has none. *)
Definition texto_de (m : dict) : option string :=
  match py_or (get "text" m) (VStr "") with
  | VStr t => Some (strip t)
  | _ => None
  end.

(** The chat identifier and the first name of the sender, when the message
    has a chat with an identifier and its sender is an object or missing. *)
Definition remitente_de (m : dict) : option (PyVal * PyVal) :=
  match lookup "chat" m with
  | Some chat =>
      match getitem "id" chat, py_or (get "from" m) (VDict []) with
      | Ok chat_id, VDict usr => Some (chat_id, get_or "first_name" (VStr "Mica") usr)
      | _, _ => None
      end
  | None => None
  end.

(** The commands that have a handler. *)
Definition comandos : list string :=
  ["/start"; "/help"; "/gasto"; "/gasto_usd"; "/ingreso"; "/ingreso_usd"; "/cuotas";
   "/resumen"; "/saldo"; "/presupuesto"; "/objetivo"].

(** An update with the given message text from chat 7. *)
Definition update_de (text : string) : PyVal :=
  VDict [("update_id", VInt 1);
         ("message", VDict [("message_id", VInt 10);
                            ("from", VDict [("id", VInt 7); ("first_name", VStr "Ana")]);
                            ("chat", VDict [("id", VInt 7); ("type", VStr "private")]);
                            ("text", VStr text)])].

(** [str] of a value, for text; other values are not needed by the examples. *)
Definition str_de_texto (v : PyVal) : string :=
  match v with
  | VStr s => s
  | _ => ""
  end.

(** A world on 2024-01-31 whose Movimientos sheet has one row of the month
    with an amount that is no number. *)
Definition mundo_con_monto_malo : World :=
  mk_world
    [[VStr "2024-01-05 10:00:00"; VStr "Mica"; VStr "gasto"; VStr "kiosco"; VStr "";
      VStr "abc"; VInt 2024; VInt 1; VStr "ARS"]]
    [] [] [] (mk_datetime 2024 1 31 10 20 30).

(** What the aggregation reads from an amount cell that holds the float
    [x]: a zero of either sign is falsy, so [or 0] makes it 0.0. *)
Definition monto_leido (x : spec_float) : spec_float :=
  match x with
  | S754_zero _ => cero
  | _ => x
  end.

(** The row [add_movimiento] writes for a movement dated [fecha]. *)
Definition fila_movimiento (tipo categoria : string) (monto : spec_float)
    (descripcion : string) (fecha : datetime) (moneda usuario : string) : row :=
  [VStr (strftime fecha); VStr usuario; VStr (lower tipo); VStr categoria;
   VStr descripcion; VFloat monto; VInt (dt_year fecha); VInt (dt_month fecha);
   VStr (upper moneda)].

(** The date a movement gets: the one given, or the clock. *)
Definition fecha_de (fecha : option datetime) (w : World) : datetime :=
  match fecha with
  | None => now w
  | Some f => f
  end.

(** The amounts that go to one total ([true]: ingresos), in order. *)
Definition montos_de (ingreso : bool) (l : list (bool * spec_float)) : list spec_float :=
  map snd (filter (fun a => Bool.eqb (fst a) ingreso) l).

(** The totals after adding [x] to the total the kind [tipo] names. *)
Definition sumar_tipo (tipo : string) (x : spec_float) (t : spec_float * spec_float)
  : spec_float * spec_float :=
  if String.eqb (lower tipo) "ingreso" then (fadd (fst t) x, snd t)
  else if String.eqb (lower tipo) "gasto" then (fst t, fadd (snd t) x)
  else t.

(** The records of the Movimientos sheet of a world. *)
Definition registros_de (w : World) : list dict :=
  get_all_records movimientos_headers (mov_ws w).

(** How a command may change the world from [w] to [w']: the clock is
    not touched; Movimientos only gets rows appended, and none unless [tm];
    Presupuestos and Objetivos lose no row, and are the same unless [tp],
    respectively [to]. *)
Definition marco (tm tp to : bool) (w w' : World) : Prop :=
  now w' = now w /\
  (exists extra, mov_ws w' = (mov_ws w ++ extra)%list /\ (tm = false -> extra = [])) /\
  (List.length (pres_ws w) <= List.length (pres_ws w'))%nat /\
  (tp = false -> pres_ws w' = pres_ws w) /\
  (List.length (obj_ws w) <= List.length (obj_ws w'))%nat /\
  (to = false -> obj_ws w' = obj_ws w).

(** A step that sends nothing. *)
Definition silencioso {A} (tm tp to : bool) (m : M A) : Prop :=
  forall w, marco tm tp to w (snd (m w)) /\ outbox (snd (m w)) = outbox w.

(** A handler that replies once to [chat_id] when it returns and sends
    nothing when it raises. *)
Definition responde (chat_id : PyVal) (tm tp to : bool) (m : M unit) : Prop :=
  forall w,
    marco tm tp to w (snd (m w)) /\
    match fst (m w) with
    | Ok _ => exists msg, outbox (snd (m w)) = (outbox w ++ [(chat_id, msg)])%list
    | Raise _ => outbox (snd (m w)) = outbox w
    end.

(** The sheet a command may write to. *)
Definition escribe_mov (command : string) : bool :=
  existsb (String.eqb command) ["/gasto"; "/gasto_usd"; "/ingreso"; "/ingreso_usd"; "/cuotas"].
Definition escribe_pres (command : string) : bool := String.eqb command "/presupuesto".
Definition escribe_obj (command : string) : bool := String.eqb command "/objetivo".

(** The kind and the currency of the movement a command records. *)
Definition movimiento_de_comando (command : string) : option (string * string) :=
  if String.eqb command "/gasto" then Some ("gasto", "ARS")
  else if String.eqb command "/gasto_usd" then Some ("gasto", "USD")
  else if String.eqb command "/ingreso" then Some ("ingreso", "ARS")
  else if String.eqb command "/ingreso_usd" then Some ("ingreso", "USD")
  else None.

(** The replies of [cmd_movimiento]. *)
Definition msg_movimiento_ok (tipo : string) (monto : spec_float) (categoria moneda : string)
  : string :=
  ("✅ " ++ capitalize tipo ++ " registrado: "
     ++ (if String.eqb (upper moneda) "ARS" then "$" else "USD ") ++ fmt_2f false monto
     ++ " en '" ++ categoria ++ "' (" ++ upper moneda ++ ").")%string.
Definition msg_movimiento_error (e tipo : string) : string :=
  ("❌ " ++ e ++ nl ++ "Ejemplo: /" ++ tipo ++ " comida 5000 empanadas")%string.

(** A no-break space, U+00A0: white space for [str.strip] and [str.split]. *)
Definition nbsp : string := encode [0xA0].

(** A world with empty sheets but for Presupuestos, at the instant [ahora]. *)
Definition mundo_con_presupuestos (ws : worksheet) (ahora : datetime) : World :=
  mk_world [] ws [] [] ahora.

(** The bytes are the encoding of a text. *)
Definition es_texto (s : string) : bool := String.eqb (encode (decode s)) s.

(** A text without white space. *)
Definition sin_espacios (s : string) : bool :=
  forallb (fun c => negb (is_space c)) (decode s).

(** A token: a text that is not empty and has no white space. *)
Definition es_token (s : string) : bool :=
  es_texto s && negb (String.eqb s "") && sin_espacios s.

(** The pairs of a case mapping, one by one. *)
Definition pairs_of_run (r : run) : list (Z * text) :=
  let '(a, n, step, d) := r in
  map (fun k => (a + Z.of_nat k * step, [a + Z.of_nat k * step + d])) (seq 0 (Z.to_nat n)).

Definition pairs_of (runs : list run) (special : list (Z * text)) : list (Z * text) :=
  (special ++ flat_map pairs_of_run runs)%list.

Definition positive_steps (runs : list run) : bool :=
  forallb (fun r : run => let '(_, _, step, _) := r in 0 <? step) runs.

Definition text_eqb (a b : text) : bool := if list_eq_dec Z.eq_dec a b then true else false.

(** A character that is its own lower case, and no capital sigma. *)
Definition lower_fixed (x : Z) : bool := text_eqb (lower_char x) [x] && negb (x =? 0x3A3).
Definition upper_fixed (x : Z) : bool := text_eqb (upper_char x) [x].

(** One turn of [lower_from]. *)
Definition lower_at (before : text) (c : Z) (after : text) : text :=
  if c =? 0x3A3 then [if final_sigma before after then 0x3C2 else 0x3C3] else lower_char c.

(** A word: a text that is not empty and has no white space. *)
Definition es_palabra (w : text) : bool :=
  negb (text_eqb w []) && forallb (fun c => negb (is_space c)) w.

(** The confirmation of [cmd_presupuesto]. *)
Definition msg_presupuesto_ok (categoria : string) (monto : spec_float) : string :=
  ("✅ Presupuesto guardado para '" ++ categoria ++ "': $" ++ fmt_2f false monto
     ++ " por mes.")%string.

(** ** Text and its encoding *)

Ltac bools :=
  repeat match goal with
         | H : _ && _ = true |- _ => apply andb_true_iff in H; destruct H
         | H : (_ <=? _) = true |- _ => apply Z.leb_le in H
         | H : (_ <? _) = true |- _ => apply Z.ltb_lt in H
         | H : (_ =? _) = true |- _ => apply Z.eqb_eq in H
         | H : (_ <=? _) = false |- _ => apply Z.leb_gt in H
         | H : (_ <? _) = false |- _ => apply Z.ltb_ge in H
         | H : (_ =? _) = false |- _ => apply Z.eqb_neq in H
         end.

Lemma leb_true (a b : Z) : a <= b -> (a <=? b) = true.
Proof. apply Z.leb_le. Qed.

Lemma ltb_true (a b : Z) : a < b -> (a <? b) = true.
Proof. apply Z.ltb_lt. Qed.

Lemma ltb_false (a b : Z) : b <= a -> (a <? b) = false.
Proof. apply Z.ltb_ge. Qed.

Lemma leb_false (a b : Z) : b < a -> (a <=? b) = false.
Proof. apply Z.leb_gt. Qed.

Lemma code_range (b : ascii) : 0 <= code b < 256.
Proof.
  unfold code. pose proof (N_ascii_bounded b). lia.
Qed.

Lemma code_byte (n : Z) : 0 <= n < 256 -> code (byte n) = n.
Proof.
  intros H. unfold code, byte. rewrite N_ascii_embedding by lia. lia.
Qed.

Lemma is_char_range (c : Z) : is_char c = true <-> 0 <= c <= 0x10FFFF.
Proof.
  unfold is_char. rewrite andb_true_iff, !Z.leb_le. reflexivity.
Qed.

Lemma is_continuation_byte (n : Z) : 0x80 <= n <= 0xBF -> is_continuation (byte n) = true.
Proof.
  intros H. unfold is_continuation. rewrite code_byte by lia.
  rewrite !leb_true by lia. reflexivity.
Qed.

Lemma low6_byte (n : Z) : 0 <= n < 256 -> low6 (byte n) = n - 0x80.
Proof. intros H. unfold low6. rewrite code_byte by lia. reflexivity. Qed.

Lemma two_bytes_encode (c : Z) :
  0x80 <= c < 0x800 ->
  two_bytes (byte (0xC0 + c / 0x40)) (byte (0x80 + c mod 0x40)) = Some c.
Proof.
  intros H. unfold two_bytes.
  assert (H1 : 2 <= c / 0x40 <= 31) by (Z.div_mod_to_equations; lia).
  assert (H2 : 0 <= c mod 0x40 < 0x40) by (Z.div_mod_to_equations; lia).
  rewrite is_continuation_byte, low6_byte, code_byte by lia.
  rewrite !leb_true by lia. cbn [andb]. f_equal. Z.div_mod_to_equations; lia.
Qed.

Lemma three_bytes_encode (c : Z) :
  0x800 <= c < 0x10000 ->
  three_bytes (byte (0xE0 + c / 0x1000)) (byte (0x80 + c / 0x40 mod 0x40))
    (byte (0x80 + c mod 0x40)) = Some c.
Proof.
  intros H. unfold three_bytes.
  assert (H1 : 0 <= c / 0x1000 <= 15) by (Z.div_mod_to_equations; lia).
  assert (H2 : 0 <= c / 0x40 mod 0x40 < 0x40) by (Z.div_mod_to_equations; lia).
  assert (H3 : 0 <= c mod 0x40 < 0x40) by (Z.div_mod_to_equations; lia).
  rewrite !is_continuation_byte, !low6_byte, code_byte by lia.
  assert (E : (0xE0 + c / 0x1000 - 0xE0) * 0x1000 + (0x80 + c / 0x40 mod 0x40 - 0x80) * 0x40
              + (0x80 + c mod 0x40 - 0x80) = c) by (Z.div_mod_to_equations; lia).
  cbv zeta. rewrite E. rewrite !leb_true by lia. reflexivity.
Qed.

Lemma four_bytes_encode (c : Z) :
  0x10000 <= c <= 0x10FFFF ->
  four_bytes (byte (0xF0 + c / 0x40000)) (byte (0x80 + c / 0x1000 mod 0x40))
    (byte (0x80 + c / 0x40 mod 0x40)) (byte (0x80 + c mod 0x40)) = Some c.
Proof.
  intros H. unfold four_bytes.
  assert (H1 : 0 <= c / 0x40000 <= 4) by (Z.div_mod_to_equations; lia).
  assert (H2 : 0 <= c / 0x1000 mod 0x40 < 0x40) by (Z.div_mod_to_equations; lia).
  assert (H3 : 0 <= c / 0x40 mod 0x40 < 0x40) by (Z.div_mod_to_equations; lia).
  assert (H4 : 0 <= c mod 0x40 < 0x40) by (Z.div_mod_to_equations; lia).
  rewrite !is_continuation_byte, !low6_byte, code_byte by lia.
  assert (E : (0xF0 + c / 0x40000 - 0xF0) * 0x40000
              + (0x80 + c / 0x1000 mod 0x40 - 0x80) * 0x1000
              + (0x80 + c / 0x40 mod 0x40 - 0x80) * 0x40
              + (0x80 + c mod 0x40 - 0x80) = c) by (Z.div_mod_to_equations; lia).
  cbv zeta. rewrite E. rewrite !leb_true by lia. reflexivity.
Qed.

Lemma two_bytes_lead (b0 b1 : ascii) : 0xE0 <= code b0 -> two_bytes b0 b1 = None.
Proof.
  intros H. unfold two_bytes. rewrite (leb_false (code b0) 0xDF) by lia.
  rewrite andb_false_r. reflexivity.
Qed.

Lemma three_bytes_lead (b0 b1 b2 : ascii) : 0xF0 <= code b0 -> three_bytes b0 b1 b2 = None.
Proof.
  intros H. unfold three_bytes. cbv zeta. rewrite (leb_false (code b0) 0xEF) by lia.
  rewrite andb_false_r. reflexivity.
Qed.

(** Reading back the encoding of a character. *)
Lemma decode_encode_char (c : Z) (s : string) :
  is_char c = true -> decode (encode_char c ++ s) = c :: decode s.
Proof.
  intros H. apply is_char_range in H. unfold encode_char.
  destruct (Z.ltb_spec c 0x80) as [H1|H1].
  { cbn [append decode]. rewrite code_byte by lia. rewrite ltb_true by lia. reflexivity. }
  destruct (Z.ltb_spec c 0x800) as [H2|H2].
  { cbn [append decode].
    assert (Hq : 2 <= c / 0x40 <= 31) by (Z.div_mod_to_equations; lia).
    rewrite code_byte by lia. rewrite ltb_false by lia.
    rewrite two_bytes_encode by lia. reflexivity. }
  destruct (Z.ltb_spec c 0x10000) as [H3|H3].
  { cbn [append decode].
    assert (Hq : 0 <= c / 0x1000 <= 15) by (Z.div_mod_to_equations; lia).
    rewrite code_byte by lia. rewrite ltb_false by lia.
    rewrite two_bytes_lead by (rewrite code_byte; lia).
    rewrite three_bytes_encode by lia. reflexivity. }
  cbn [append decode].
  assert (Hq : 0 <= c / 0x40000 <= 4) by (Z.div_mod_to_equations; lia).
  rewrite code_byte by lia. rewrite ltb_false by lia.
  rewrite two_bytes_lead by (rewrite code_byte; lia).
  rewrite three_bytes_lead by (rewrite code_byte; lia).
  rewrite four_bytes_encode by lia. reflexivity.
Qed.

Lemma append_assoc' (a b c : string) : ((a ++ b) ++ c = a ++ (b ++ c))%string.
Proof. induction a as [|x a IH]; cbn [append]; [reflexivity|]. rewrite IH. reflexivity. Qed.

Lemma append_nil_r (a : string) : (a ++ "")%string = a.
Proof. induction a as [|x a IH]; cbn [append]; [reflexivity|]. rewrite IH. reflexivity. Qed.

Lemma decode_encode_app (l : text) (s : string) :
  forallb is_char l = true -> decode (encode l ++ s) = (l ++ decode s)%list.
Proof.
  induction l as [|c l IH]; [reflexivity|].
  cbn [forallb encode app]. intros H. apply andb_true_iff in H. destruct H as [Hc Hl].
  rewrite append_assoc', (decode_encode_char _ _ Hc), (IH Hl). reflexivity.
Qed.

Lemma decode_encode (l : text) : forallb is_char l = true -> decode (encode l) = l.
Proof.
  intros H. rewrite <- (append_nil_r (encode l)), (decode_encode_app _ _ H).
  apply app_nil_r.
Qed.

Lemma two_bytes_char (b0 b1 : ascii) (c : Z) : two_bytes b0 b1 = Some c -> is_char c = true.
Proof.
  unfold two_bytes, is_continuation, low6.
  destruct (_ && _) eqn:E; [|discriminate]. intros H. injection H as <-.
  bools. apply is_char_range. lia.
Qed.

Lemma three_bytes_char (b0 b1 b2 : ascii) (c : Z) :
  three_bytes b0 b1 b2 = Some c -> is_char c = true.
Proof.
  unfold three_bytes, is_continuation, low6. cbv zeta.
  destruct (_ && _) eqn:E; [|discriminate]. intros H. injection H as <-.
  bools. apply is_char_range. lia.
Qed.

Lemma four_bytes_char (b0 b1 b2 b3 : ascii) (c : Z) :
  four_bytes b0 b1 b2 b3 = Some c -> is_char c = true.
Proof.
  unfold four_bytes. cbv zeta.
  destruct (_ && _) eqn:E; [|discriminate]. intros H. injection H as <-.
  bools. apply is_char_range. lia.
Qed.

(** One step of [decode]: a character and a shorter rest. *)
Lemma decode_step (b : ascii) (r : string) :
  exists c r',
    decode (String b r) = c :: decode r' /\ is_char c = true /\
    (String.length r' <= String.length r)%nat.
Proof.
  cbn [decode].
  destruct (Z.ltb_spec (code b) 0x80) as [H|H].
  { exists (code b), r. pose proof (code_range b).
    split; [reflexivity|]. split; [apply is_char_range; lia|lia]. }
  destruct r as [|b1 r1]; [exists 0xFFFD, ""; repeat split; lia|].
  destruct (two_bytes b b1) as [c|] eqn:E2.
  { exists c, r1. split; [reflexivity|]. split; [eapply two_bytes_char, E2|cbn; lia]. }
  destruct r1 as [|b2 r2]; [exists 0xFFFD, (String b1 ""); repeat split; cbn; lia|].
  destruct (three_bytes b b1 b2) as [c|] eqn:E3.
  { exists c, r2. split; [reflexivity|]. split; [eapply three_bytes_char, E3|cbn; lia]. }
  destruct r2 as [|b3 r3]; [exists 0xFFFD, (String b1 (String b2 "")); repeat split; cbn; lia|].
  destruct (four_bytes b b1 b2 b3) as [c|] eqn:E4.
  { exists c, r3. split; [reflexivity|]. split; [eapply four_bytes_char, E4|cbn; lia]. }
  exists 0xFFFD, (String b1 (String b2 (String b3 r3))). repeat split; cbn; lia.
Qed.

Lemma decode_chars (s : string) : forallb is_char (decode s) = true.
Proof.
  remember (String.length s) as n eqn:Hn.
  assert (H : (String.length s <= n)%nat) by lia. clear Hn. revert s H.
  induction n as [|n IH]; intros s H.
  - destruct s; [reflexivity|cbn in H; lia].
  - destruct s as [|b r]; [reflexivity|].
    destruct (decode_step b r) as (c & r' & E & Hc & Hl).
    rewrite E. cbn [forallb]. rewrite Hc. apply IH. cbn in H. lia.
Qed.

Lemma decode_nil (s : string) : decode s = [] -> s = "".
Proof.
  destruct s as [|b r]; [reflexivity|].
  destruct (decode_step b r) as (c & r' & E & _). rewrite E. discriminate.
Qed.

Lemma encode_char_not_nil (c : Z) : encode_char c <> "".
Proof.
  unfold encode_char.
  destruct (c <? 0x80); [discriminate|]. destruct (c <? 0x800); [discriminate|].
  destruct (c <? 0x10000); discriminate.
Qed.

Lemma encode_nil (l : text) : encode l = "" -> l = [].
Proof.
  destruct l as [|c l]; [reflexivity|]. cbn [encode].
  pose proof (encode_char_not_nil c) as H.
  destruct (encode_char c); [congruence|discriminate].
Qed.

Lemma encode_text (l : text) : forallb is_char l = true -> es_texto (encode l) = true.
Proof.
  intros H. unfold es_texto. rewrite (decode_encode _ H). apply String.eqb_refl.
Qed.

Lemma es_texto_encode (s : string) : es_texto s = true -> encode (decode s) = s.
Proof. apply String.eqb_eq. Qed.

(** ** Letter case *)

Lemma assoc_In (c : Z) (t : list (Z * text)) (l : text) : assoc c t = Some l -> In (c, l) t.
Proof.
  induction t as [|[k v] t IH]; cbn [assoc]; [discriminate|].
  destruct (Z.eqb_spec c k) as [->|_].
  - intros H. injection H as ->. left. reflexivity.
  - intros H. right. apply IH, H.
Qed.

Lemma run_image_In (c x : Z) (runs : list run) :
  positive_steps runs = true -> run_image c runs = Some x ->
  In (c, [x]) (flat_map pairs_of_run runs).
Proof.
  induction runs as [|[[[a n] step] d] runs IH]; cbn [run_image positive_steps forallb];
    [discriminate|].
  intros Hp. apply andb_true_iff in Hp. destruct Hp as [Hs Hp]. apply Z.ltb_lt in Hs.
  cbn [flat_map]. rewrite in_app_iff.
  destruct (_ && _) eqn:E.
  - intros H. injection H as <-. left. bools.
    unfold pairs_of_run. apply in_map_iff. exists (Z.to_nat ((c - a) / step)).
    assert (Hk : 0 <= (c - a) / step < n).
    { split; [apply Z.div_pos; lia|]. apply Z.div_lt_upper_bound; lia. }
    assert (Hc : c = a + (c - a) / step * step).
    { pose proof (Z.div_mod (c - a) step ltac:(lia)). lia. }
    rewrite Z2Nat.id by lia. split; [rewrite <- Hc; reflexivity|].
    apply in_seq. lia.
  - intros H. right. apply IH; assumption.
Qed.

Lemma mapped_In (runs : list run) (special : list (Z * text)) (c : Z) (l : text) :
  positive_steps runs = true -> mapped runs special c = Some l ->
  In (c, l) (pairs_of runs special).
Proof.
  intros Hp. unfold mapped, pairs_of. rewrite in_app_iff.
  destruct (assoc c special) as [v|] eqn:Ea.
  - intros H. injection H as <-. left. apply assoc_In, Ea.
  - destruct (run_image c runs) as [x|] eqn:Er; [|discriminate].
    intros H. injection H as <-. right. apply run_image_In; assumption.
Qed.

(** A property of the images of a case mapping, checked pair by pair. *)
Lemma mapped_all (P : Z -> text -> bool) (runs : list run) (special : list (Z * text))
    (c : Z) (l : text) :
  positive_steps runs = true ->
  forallb (fun p => P (fst p) (snd p)) (pairs_of runs special) = true ->
  mapped runs special c = Some l -> P c l = true.
Proof.
  intros Hp Hall Hm. rewrite forallb_forall in Hall.
  apply (Hall (c, l)), mapped_In; assumption.
Qed.

Lemma text_eqb_eq (a b : text) : text_eqb a b = true -> a = b.
Proof. unfold text_eqb. destruct (list_eq_dec Z.eq_dec a b); [trivial|discriminate]. Qed.

Lemma lower_table_ok :
  positive_steps lower_runs = true /\
  forallb (fun p => negb (text_eqb (snd p) []) && forallb is_char (snd p)
                    && forallb lower_fixed (snd p))
    (pairs_of lower_runs lower_special) = true.
Proof. vm_compute. split; reflexivity. Qed.

Lemma upper_table_ok :
  positive_steps upper_runs = true /\
  forallb (fun p => negb (text_eqb (snd p) []) && forallb is_char (snd p)
                    && forallb upper_fixed (snd p))
    (pairs_of upper_runs upper_special) = true.
Proof. vm_compute. split; reflexivity. Qed.

(** The lower case of a character is not empty and is made of characters
    that are their own lower case. *)
Lemma lower_char_spec (c : Z) :
  is_char c = true ->
  lower_char c <> [] /\ forallb is_char (lower_char c) = true /\
  (c <> 0x3A3 -> forallb lower_fixed (lower_char c) = true).
Proof.
  intros Hc. pose proof Hc as Hr. apply is_char_range in Hr.
  destruct lower_table_ok as (Hp & Hall).
  unfold lower_char. destruct (Z.ltb_spec c 0x80) as [H|H].
  - split; [discriminate|].
    destruct ((0x41 <=? c) && (c <=? 0x5A)) eqn:E; bools.
    + split; [cbn [forallb]; rewrite andb_true_r; apply is_char_range; lia|].
      intros _. cbn [forallb]. rewrite andb_true_r. unfold lower_fixed, lower_char.
      rewrite ltb_true by lia. rewrite (leb_false (c + 0x20) 0x5A) by lia.
      rewrite andb_false_r. unfold text_eqb.
      destruct (list_eq_dec Z.eq_dec [c + 0x20] [c + 0x20]); [|congruence].
      destruct (Z.eqb_spec (c + 0x20) 0x3A3); [lia|reflexivity].
    + split; [cbn [forallb]; rewrite Hc; reflexivity|].
      intros _. cbn [forallb]. rewrite andb_true_r. unfold lower_fixed, lower_char.
      rewrite ltb_true by lia. rewrite E. unfold text_eqb.
      destruct (list_eq_dec Z.eq_dec [c] [c]); [|congruence].
      destruct (Z.eqb_spec c 0x3A3); [lia|reflexivity].
  - destruct (mapped lower_runs lower_special c) as [l|] eqn:Em.
    + pose proof (mapped_all (fun _ l => negb (text_eqb l []) && forallb is_char l && forallb lower_fixed l)
                    _ _ _ _ Hp Hall Em) as Hl. cbn beta in Hl.
      apply andb_true_iff in Hl. destruct Hl as [Hl H3].
      apply andb_true_iff in Hl. destruct Hl as [H1 H2].
      split; [intros ->; discriminate|]. split; [exact H2|]. intros _. exact H3.
    + split; [discriminate|]. split; [cbn [forallb]; rewrite Hc; reflexivity|].
      intros Hne. cbn [forallb]. rewrite andb_true_r. unfold lower_fixed, lower_char.
      rewrite ltb_false by lia. rewrite Em. unfold text_eqb.
      destruct (list_eq_dec Z.eq_dec [c] [c]); [|congruence].
      destruct (Z.eqb_spec c 0x3A3); [congruence|reflexivity].
Qed.

Lemma upper_char_spec (c : Z) :
  is_char c = true ->
  upper_char c <> [] /\ forallb is_char (upper_char c) = true /\
  forallb upper_fixed (upper_char c) = true.
Proof.
  intros Hc. pose proof Hc as Hr. apply is_char_range in Hr.
  destruct upper_table_ok as (Hp & Hall).
  unfold upper_char. destruct (Z.ltb_spec c 0x80) as [H|H].
  - split; [discriminate|].
    destruct ((0x61 <=? c) && (c <=? 0x7A)) eqn:E; bools.
    + split; [cbn [forallb]; rewrite andb_true_r; apply is_char_range; lia|].
      cbn [forallb]. rewrite andb_true_r. unfold upper_fixed, upper_char.
      rewrite ltb_true by lia. rewrite (leb_false 0x61 (c - 0x20)) by lia.
      cbn [andb]. unfold text_eqb.
      destruct (list_eq_dec Z.eq_dec [c - 0x20] [c - 0x20]); [reflexivity|congruence].
    + split; [cbn [forallb]; rewrite Hc; reflexivity|].
      cbn [forallb]. rewrite andb_true_r. unfold upper_fixed, upper_char.
      rewrite ltb_true by lia. rewrite E. unfold text_eqb.
      destruct (list_eq_dec Z.eq_dec [c] [c]); [reflexivity|congruence].
  - destruct (mapped upper_runs upper_special c) as [l|] eqn:Em.
    + pose proof (mapped_all (fun _ l => negb (text_eqb l []) && forallb is_char l && forallb upper_fixed l)
                    _ _ _ _ Hp Hall Em) as Hl. cbn beta in Hl.
      apply andb_true_iff in Hl. destruct Hl as [Hl H3].
      apply andb_true_iff in Hl. destruct Hl as [H1 H2].
      split; [intros ->; discriminate|]. split; [exact H2|exact H3].
    + split; [discriminate|]. split; [cbn [forallb]; rewrite Hc; reflexivity|].
      cbn [forallb]. rewrite andb_true_r. unfold upper_fixed, upper_char.
      rewrite ltb_false by lia. rewrite Em. unfold text_eqb.
      destruct (list_eq_dec Z.eq_dec [c] [c]); [reflexivity|congruence].
Qed.

Lemma forallb_app' {A} (f : A -> bool) (l1 l2 : list A) :
  forallb f (l1 ++ l2) = forallb f l1 && forallb f l2.
Proof. induction l1 as [|a l1 IH]; cbn; [reflexivity|]. rewrite IH, andb_assoc. reflexivity. Qed.

Lemma lower_at_spec (before : text) (c : Z) (after : text) :
  is_char c = true ->
  lower_at before c after <> [] /\ forallb is_char (lower_at before c after) = true /\
  forallb lower_fixed (lower_at before c after) = true.
Proof.
  intros Hc. unfold lower_at. destruct (Z.eqb_spec c 0x3A3) as [->|Hne].
  - destruct (final_sigma before after); repeat split; try discriminate; vm_compute; reflexivity.
  - destruct (lower_char_spec c Hc) as (H1 & H2 & H3). auto.
Qed.

Lemma lower_from_cons (before : text) (c : Z) (r : text) :
  lower_from before (c :: r) = (lower_at before c r ++ lower_from (c :: before) r)%list.
Proof. reflexivity. Qed.

Lemma lower_from_chars (l before : text) :
  forallb is_char l = true ->
  forallb is_char (lower_from before l) = true /\
  forallb lower_fixed (lower_from before l) = true.
Proof.
  revert before. induction l as [|c r IH]; intros before; [split; reflexivity|].
  cbn [forallb]. intros H. apply andb_true_iff in H. destruct H as [Hc Hr].
  rewrite lower_from_cons, !forallb_app'.
  destruct (lower_at_spec before c r Hc) as (_ & H2 & H3).
  destruct (IH (c :: before) Hr) as [H4 H5].
  rewrite H2, H3, H4, H5. split; reflexivity.
Qed.

Lemma lower_from_fixed (l before : text) :
  forallb lower_fixed l = true -> lower_from before l = l.
Proof.
  revert before. induction l as [|c r IH]; intros before; [reflexivity|].
  cbn [forallb]. intros H. apply andb_true_iff in H. destruct H as [Hc Hr].
  rewrite lower_from_cons, (IH _ Hr). unfold lower_at.
  unfold lower_fixed in Hc. apply andb_true_iff in Hc. destruct Hc as [H1 H2].
  apply negb_true_iff in H2. rewrite H2. rewrite (text_eqb_eq _ _ H1). reflexivity.
Qed.

Lemma lower_from_nil (l before : text) :
  forallb is_char l = true -> lower_from before l = [] -> l = [].
Proof.
  destruct l as [|c r]; [reflexivity|].
  cbn [forallb]. intros H. apply andb_true_iff in H. destruct H as [Hc _].
  rewrite lower_from_cons. destruct (lower_at_spec before c r Hc) as (Hne & _).
  destruct (lower_at before c r); [congruence|discriminate].
Qed.

Lemma upper_text_chars (l : text) :
  forallb is_char l = true ->
  forallb is_char (flat_map upper_char l) = true /\
  forallb upper_fixed (flat_map upper_char l) = true.
Proof.
  induction l as [|c r IH]; [split; reflexivity|].
  cbn [forallb flat_map]. intros H. apply andb_true_iff in H. destruct H as [Hc Hr].
  rewrite !forallb_app'. destruct (upper_char_spec c Hc) as (_ & H2 & H3).
  destruct (IH Hr) as [H4 H5]. rewrite H2, H3, H4, H5. split; reflexivity.
Qed.

Lemma upper_text_fixed (l : text) :
  forallb upper_fixed l = true -> flat_map upper_char l = l.
Proof.
  induction l as [|c r IH]; [reflexivity|].
  cbn [forallb flat_map]. intros H. apply andb_true_iff in H. destruct H as [Hc Hr].
  rewrite (IH Hr), (text_eqb_eq _ _ Hc). reflexivity.
Qed.

(** Lower and upper case are idempotent, and only the empty text has an
    empty lower or upper case. *)
Lemma lower_idem (s : string) : lower (lower s) = lower s.
Proof.
  unfold lower.
  destruct (lower_from_chars (decode s) [] (decode_chars s)) as [H1 H2].
  rewrite (decode_encode _ H1), (lower_from_fixed _ _ H2). reflexivity.
Qed.

Lemma upper_idem (s : string) : upper (upper s) = upper s.
Proof.
  unfold upper.
  destruct (upper_text_chars (decode s) (decode_chars s)) as [H1 H2].
  rewrite (decode_encode _ H1), (upper_text_fixed _ H2). reflexivity.
Qed.

Lemma lower_empty (s : string) : lower s = "" -> s = "".
Proof.
  unfold lower. intros H. apply encode_nil in H.
  apply lower_from_nil in H; [|apply decode_chars]. apply decode_nil, H.
Qed.

Lemma upper_empty (s : string) : upper s = "" -> s = "".
Proof.
  unfold upper. intros H. apply encode_nil in H. apply decode_nil.
  destruct (decode s) as [|c r] eqn:E; [reflexivity|].
  pose proof (decode_chars s) as Hc. rewrite E in Hc. cbn [forallb] in Hc.
  apply andb_true_iff in Hc. destruct Hc as [Hc _].
  destruct (upper_char_spec c Hc) as (Hne & _).
  cbn [flat_map] in H. destruct (upper_char c); [congruence|discriminate].
Qed.

(** ** White space and tokens *)

Lemma es_palabra_cons (c : Z) (r : text) :
  es_palabra (c :: r) = negb (is_space c) && forallb (fun c => negb (is_space c)) r.
Proof. reflexivity. Qed.

Lemma split_text_palabras (l : text) : forallb es_palabra (split_text l) = true.
Proof.
  induction l as [|c r IH]; [reflexivity|].
  cbn [split_text]. destruct (is_space c) eqn:Hc; [exact IH|].
  destruct r as [|c' r']; [cbn [forallb]; rewrite es_palabra_cons, Hc; reflexivity|].
  destruct (is_space c') eqn:Hc'.
  - cbn [forallb]. rewrite es_palabra_cons, Hc, IH. reflexivity.
  - destruct (split_text (c' :: r')) as [|w ws].
    + cbn [forallb]. rewrite es_palabra_cons, Hc. reflexivity.
    + cbn [forallb] in *. apply andb_true_iff in IH. destruct IH as [Hw Hws].
      rewrite es_palabra_cons, Hc, Hws.
      unfold es_palabra in Hw. apply andb_true_iff in Hw. destruct Hw as [_ Hw].
      rewrite Hw. reflexivity.
Qed.

Lemma split_text_chars (l : text) :
  forallb is_char l = true -> forallb (forallb is_char) (split_text l) = true.
Proof.
  induction l as [|c r IH]; [reflexivity|].
  cbn [forallb]. intros H. apply andb_true_iff in H. destruct H as [Hc Hr].
  specialize (IH Hr). cbn [split_text]. destruct (is_space c); [exact IH|].
  destruct r as [|c' r']; [cbn [forallb]; rewrite Hc; reflexivity|].
  destruct (is_space c').
  - cbn [forallb]. rewrite Hc, IH. reflexivity.
  - destruct (split_text (c' :: r')) as [|w ws]; [cbn [forallb]; rewrite Hc; reflexivity|].
    cbn [forallb] in *. rewrite Hc. exact IH.
Qed.

Lemma lstrip_text_chars (l : text) :
  forallb is_char l = true -> forallb is_char (lstrip_text l) = true.
Proof.
  induction l as [|c r IH]; [reflexivity|].
  intros H. cbn [lstrip_text]. destruct (is_space c); [|exact H].
  cbn [forallb] in H. apply andb_true_iff in H. apply IH, H.
Qed.

Lemma rstrip_text_chars (l : text) :
  forallb is_char l = true -> forallb is_char (rstrip_text l) = true.
Proof.
  induction l as [|c r IH]; [reflexivity|].
  cbn [forallb]. intros H. apply andb_true_iff in H. destruct H as [Hc Hr].
  specialize (IH Hr). cbn [rstrip_text]. destruct (rstrip_text r) as [|a r'].
  - destruct (is_space c); [reflexivity|]. cbn [forallb]. rewrite Hc. reflexivity.
  - cbn [forallb] in *. rewrite Hc. exact IH.
Qed.

Lemma split_lstrip_text (l : text) : split_text (lstrip_text l) = split_text l.
Proof.
  induction l as [|c r IH]; [reflexivity|].
  cbn [lstrip_text]. destruct (is_space c) eqn:Hc; [|reflexivity].
  rewrite IH. cbn [split_text]. rewrite Hc. reflexivity.
Qed.

Lemma rstrip_text_first (l : text) (c : Z) (r : text) :
  rstrip_text l = c :: r -> exists r0, l = c :: r0.
Proof.
  destruct l as [|a l]; cbn [rstrip_text]; [discriminate|].
  destruct (rstrip_text l).
  - destruct (is_space a); [discriminate|].
    intros H. injection H as <- _. eexists; reflexivity.
  - intros H. injection H as <- _. eexists; reflexivity.
Qed.

Lemma rstrip_text_nil_split (l : text) : rstrip_text l = [] -> split_text l = [].
Proof.
  induction l as [|c r IH]; [reflexivity|].
  cbn [rstrip_text]. destruct (rstrip_text r) eqn:Hr; [|discriminate].
  destruct (is_space c) eqn:Hc; [|discriminate].
  intros _. cbn [split_text]. rewrite Hc. apply IH. reflexivity.
Qed.

Lemma rstrip_text_nil_first (c : Z) (r : text) :
  rstrip_text (c :: r) = [] -> is_space c = true.
Proof.
  cbn [rstrip_text]. destruct (rstrip_text r); [|discriminate].
  destruct (is_space c); [reflexivity|discriminate].
Qed.

Lemma split_rstrip_text (l : text) : split_text (rstrip_text l) = split_text l.
Proof.
  induction l as [|c r IH]; [reflexivity|].
  cbn [rstrip_text]. destruct (rstrip_text r) as [|a r'] eqn:Hr.
  - pose proof (rstrip_text_nil_split r Hr) as Hs.
    destruct (is_space c) eqn:Hc.
    + cbn [split_text]. rewrite Hc, Hs. reflexivity.
    + cbn [split_text]. rewrite Hc. destruct r as [|c' r'']; [reflexivity|].
      rewrite (rstrip_text_nil_first c' r'' Hr), Hs. reflexivity.
  - destruct (rstrip_text_first r a r' Hr) as [r0 ->].
    cbn [split_text] in *. destruct (is_space c); [exact IH|].
    destruct (is_space a); rewrite IH; reflexivity.
Qed.

Lemma lstrip_text_first (l : text) (c : Z) (r : text) :
  lstrip_text l = c :: r -> is_space c = false.
Proof.
  induction l as [|a l IH]; cbn [lstrip_text]; [discriminate|].
  destruct (is_space a) eqn:Ha; [exact IH|].
  intros H. injection H as <- _. exact Ha.
Qed.

Lemma split_text_nil (l : text) : split_text l = [] -> rstrip_text (lstrip_text l) = [].
Proof.
  intros H. destruct (rstrip_text (lstrip_text l)) as [|c r] eqn:E; [reflexivity|].
  destruct (rstrip_text_first _ _ _ E) as [r0 E0].
  pose proof (lstrip_text_first _ _ _ E0) as Hc.
  rewrite <- split_lstrip_text, E0 in H. cbn [split_text] in H. rewrite Hc in H.
  destruct r0 as [|a r0]; [discriminate|].
  destruct (is_space a); [discriminate|].
  destruct (split_text (a :: r0)); discriminate.
Qed.

Lemma split_text_palabra (w : text) : es_palabra w = true -> split_text w = [w].
Proof.
  induction w as [|c r IH]; [discriminate|].
  rewrite es_palabra_cons. intros H. apply andb_true_iff in H. destruct H as [Hc Hr].
  apply negb_true_iff in Hc. cbn [split_text]. rewrite Hc.
  destruct r as [|c' r']; [reflexivity|].
  assert (Ht : es_palabra (c' :: r') = true) by exact Hr.
  pose proof Hr as Hr'. cbn [forallb] in Hr'. apply andb_true_iff in Hr'.
  destruct Hr' as [Hc' _]. apply negb_true_iff in Hc'. rewrite Hc'.
  rewrite (IH Ht). reflexivity.
Qed.

Lemma split_text_palabra_space (w rest : text) :
  es_palabra w = true -> split_text (w ++ 0x20 :: rest) = w :: split_text rest.
Proof.
  induction w as [|c r IH]; [discriminate|].
  rewrite es_palabra_cons. intros H. apply andb_true_iff in H. destruct H as [Hc Hr].
  apply negb_true_iff in Hc.
  destruct r as [|c' r'].
  - cbn [app split_text]. rewrite Hc.
    replace (is_space 0x20) with true by reflexivity. reflexivity.
  - assert (Ht : es_palabra (c' :: r') = true) by exact Hr.
    pose proof Hr as Hr'. cbn [forallb] in Hr'. apply andb_true_iff in Hr'.
    destruct Hr' as [Hc' _]. apply negb_true_iff in Hc'.
    specialize (IH Ht). cbn [app] in *. cbn [split_text] in *.
    rewrite Hc, Hc' in *. rewrite IH. reflexivity.
Qed.

(** The same, of the encoded text. *)

Lemma es_token_palabra (w : text) :
  forallb is_char w = true -> es_palabra w = true -> es_token (encode w) = true.
Proof.
  intros Hc Hw. unfold es_token, sin_espacios. rewrite (encode_text _ Hc), (decode_encode _ Hc).
  unfold es_palabra in Hw. apply andb_true_iff in Hw. destruct Hw as [Hne Hs].
  rewrite Hs, andb_true_r. cbn [andb]. apply negb_true_iff. apply String.eqb_neq.
  intros E. apply encode_nil in E. subst w. discriminate.
Qed.

Lemma es_token_decode (tok : string) :
  es_token tok = true -> encode (decode tok) = tok /\ es_palabra (decode tok) = true.
Proof.
  unfold es_token, sin_espacios. intros H.
  apply andb_true_iff in H. destruct H as [H Hs].
  apply andb_true_iff in H. destruct H as [Ht Hne].
  split; [apply es_texto_encode, Ht|].
  unfold es_palabra. rewrite Hs, andb_true_r. apply negb_true_iff.
  apply negb_true_iff, String.eqb_neq in Hne.
  unfold text_eqb. destruct (list_eq_dec Z.eq_dec (decode tok) []) as [E|]; [|reflexivity].
  exfalso. apply Hne, decode_nil, E.
Qed.

Lemma split_tokens (s : string) : forallb es_token (split s) = true.
Proof.
  unfold split. pose proof (split_text_palabras (decode s)) as Hw.
  pose proof (split_text_chars _ (decode_chars s)) as Hc.
  induction (split_text (decode s)) as [|w ws IH]; [reflexivity|].
  cbn [forallb map] in *.
  apply andb_true_iff in Hw. destruct Hw as [Hw Hws].
  apply andb_true_iff in Hc. destruct Hc as [Hc Hcs].
  rewrite (es_token_palabra _ Hc Hw). apply IH; assumption.
Qed.

Lemma split_strip (s : string) : split (strip s) = split s.
Proof.
  unfold split, strip.
  rewrite decode_encode by (apply rstrip_text_chars, lstrip_text_chars, decode_chars).
  rewrite split_rstrip_text, split_lstrip_text. reflexivity.
Qed.

Lemma split_nil (s : string) : split s = [] <-> strip s = "".
Proof.
  unfold split, strip. split.
  - intros H. apply map_eq_nil in H. rewrite (split_text_nil _ H). reflexivity.
  - intros H. apply encode_nil in H.
    rewrite <- split_lstrip_text, <- split_rstrip_text, H. reflexivity.
Qed.

Lemma split_token (tok : string) : es_token tok = true -> split tok = [tok].
Proof.
  intros H. destruct (es_token_decode _ H) as [He Hw].
  unfold split. rewrite (split_text_palabra _ Hw). cbn [map]. rewrite He. reflexivity.
Qed.

Lemma split_token_space (tok rest : string) :
  es_token tok = true -> split (tok ++ String " " rest) = tok :: split rest.
Proof.
  intros H. destruct (es_token_decode _ H) as [He Hw].
  unfold split. rewrite <- He at 1.
  rewrite decode_encode_app by apply decode_chars.
  change (decode (String " " rest)) with (0x20 :: decode rest).
  rewrite (split_text_palabra_space _ _ Hw). cbn [map]. rewrite He. reflexivity.
Qed.

(** ** The monthly aggregation *)

Section Aggregation.

Variables year month : Z.

Lemma py_upper_moneda (row : dict) :
  py_upper (py_or (get "Moneda" row) (VStr "ARS")) =
  match moneda_de row with
  | Some s => Ok s
  | None => Raise (AttributeError "object has no attribute 'upper'")
  end.
Proof.
  unfold moneda_de, py_upper, str_method.
  destruct (py_or (get "Moneda" row) (VStr "ARS")); reflexivity.
Qed.

(** A filtered row leaves the totals as they are. *)
Lemma sumar_fila_filtrada (tot : spec_float * spec_float) (row : dict) :
  filtrada year month row = true -> sumar_fila year month tot row = Ok tot.
Proof.
  unfold filtrada, sumar_fila. intros H.
  destruct (leer_anio_mes row) as [[anio mes]|e].
  - destruct ((anio =? year) && (mes =? month)); [|reflexivity].
    rewrite py_upper_moneda.
    destruct (moneda_de row) as [s|]; [|discriminate].
    simpl. destruct (String.eqb s "ARS"); [discriminate|reflexivity].
  - destruct e; try discriminate. reflexivity.
Qed.

(** A row that is neither selected nor filtered stops the loop, whatever
    the totals are. *)
Lemma sumar_fila_falla (row : dict) :
  seleccionada year month row = false -> filtrada year month row = false ->
  exists e, forall tot, sumar_fila year month tot row = Raise e.
Proof.
  unfold seleccionada, anio_mes_coinciden, es_ARS, filtrada, sumar_fila.
  intros Hs Hf.
  destruct (leer_anio_mes row) as [[anio mes]|e].
  - destruct ((anio =? year) && (mes =? month)); [|discriminate].
    destruct (moneda_de row) as [s|] eqn:Hm.
    + simpl in Hs. rewrite Hs in Hf. discriminate.
    + eexists. intros tot. rewrite py_upper_moneda, Hm. reflexivity.
  - exists e. intros tot. destruct e; try reflexivity. discriminate.
Qed.

Lemma seleccionada_no_filtrada (row : dict) :
  seleccionada year month row = true -> filtrada year month row = false.
Proof.
  unfold seleccionada, anio_mes_coinciden, es_ARS, filtrada.
  destruct (leer_anio_mes row) as [[anio mes]|e]; [|discriminate].
  destruct ((anio =? year) && (mes =? month)); [|discriminate].
  destruct (moneda_de row) as [s|]; [|discriminate].
  simpl. intros ->. reflexivity.
Qed.

Lemma sumar_desde_app (tot : spec_float * spec_float) (l1 l2 : list dict) :
  sumar_desde year month tot (l1 ++ l2) =
  let? tot' := sumar_desde year month tot l1 in sumar_desde year month tot' l2.
Proof.
  revert tot. induction l1 as [|r l1 IH]; intros tot; simpl; [reflexivity|].
  destruct (sumar_fila year month tot r) as [tot'|e]; simpl; [apply IH|reflexivity].
Qed.

(** Filtered rows can be dropped anywhere in the list. *)
Lemma sumar_desde_sin_filtrada (tot : spec_float * spec_float) (l1 l2 : list dict) (r : dict) :
  filtrada year month r = true ->
  sumar_desde year month tot (l1 ++ r :: l2) = sumar_desde year month tot (l1 ++ l2).
Proof.
  intros H. rewrite !sumar_desde_app.
  destruct (sumar_desde year month tot l1) as [tot'|e]; simpl; [|reflexivity].
  rewrite (sumar_fila_filtrada _ _ H). reflexivity.
Qed.



Lemma sumar_fila_seleccionada (tot : spec_float * spec_float) (row : dict) :
  seleccionada year month row = true ->
  sumar_fila year month tot row = let? l := aporte_de row in Ok (totales tot l).
Proof.
  unfold seleccionada, anio_mes_coinciden, es_ARS, sumar_fila, aporte_de.
  intros H. apply andb_true_iff in H. destruct H as [Hym Hars].
  destruct (leer_anio_mes row) as [[anio mes]|e]; [|discriminate].
  rewrite Hym, py_upper_moneda.
  destruct (moneda_de row) as [s|]; [|discriminate].
  simpl. rewrite Hars.
  destruct (py_float (py_or (get "Monto" row) (VInt 0))) as [monto|e]; simpl; [|reflexivity].
  destruct (py_lower (py_or (get "Tipo" row) (VStr ""))) as [tipo|e]; simpl; [|reflexivity].
  destruct (String.eqb tipo "ingreso"); [destruct tot; reflexivity|].
  destruct (String.eqb tipo "gasto"); destruct tot; reflexivity.
Qed.

(** A row either adds its amounts, whatever the totals are, or stops the
    loop, whatever the totals are. *)
Lemma pasa_o_falla (row : dict) :
  pasa year month row \/ exists e, forall tot, sumar_fila year month tot row = Raise e.
Proof.
  unfold pasa, aportes_fila.
  destruct (seleccionada year month row) eqn:Hs.
  - destruct (aporte_de row) as [l|e] eqn:Ha.
    + left. intros tot. rewrite (sumar_fila_seleccionada _ _ Hs), Ha. reflexivity.
    + right. exists e. intros tot. rewrite (sumar_fila_seleccionada _ _ Hs), Ha. reflexivity.
  - destruct (filtrada year month row) eqn:Hf.
    + left. intros tot. apply sumar_fila_filtrada, Hf.
    + right. apply sumar_fila_falla; assumption.
Qed.

Lemma totales_app (tot : spec_float * spec_float) (l1 l2 : list (bool * spec_float)) :
  totales tot (l1 ++ l2) = totales (totales tot l1) l2.
Proof. apply fold_left_app. Qed.

Lemma sumar_desde_ok (tot t : spec_float * spec_float) (registros : list dict) :
  sumar_desde year month tot registros = Ok t <->
  Forall (pasa year month) registros /\ t = totales tot (aportes year month registros).
Proof.
  revert tot. induction registros as [|r l IH]; intros tot; simpl.
  - split.
    + intros H. injection H as <-. split; [constructor|reflexivity].
    + intros [_ ->]. reflexivity.
  - fold (aportes year month l). rewrite totales_app.
    destruct (pasa_o_falla r) as [Hp|[e He]].
    + rewrite Hp. simpl. rewrite IH. split.
      * intros [Hl Ht]. split; [constructor; assumption|assumption].
      * intros [Hl Ht]. inversion Hl; subst. split; [assumption|reflexivity].
    + rewrite He. simpl. split; [discriminate|].
      intros [Hl _]. inversion Hl as [|? ? Hr _]; subst.
      specialize (Hr tot). rewrite He in Hr. discriminate.
Qed.

End Aggregation.

Lemma py_int_or_cero (z : Z) : py_int (py_or (VInt z) (VInt 0)) = Ok z.
Proof.
  unfold py_or. simpl. destruct (Z.eqb_spec z 0) as [->|]; reflexivity.
Qed.




Lemma py_or_en_blanco (v d : PyVal) : en_blanco v = true -> py_or v d = d.
Proof.
  destruct v as [| | | |s| |]; try discriminate; [reflexivity|].
  destruct s; [reflexivity|discriminate].
Qed.

Lemma es_ARS_en_blanco (row : dict) :
  en_blanco (get "Moneda" row) = true -> es_ARS row = true.
Proof.
  intros H. unfold es_ARS, moneda_de. rewrite (py_or_en_blanco _ _ H). reflexivity.
Qed.

(** Writing ARS where the currency is blank changes nothing for the loop. *)
Lemma sumar_fila_moneda_en_blanco (year month : Z) (tot : spec_float * spec_float) (row : dict) :
  en_blanco (get "Moneda" row) = true ->
  sumar_fila year month tot row = sumar_fila year month tot (("Moneda", VStr "ARS") :: row).
Proof.
  intros H. unfold sumar_fila, leer_anio_mes.
  change (get "Año" (("Moneda", VStr "ARS") :: row)) with (get "Año" row).
  change (get "Mes" (("Moneda", VStr "ARS") :: row)) with (get "Mes" row).
  change (get "Monto" (("Moneda", VStr "ARS") :: row)) with (get "Monto" row).
  change (get "Tipo" (("Moneda", VStr "ARS") :: row)) with (get "Tipo" row).
  change (get "Moneda" (("Moneda", VStr "ARS") :: row)) with (VStr "ARS").
  rewrite (py_or_en_blanco _ _ H). reflexivity.
Qed.

(** Among the rows of the month, only an explicit other currency is
    passed over. *)
Lemma filtrada_del_mes_moneda (year month : Z) (row : dict) :
  anio_mes_coinciden year month row = true -> filtrada year month row = true ->
  exists s, get "Moneda" row = VStr s /\ s <> "" /\ upper s <> "ARS".
Proof.
  unfold anio_mes_coinciden, filtrada, moneda_de.
  destruct (leer_anio_mes row) as [[anio mes]|e]; [|discriminate].
  intros ->.
  destruct (get "Moneda" row) as [|b|z|f|s|l|d]; unfold py_or; cbn [truthy].
  - discriminate.
  - destruct b; discriminate.
  - destruct (z =? 0); discriminate.
  - destruct f; discriminate.
  - destruct s as [|c s']; [discriminate|].
    intros H. exists (String c s'). split; [reflexivity|]. split; [discriminate|].
    apply String.eqb_neq, negb_true_iff, H.
  - destruct l; discriminate.
  - destruct d; discriminate.
Qed.

(** C9.  A row whose Moneda field is missing, [None] or empty counts as a
    row in ARS: the loop treats it as the same row with ARS written in, so
    when its year and month are the queried ones it is selected and its
    amount goes into the totals; and a row of the queried month is passed
    over only when it carries an explicit currency other than ARS. *)
Theorem moneda_en_blanco_es_ARS (year month : Z) (row : dict) :
  (en_blanco (get "Moneda" row) = true ->
   es_ARS row = true /\
   (forall tot,
       sumar_fila year month tot row =
       sumar_fila year month tot (("Moneda", VStr "ARS") :: row)) /\
   (anio_mes_coinciden year month row = true ->
    seleccionada year month row = true /\
    forall tot,
      sumar_fila year month tot row = let? l := aporte_de row in Ok (totales tot l))) /\
  (anio_mes_coinciden year month row = true ->
   filtrada year month row = true ->
   exists s, get "Moneda" row = VStr s /\ s <> "" /\ upper s <> "ARS").
Proof.
  split.
  - intros H. pose proof (es_ARS_en_blanco _ H) as Hars.
    split; [exact Hars|]. split.
    + intros tot. apply sumar_fila_moneda_en_blanco, H.
    + intros Hym.
      assert (Hs : seleccionada year month row = true)
        by (unfold seleccionada; rewrite Hym, Hars; reflexivity).
      split; [exact Hs|]. intros tot. apply sumar_fila_seleccionada, Hs.
  - apply filtrada_del_mes_moneda.
Qed.

(** An expense of January 2024 with no Moneda cell adds to the expenses. *)
Lemma moneda_en_blanco_es_ARS_witness :
  sumar_fila 2024 1 (cero, cero)
    [("Tipo", VStr "gasto"); ("Monto", VInt 5); ("Año", VInt 2024); ("Mes", VInt 1)]
  = Ok (cero, nearest_of_Z 5).
Proof.
  destruct (moneda_en_blanco_es_ARS 2024 1
    [("Tipo", VStr "gasto"); ("Monto", VInt 5); ("Año", VInt 2024); ("Mes", VInt 1)])
    as [H _].
  destruct (H eq_refl) as (_ & _ & Hsel).
  destruct (Hsel eq_refl) as [_ Hsum].
  rewrite Hsum. reflexivity.
Defined.

Lemma no_numerico_ValueError (v : PyVal) :
  no_numerico v = true ->
  py_int (py_or v (VInt 0)) = Raise (ValueError "invalid literal for int() with base 10").
Proof.
  destruct v as [| | | |s| |]; try discriminate.
  destruct s as [|c s']; [discriminate|].
  unfold no_numerico, py_or. cbn [truthy py_int].
  destruct (parse_int (String c s')); [discriminate|reflexivity].
Qed.

Lemma no_numerico_filtrada (year month : Z) (row : dict) :
  anio_o_mes_no_numerico row = true -> filtrada year month row = true.
Proof.
  unfold anio_o_mes_no_numerico, filtrada, leer_anio_mes. intros H.
  apply orb_true_iff in H. destruct H as [H|H].
  - rewrite (no_numerico_ValueError _ H). reflexivity.
  - apply andb_true_iff in H. destruct H as [Ha Hm].
    unfold lee_entero in Ha.
    destruct (py_int (py_or (get "Año" row) (VInt 0))) as [anio|e]; [|discriminate].
    rewrite (no_numerico_ValueError _ Hm). reflexivity.
Qed.

(** C7, as the program has it.  The rows that add to the totals and the
    amount each adds do not depend on the order of the rows: when the
    aggregation returns on a list it returns on every permutation of it, the
    amounts added are the same up to their order, and each total is the sum
    of its amounts taken from the left in floating point, in row order.  A
    row whose year is text that is no number, or whose year reads and whose
    month is such text, is passed over: with or without it the result is the
    same. *)
Theorem sumar_orden_y_filas_no_numericas (year month : Z) :
  (forall registros registros' t,
      Permutation registros registros' ->
      sumar_registros year month registros = Ok t ->
      t = totales (cero, cero) (aportes year month registros) /\
      sumar_registros year month registros' =
        Ok (totales (cero, cero) (aportes year month registros')) /\
      Permutation (aportes year month registros) (aportes year month registros')) /\
  (forall l1 r l2,
      anio_o_mes_no_numerico r = true ->
      sumar_registros year month (l1 ++ r :: l2) = sumar_registros year month (l1 ++ l2)).
Proof.
  unfold sumar_registros. split.
  - intros registros registros' t Hp H.
    apply sumar_desde_ok in H. destruct H as [Hall ->].
    split; [reflexivity|]. split.
    + apply sumar_desde_ok. split; [|reflexivity].
      eapply Permutation_Forall; eassumption.
    + unfold aportes. apply Permutation_flat_map, Hp.
  - intros l1 r l2 H. apply sumar_desde_sin_filtrada, no_numerico_filtrada, H.
Qed.

(** A malformed row among two expenses. *)
Lemma sumar_orden_y_filas_no_numericas_witness :
  sumar_registros 2024 1
    ([gasto_de "0.1"] ++ [("Año", VStr "abc"); ("Mes", VInt 1); ("Monto", VStr "x")]
       :: [gasto_de "0.2"])
  = sumar_registros 2024 1 ([gasto_de "0.1"] ++ [gasto_de "0.2"]).
Proof.
  apply (proj2 (sumar_orden_y_filas_no_numericas 2024 1)). reflexivity.
Defined.

(** The totals depend on the order of the rows: 0.1, 0.2, 0.3 add up to
    0.6000000000000001 and 0.3, 0.2, 0.1 to 0.6. *)
Lemma sumar_depende_del_orden :
  Permutation [gasto_de "0.1"; gasto_de "0.2"; gasto_de "0.3"]
              [gasto_de "0.3"; gasto_de "0.2"; gasto_de "0.1"] /\
  sumar_registros 2024 1 [gasto_de "0.1"; gasto_de "0.2"; gasto_de "0.3"]
    = Ok (cero, decimal "0.6000000000000001") /\
  sumar_registros 2024 1 [gasto_de "0.3"; gasto_de "0.2"; gasto_de "0.1"]
    = Ok (cero, decimal "0.6") /\
  sumar_registros 2024 1 [gasto_de "0.1"; gasto_de "0.2"; gasto_de "0.3"]
    <> sumar_registros 2024 1 [gasto_de "0.3"; gasto_de "0.2"; gasto_de "0.1"].
Proof.
  split.
  - change [gasto_de "0.3"; gasto_de "0.2"; gasto_de "0.1"]
      with (rev [gasto_de "0.1"; gasto_de "0.2"; gasto_de "0.3"]).
    apply Permutation_rev.
  - split; [vm_compute; reflexivity|]. split; [vm_compute; reflexivity|].
    vm_compute. discriminate.
Qed.

(** ** Arguments of a movement *)

(** C5.  With fewer than two tokens [parse_movimiento_args] fails with the
    missing-arguments message.  With two or more, the first token is the
    category, the second is read as the amount once its commas are turned
    into dots, and the tokens after the second, joined by single spaces,
    are the description (the empty text when there are none); when the
    amount token is no float literal it fails with the invalid-amount
    message, which is another message.  So "5,5" reads as 5.5 and "abc"
    fails. *)
Theorem parse_movimiento_args_spec (args : list string) :
  ((List.length args < 2)%nat ->
   parse_movimiento_args args = Raise (ValueError msg_faltan_datos)) /\
  (forall categoria a resto,
      args = categoria :: a :: resto ->
      match parse_float (replace_comma a) with
      | Some monto => parse_movimiento_args args = Ok (categoria, monto, join " " resto)
      | None => parse_movimiento_args args = Raise (ValueError msg_monto_invalido)
      end) /\
  join " " [] = "" /\
  msg_faltan_datos <> msg_monto_invalido /\
  parse_movimiento_args ["comida"; "5,5"]
    = Ok ("comida", fdiv (nearest_of_Z 11) (nearest_of_Z 2), "") /\
  parse_movimiento_args ["comida"; "abc"] = Raise (ValueError msg_monto_invalido).
Proof.
  split; [|split; [|split; [|split; [|split]]]].
  - intros H. destruct args as [|a [|b l]]; [reflexivity|reflexivity|].
    simpl in H. lia.
  - intros categoria a resto ->.
    unfold parse_movimiento_args, parse_monto, py_float.
    cbn [List.length Nat.ltb Nat.leb nth].
    destruct (parse_float (replace_comma a)) as [monto|]; [|reflexivity].
    destruct resto as [|d resto']; reflexivity.
  - reflexivity.
  - discriminate.
  - vm_compute. reflexivity.
  - vm_compute. reflexivity.
Qed.

(** An amount with a decimal comma and a description of two words, and the
    same amount in Arabic-Indic digits. *)
Lemma parse_movimiento_args_spec_witness :
  parse_movimiento_args ["comida"; "5,5"; "dos"; "empanadas"]
  = Ok ("comida", fdiv (nearest_of_Z 11) (nearest_of_Z 2), "dos empanadas") /\
  parse_movimiento_args ["comida"; "٥,٥"]
  = Ok ("comida", fdiv (nearest_of_Z 11) (nearest_of_Z 2), "").
Proof.
  split.
  - pose proof (proj1 (proj2 (parse_movimiento_args_spec
                                ["comida"; "5,5"; "dos"; "empanadas"]))
                  "comida" "5,5" ["dos"; "empanadas"] eq_refl) as H.
    exact H.
  - pose proof (proj1 (proj2 (parse_movimiento_args_spec ["comida"; "٥,٥"]))
                  "comida" "٥,٥" [] eq_refl) as H.
    exact H.
Defined.

(** ** Budgets and goals *)

Section Upsert.

Variable columna : string.
Variable otros : list string.
Variable clave : string.
Variable monto : spec_float.

Let headers : list string := columna :: otros.

Lemma clave_de_registro (r : row) :
  py_lower (py_or (get columna (combine headers r)) (VStr "")) =
  match clave_fila r with
  | Some k => Ok k
  | None => Raise (AttributeError "object has no attribute 'lower'")
  end.
Proof.
  unfold clave_fila, headers, get, get_or.
  destruct r as [|x r']; cbn [combine lookup hd].
  - reflexivity.
  - rewrite String.eqb_refl.
    destruct (py_or x (VStr "")); reflexivity.
Qed.

Lemma buscar_fila_cons (idx : nat) (r : row) (ws : worksheet) :
  buscar_fila columna clave idx (get_all_records headers (r :: ws)) =
  match clave_fila r with
  | Some k =>
      if String.eqb k (lower clave) then Ok (Some idx)
      else buscar_fila columna clave (S idx) (get_all_records headers ws)
  | None => Raise (AttributeError "object has no attribute 'lower'")
  end.
Proof.
  cbn [get_all_records map buscar_fila]. rewrite clave_de_registro.
  destruct (clave_fila r); reflexivity.
Qed.

Lemma buscar_fila_encontrada (pre post : worksheet) (r : row) (idx : nat) :
  forallb (otra_clave clave) pre = true -> coincide clave r = true ->
  buscar_fila columna clave idx (get_all_records headers (pre ++ r :: post))
  = Ok (Some (idx + List.length pre)%nat).
Proof.
  revert idx. induction pre as [|x pre IH]; intros idx Hpre Hr.
  - cbn [app]. rewrite buscar_fila_cons. unfold coincide in Hr.
    destruct (clave_fila r); [|discriminate]. rewrite Hr.
    cbn [List.length]. rewrite Nat.add_0_r. reflexivity.
  - cbn [forallb] in Hpre. apply andb_true_iff in Hpre. destruct Hpre as [Hx Hpre].
    cbn [app]. rewrite buscar_fila_cons. unfold otra_clave in Hx.
    destruct (clave_fila x); [|discriminate].
    apply negb_true_iff in Hx. rewrite Hx.
    rewrite (IH (S idx) Hpre Hr). cbn [List.length].
    rewrite Nat.add_succ_r. reflexivity.
Qed.

Lemma buscar_fila_ausente (ws : worksheet) (idx : nat) :
  forallb (otra_clave clave) ws = true ->
  buscar_fila columna clave idx (get_all_records headers ws) = Ok None.
Proof.
  revert idx. induction ws as [|x ws IH]; intros idx H; [reflexivity|].
  cbn [forallb] in H. apply andb_true_iff in H. destruct H as [Hx H].
  rewrite buscar_fila_cons. unfold otra_clave in Hx.
  destruct (clave_fila x); [|discriminate].
  apply negb_true_iff in Hx. rewrite Hx. apply IH, H.
Qed.

(** What the scan has seen when it returns. *)
Lemma buscar_fila_inv (ws : worksheet) (idx : nat) (found : option nat) :
  buscar_fila columna clave idx (get_all_records headers ws) = Ok found ->
  match found with
  | Some j =>
      exists pre r post,
        ws = (pre ++ r :: post)%list /\ forallb (otra_clave clave) pre = true /\
        coincide clave r = true /\ j = (idx + List.length pre)%nat
  | None => forallb (otra_clave clave) ws = true
  end.
Proof.
  revert idx. induction ws as [|x ws IH]; intros idx H.
  - cbn in H. injection H as <-. reflexivity.
  - rewrite buscar_fila_cons in H.
    destruct (clave_fila x) as [k|] eqn:Hk; [|discriminate].
    destruct (String.eqb k (lower clave)) eqn:Hm.
    + injection H as <-. exists [], x, ws. cbn [app forallb List.length].
      repeat split; [|lia].
      unfold coincide. rewrite Hk. exact Hm.
    + specialize (IH _ H).
      assert (Hx : otra_clave clave x = true)
        by (unfold otra_clave; rewrite Hk, Hm; reflexivity).
      destruct found as [j|].
      * destruct IH as (pre & r & post & -> & Hpre & Hr & ->).
        exists (x :: pre), r, post. cbn [app forallb List.length].
        rewrite Hx, Hpre, Nat.add_succ_r. repeat split. exact Hr.
      * cbn [forallb]. rewrite Hx, IH. reflexivity.
Qed.

Lemma alter_nth_app {A} (f : A -> A) (pre post : list A) (r : A) :
  alter_nth f (List.length pre) (pre ++ r :: post) = (pre ++ f r :: post)%list.
Proof.
  induction pre as [|x pre IH]; cbn [List.length app alter_nth]; [reflexivity|].
  rewrite IH. reflexivity.
Qed.

Lemma update_cell_app (pre post : worksheet) (r : row) (v : PyVal) :
  update_cell (2 + List.length pre) 2 v (pre ++ r :: post)
  = (pre ++ set_nth 1 v r :: post)%list.
Proof.
  unfold update_cell.
  replace (2 + List.length pre - 2)%nat with (List.length pre) by lia.
  apply alter_nth_app.
Qed.

Lemma upsert_encontrada (pre post : worksheet) (r : row) :
  forallb (otra_clave clave) pre = true -> coincide clave r = true ->
  upsert headers columna clave monto (pre ++ r :: post)
  = Ok (pre ++ set_nth 1 (VFloat monto) r :: post)%list.
Proof.
  intros Hpre Hr. unfold upsert.
  rewrite (buscar_fila_encontrada _ _ _ _ Hpre Hr). cbn [rbind].
  rewrite update_cell_app. reflexivity.
Qed.

Lemma upsert_ausente (ws : worksheet) :
  forallb (otra_clave clave) ws = true ->
  upsert headers columna clave monto ws = Ok (ws ++ [[VStr clave; VFloat monto]])%list.
Proof.
  intros H. unfold upsert. rewrite (buscar_fila_ausente _ _ H). reflexivity.
Qed.

Lemma upsert_inv (ws ws' : worksheet) :
  upsert headers columna clave monto ws = Ok ws' ->
  (exists pre r post,
      ws = (pre ++ r :: post)%list /\ forallb (otra_clave clave) pre = true /\
      coincide clave r = true /\ ws' = (pre ++ set_nth 1 (VFloat monto) r :: post)%list) \/
  (forallb (otra_clave clave) ws = true /\ ws' = (ws ++ [[VStr clave; VFloat monto]])%list).
Proof.
  unfold upsert. intros H.
  destruct (buscar_fila columna clave 2 (get_all_records headers ws)) as [found|e] eqn:Hb;
    [|discriminate].
  apply buscar_fila_inv in Hb. cbn [rbind] in H.
  destruct found as [j|].
  - destruct Hb as (pre & r & post & -> & Hpre & Hr & ->).
    rewrite update_cell_app in H. injection H as <-.
    left. exists pre, r, post. repeat split; assumption.
  - injection H as <-. right. split; [assumption|reflexivity].
Qed.

Lemma clave_fila_set_nth (v : PyVal) (r : row) :
  clave_fila (set_nth 1 v r) = clave_fila r.
Proof. destruct r; reflexivity. Qed.


Lemma coincide_fila_nueva : coincide clave [VStr clave; VFloat monto] = true.
Proof.
  unfold coincide, clave_fila. cbn [hd].
  destruct clave as [|c s']; unfold py_or; cbn [truthy]; apply String.eqb_refl.
Qed.






(** On a sheet whose key cells are text, the scan ends on a row with the
    key or finds none. *)
Lemma primera_coincidencia (ws : worksheet) :
  forallb tiene_clave ws = true ->
  forallb (otra_clave clave) ws = true \/
  exists pre r post,
    ws = (pre ++ r :: post)%list /\ forallb (otra_clave clave) pre = true /\
    coincide clave r = true.
Proof.
  induction ws as [|x ws IH]; [left; reflexivity|].
  cbn [forallb]. intros H. apply andb_true_iff in H. destruct H as [Hx H].
  unfold tiene_clave in Hx. destruct (clave_fila x) as [k|] eqn:Hk; [|discriminate].
  destruct (String.eqb k (lower clave)) eqn:Hm.
  - right. exists [], x, ws. repeat split. unfold coincide. rewrite Hk. exact Hm.
  - assert (Ho : otra_clave clave x = true)
      by (unfold otra_clave; rewrite Hk, Hm; reflexivity).
    destruct (IH H) as [Hall|(pre & r & post & -> & Hpre & Hr)].
    + left. rewrite Ho, Hall. reflexivity.
    + right. exists (x :: pre), r, post. cbn [app forallb].
      rewrite Ho, Hpre. repeat split. exact Hr.
Qed.


Lemma nth_set_nth (v : PyVal) (r : row) : nth 1 (set_nth 1 v r) VNone = v.
Proof. destruct r as [|x [|y r']]; reflexivity. Qed.


End Upsert.

Lemma with_pres_ws_idem (ws : worksheet) (w : World) :
  with_pres_ws ws (with_pres_ws ws w) = with_pres_ws ws w.
Proof. reflexivity. Qed.





(** ** Installments *)

Lemma mdays_bounds (m : Z) : 28 <= mdays m <= 31.
Proof.
  unfold mdays. destruct m as [|p|p]; try lia.
  do 4 (try destruct p; try lia).
Qed.

Lemma days_in_month_bounds (y m : Z) : 28 <= days_in_month y m <= 32.
Proof.
  unfold days_in_month. pose proof (mdays_bounds m).
  destruct ((m =? 2) && isleap y); lia.
Qed.

Lemma dt_year_avanzar (d : datetime) (i : Z) :
  dt_year (avanzar_meses d i) = dt_year d + (dt_month d - 1 + i) / 12.
Proof.
  unfold avanzar_meses. cbn [dt_year].
  replace (12 * dt_year d + (dt_month d - 1) + i)
    with (dt_year d * 12 + (dt_month d - 1 + i)) by lia.
  apply Z.div_add_l. lia.
Qed.

Lemma dt_year_avanzar_mono (d : datetime) (i j : Z) :
  i <= j -> dt_year (avanzar_meses d i) <= dt_year (avanzar_meses d j).
Proof.
  intros H. rewrite !dt_year_avanzar.
  apply Z.add_le_mono_l, Z.div_le_mono; lia.
Qed.

(** [month_add] is the advance by calendar months with the day clamped,
    as long as the year reached is one the calendar has. *)
Lemma month_add_avanzar (d : datetime) (i : Z) :
  valid_date d -> 0 <= i -> dt_year (avanzar_meses d i) <= MAXYEAR ->
  month_add d i = Ok (avanzar_meses d i).
Proof.
  intros (Hy & Hm & Hd) Hi Hmax.
  pose proof (dt_year_avanzar d i) as Hyear. rewrite Hyear in Hmax.
  assert (Hdiv : 0 <= (dt_month d - 1 + i) / 12) by (apply Z.div_pos; lia).
  unfold month_add, avanzar_meses, make_datetime, MINYEAR, MAXYEAR in *.
  replace (12 * dt_year d + (dt_month d - 1) + i)
    with ((dt_month d - 1 + i) + dt_year d * 12) by lia.
  rewrite Z.div_add, Z.mod_add by lia.
  replace ((dt_month d - 1 + i) / 12 + dt_year d)
    with (dt_year d + (dt_month d - 1 + i) / 12) by lia.
  set (y := dt_year d + (dt_month d - 1 + i) / 12) in *.
  set (m := (dt_month d - 1 + i) mod 12 + 1).
  assert (Hmb : 1 <= m <= 12)
    by (unfold m; pose proof (Z.mod_pos_bound (dt_month d - 1 + i) 12); lia).
  pose proof (days_in_month_bounds y m) as Hdim.
  replace ((1 <=? y) && (y <=? 9999)) with true
    by (symmetry; apply andb_true_iff; split; apply Z.leb_le; lia).
  replace ((1 <=? m) && (m <=? 12)) with true
    by (symmetry; apply andb_true_iff; split; apply Z.leb_le; lia).
  replace ((1 <=? Z.min (dt_day d) (days_in_month y m))
           && (Z.min (dt_day d) (days_in_month y m) <=? days_in_month y m)) with true
    by (symmetry; apply andb_true_iff; split; apply Z.leb_le; lia).
  cbn [negb]. f_equal. f_equal.
  destruct (Z.leb_spec (dt_day d) (days_in_month y m)); lia.
Qed.

Lemma with_mov_ws_twice (a b : worksheet) (w : World) :
  with_mov_ws a (with_mov_ws b w) = with_mov_ws a w.
Proof. reflexivity. Qed.

Lemma desde_succ (i : Z) (n : nat) : desde i (S n) = i :: desde (i + 1) n.
Proof.
  unfold desde. cbn [seq map]. f_equal; [lia|].
  rewrite <- seq_shift, map_map. apply map_ext. intros k. lia.
Qed.

(** The loop of [cmd_cuotas] records one row for each index when every due
    date exists. *)
Lemma registrar_cuotas_ok (hoy : datetime) (categoria descripcion : string)
    (monto_cuota : spec_float) (cantidad_cuotas : Z) (n : nat) :
  forall (i : Z) (w : World),
    valid_date hoy -> 0 <= i ->
    (forall j, i <= j < i + Z.of_nat n -> dt_year (avanzar_meses hoy j) <= MAXYEAR) ->
    registrar_cuotas hoy categoria descripcion monto_cuota cantidad_cuotas i n w
    = (Ok tt,
       with_mov_ws
         (mov_ws w ++ map (fun j => fila_cuota categoria descripcion monto_cuota
                                       cantidad_cuotas j (avanzar_meses hoy j))
                          (desde i n)) w).
Proof.
  induction n as [|n IH]; intros i w Hv Hi Hr.
  - cbn. rewrite app_nil_r. destruct w; reflexivity.
  - cbn [registrar_cuotas]. unfold bind at 1, lift.
    rewrite (month_add_avanzar hoy i Hv Hi) by (apply Hr; lia).
    unfold bind at 1. unfold add_movimiento at 1.
    rewrite IH; [|assumption|lia|intros j Hj; apply Hr; lia].
    rewrite desde_succ. cbn [map]. rewrite with_mov_ws_twice.
    cbn [with_mov_ws mov_ws]. unfold append_row. rewrite <- app_assoc.
    reflexivity.
Qed.

Lemma valid_date_today (w : World) : valid_date (now w) -> valid_date (today w).
Proof. intros H. exact H. Qed.

(** A purchase in installments that goes through: the rows recorded and
    the reply. *)
Lemma cmd_cuotas_ok (chat_id first_name : PyVal) (args : list string) (w : World)
    (total : spec_float) (n : Z) (q : spec_float) :
  (3 <= List.length args)%nat ->
  parse_monto (nth 1 args "") = Ok total ->
  parse_int (last args "") = Some n -> 0 < n ->
  dividir total n = Ok q ->
  valid_date (now w) -> dt_year (avanzar_meses (today w) (n - 1)) <= MAXYEAR ->
  cmd_cuotas chat_id first_name args w
  = (Ok tt,
     with_outbox (outbox w ++ [(chat_id, msg_cuotas_ok total n (round2 q))])
       (with_mov_ws
          (mov_ws w ++ filas_cuotas (today w) (nth 0 args "") (descripcion_cuotas args)
                         (round2 q) n) w)).
Proof.
  intros Hlen Hm Hn Hpos Hq Hv Hmax. unfold cmd_cuotas.
  replace (List.length args <? 3)%nat with false
    by (symmetry; apply Nat.ltb_ge; exact Hlen).
  rewrite Hm. cbn [py_int]. rewrite Hn.
  replace (n <=? 0) with false by (symmetry; apply Z.leb_gt; exact Hpos).
  unfold bind at 1, lift. rewrite Hq.
  unfold bind at 1. unfold bind at 1.
  rewrite registrar_cuotas_ok.
  - unfold send_message, filas_cuotas. cbn [outbox with_mov_ws]. reflexivity.
  - apply valid_date_today, Hv.
  - lia.
  - intros j Hj. rewrite Z2Nat.id in Hj by lia.
    eapply Z.le_trans; [apply dt_year_avanzar_mono with (j := n - 1); lia|exact Hmax].
Qed.

Lemma div_half_even_spec (a b : Z) :
  0 <= a -> 0 < b ->
  2 * Z.abs (div_half_even a b * b - a) <= b /\
  (2 * Z.abs (div_half_even a b * b - a) = b -> Z.even (div_half_even a b) = true).
Proof.
  intros Ha Hb. unfold div_half_even.
  pose proof (Z.div_mod a b ltac:(lia)) as Hdm.
  pose proof (Z.mod_pos_bound a b Hb) as Hr.
  destruct (Z.compare_spec (2 * (a mod b)) b) as [He|Hl|Hg].
  - destruct (Z.even (a / b)) eqn:Hev.
    + split; [nia|intros _; exact Hev].
    + split; [nia|intros _].
      rewrite Z.even_add, Hev. reflexivity.
  - split; [nia|nia].
  - split; [nia|nia].
Qed.

Lemma filas_cuotas_length (hoy : datetime) (categoria descripcion : string)
    (monto_cuota : spec_float) (n : Z) :
  List.length (filas_cuotas hoy categoria descripcion monto_cuota n) = Z.to_nat n.
Proof. unfold filas_cuotas, desde. rewrite !length_map, length_seq. reflexivity. Qed.

Lemma filas_cuotas_monto (hoy : datetime) (categoria descripcion : string)
    (monto_cuota : spec_float) (n : Z) :
  Forall (fun r => monto_de_fila r = VFloat monto_cuota)
    (filas_cuotas hoy categoria descripcion monto_cuota n).
Proof.
  unfold filas_cuotas. apply Forall_forall. intros r Hr.
  apply in_map_iff in Hr. destruct Hr as (i & <- & _). reflexivity.
Qed.

Lemma valid_date_avanzar (hoy : datetime) (i : Z) :
  valid_date hoy -> 0 <= i -> dt_year (avanzar_meses hoy i) <= MAXYEAR ->
  valid_date (avanzar_meses hoy i).
Proof.
  intros (Hy & Hm & Hd) Hi Hmax.
  pose proof (dt_year_avanzar hoy i) as Hyear.
  assert (Hdiv : 0 <= (dt_month hoy - 1 + i) / 12) by (apply Z.div_pos; lia).
  unfold valid_date. split; [unfold MINYEAR in *; lia|].
  unfold avanzar_meses in *. cbn [dt_year dt_month dt_day] in *.
  set (k := 12 * dt_year hoy + (dt_month hoy - 1) + i) in *.
  pose proof (Z.mod_pos_bound k 12 ltac:(lia)) as Hmod.
  pose proof (days_in_month_bounds (k / 12) (k mod 12 + 1)) as Hdim.
  split; [lia|].
  destruct (Z.leb_spec (dt_day hoy) (days_in_month (k / 12) (k mod 12 + 1))); lia.
Qed.

Lemma nth_filas_cuotas (hoy : datetime) (categoria descripcion : string)
    (monto_cuota : spec_float) (n i : Z) :
  0 <= i < n ->
  nth (Z.to_nat i) (filas_cuotas hoy categoria descripcion monto_cuota n) []
  = fila_cuota categoria descripcion monto_cuota n i (avanzar_meses hoy i).
Proof.
  intros Hi. unfold filas_cuotas, desde. rewrite map_map.
  set (g := fun k : nat =>
              fila_cuota categoria descripcion monto_cuota n (0 + Z.of_nat k)
                (avanzar_meses hoy (0 + Z.of_nat k))).
  rewrite (nth_indep _ [] (g 0%nat)) by (rewrite length_map, length_seq; lia).
  rewrite map_nth, seq_nth by lia.
  unfold g. cbn [Nat.add]. replace (0 + Z.of_nat (Z.to_nat i)) with i by lia.
  reflexivity.
Qed.

(** C2.  For a well-formed start date and an index [i >= 0] whose target
    year the calendar has, [month_add] returns the start date advanced by
    [i] calendar months: the target month is [i] months later, the day is
    the day of the start date when the target month has it and the last day
    of the target month otherwise, and the result is a well-formed date.
    The loop of [cmd_cuotas] gives row [i] of a purchase in [n]
    installments that date, for every [i] in [0..n-1].  Starting on
    2024-01-31 the first two dates are 2024-01-31 and 2024-02-29. *)
Theorem cuotas_fechas (hoy : datetime) (i : Z) :
  valid_date hoy -> 0 <= i -> dt_year (avanzar_meses hoy i) <= MAXYEAR ->
  month_add hoy i = Ok (avanzar_meses hoy i) /\
  valid_date (avanzar_meses hoy i) /\
  12 * dt_year (avanzar_meses hoy i) + dt_month (avanzar_meses hoy i)
    = 12 * dt_year hoy + dt_month hoy + i /\
  (dt_day hoy <= days_in_month (dt_year (avanzar_meses hoy i)) (dt_month (avanzar_meses hoy i)) ->
   dt_day (avanzar_meses hoy i) = dt_day hoy) /\
  (days_in_month (dt_year (avanzar_meses hoy i)) (dt_month (avanzar_meses hoy i)) < dt_day hoy ->
   dt_day (avanzar_meses hoy i)
   = days_in_month (dt_year (avanzar_meses hoy i)) (dt_month (avanzar_meses hoy i))) /\
  (forall categoria descripcion monto_cuota n w,
      i < n -> dt_year (avanzar_meses hoy (n - 1)) <= MAXYEAR ->
      registrar_cuotas hoy categoria descripcion monto_cuota n 0 (Z.to_nat n) w
      = (Ok tt,
         with_mov_ws (mov_ws w ++ filas_cuotas hoy categoria descripcion monto_cuota n) w) /\
      nth (Z.to_nat i) (filas_cuotas hoy categoria descripcion monto_cuota n) []
      = fila_cuota categoria descripcion monto_cuota n i (avanzar_meses hoy i)) /\
  month_add (mk_datetime 2024 1 31 0 0 0) 0 = Ok (mk_datetime 2024 1 31 0 0 0) /\
  month_add (mk_datetime 2024 1 31 0 0 0) 1 = Ok (mk_datetime 2024 2 29 0 0 0).
Proof.
  intros Hv Hi Hmax.
  split; [apply month_add_avanzar; assumption|].
  split; [apply valid_date_avanzar; assumption|].
  split.
  { unfold avanzar_meses. cbn [dt_year dt_month].
    pose proof (Z.div_mod (12 * dt_year hoy + (dt_month hoy - 1) + i) 12 ltac:(lia)). lia. }
  split.
  { intros H. unfold avanzar_meses in *. cbn [dt_year dt_month dt_day] in *.
    apply Z.leb_le in H. rewrite H. reflexivity. }
  split.
  { intros H. unfold avanzar_meses in *. cbn [dt_year dt_month dt_day] in *.
    apply Z.leb_gt in H. rewrite H. reflexivity. }
  split.
  { intros categoria descripcion monto_cuota n w Hin Hn. split.
    - rewrite registrar_cuotas_ok; [reflexivity|assumption|lia|].
      intros j Hj. rewrite Z2Nat.id in Hj by lia.
      eapply Z.le_trans; [apply dt_year_avanzar_mono with (j := n - 1); lia|exact Hn].
    - apply nth_filas_cuotas. lia. }
  split; reflexivity.
Qed.

(** From 2024-11-30, three months on: 2025-02-28. *)
Lemma cuotas_fechas_witness :
  month_add (mk_datetime 2024 11 30 0 0 0) 3 = Ok (mk_datetime 2025 2 28 0 0 0).
Proof.
  refine (proj1 (cuotas_fechas (mk_datetime 2024 11 30 0 0 0) 3 _ _ _)).
  - repeat split; vm_compute; discriminate.
  - lia.
  - vm_compute. discriminate.
Defined.

Lemma dividir_float_of_int (total : spec_float) (n : Z) (c : spec_float) :
  float_of_int n = Ok c -> dividir total n = Ok (fdiv total c).
Proof. intros H. unfold dividir. rewrite H. reflexivity. Qed.

(** C1, as the program has it.  When the command goes through (three
    tokens or more, an amount that reads, a positive count that converts to
    a float, every due date within the calendar), the amount of an
    installment is computed once, as [round(monto_total / cantidad, 2)],
    and each of the [cantidad] rows recorded carries exactly that amount;
    nothing is redistributed.  The rounding is Python's: the exact value of
    the quotient goes to the nearest hundredth, a tie going to the even
    hundredth, and the result is the double nearest to that decimal.  100.00
    in 3 installments gives 33.33. *)
Theorem cuotas_monto_redondeado (chat_id first_name : PyVal) (args : list string)
    (w : World) (total : spec_float) (n : Z) (c : spec_float) :
  (3 <= List.length args)%nat ->
  parse_monto (nth 1 args "") = Ok total ->
  parse_int (last args "") = Some n -> 0 < n ->
  float_of_int n = Ok c ->
  valid_date (now w) -> dt_year (avanzar_meses (today w) (n - 1)) <= MAXYEAR ->
  let monto_cuota := round2 (fdiv total c) in
  let filas :=
    filas_cuotas (today w) (nth 0 args "") (descripcion_cuotas args) monto_cuota n in
  cmd_cuotas chat_id first_name args w
  = (Ok tt,
     with_outbox (outbox w ++ [(chat_id, msg_cuotas_ok total n monto_cuota)])
       (with_mov_ws (mov_ws w ++ filas) w)) /\
  List.length filas = Z.to_nat n /\
  Forall (fun r => monto_de_fila r = VFloat monto_cuota) filas /\
  (forall s m e,
      e < 0 ->
      2 * Z.abs (hundredths m e * 2 ^ (- e) - Zpos m * 100) <= 2 ^ (- e) /\
      (2 * Z.abs (hundredths m e * 2 ^ (- e) - Zpos m * 100) = 2 ^ (- e) ->
       Z.even (hundredths m e) = true) /\
      round2 (S754_finite s m e)
      = match hundredths m e with
        | Zpos p => fdiv (S754_finite s p 0) (S754_finite false 100 0)
        | _ => S754_zero s
        end) /\
  round2 (fdiv (decimal "100.00") (nearest_of_Z 3)) = decimal "33.33".
Proof.
  intros Hlen Hm Hn Hpos Hc Hv Hmax monto_cuota filas.
  split.
  { apply cmd_cuotas_ok; try assumption. apply dividir_float_of_int, Hc. }
  split; [apply filas_cuotas_length|].
  split; [apply filas_cuotas_monto|].
  split; [|vm_compute; reflexivity].
  intros s m e He. unfold hundredths.
  replace (0 <=? e) with false by (symmetry; apply Z.leb_gt; exact He).
  assert (Hpow : 0 < 2 ^ (- e)) by (apply Z.pow_pos_nonneg; lia).
  destruct (div_half_even_spec (Zpos m * 100) (2 ^ (- e)) ltac:(lia) Hpow) as [H1 H2].
  split; [exact H1|]. split; [exact H2|].
  unfold round2, hundredths.
  replace (0 <=? e) with false by (symmetry; apply Z.leb_gt; exact He).
  reflexivity.
Qed.

(** 100.00 in 3 installments on 2024-01-31: three rows of 33.33. *)
Lemma cuotas_monto_redondeado_witness :
  mov_ws (snd (cmd_cuotas (VInt 7) (VStr "Ana") ["hogar"; "100.00"; "pava"; "electrica"; "3"]
                 (mundo_vacio (mk_datetime 2024 1 31 10 20 30))))
  = [[VStr "2024-01-31 00:00:00"; VStr "Mica"; VStr "gasto"; VStr "hogar";
      VStr "pava electrica (cuota 1/3)"; VFloat (decimal "33.33");
      VInt 2024; VInt 1; VStr "ARS"];
     [VStr "2024-02-29 00:00:00"; VStr "Mica"; VStr "gasto"; VStr "hogar";
      VStr "pava electrica (cuota 2/3)"; VFloat (decimal "33.33");
      VInt 2024; VInt 2; VStr "ARS"];
     [VStr "2024-03-31 00:00:00"; VStr "Mica"; VStr "gasto"; VStr "hogar";
      VStr "pava electrica (cuota 3/3)"; VFloat (decimal "33.33");
      VInt 2024; VInt 3; VStr "ARS"]].
Proof.
  assert (Hv : valid_date (now (mundo_vacio (mk_datetime 2024 1 31 10 20 30))))
    by (repeat split; vm_compute; discriminate).
  assert (Hmax : dt_year (avanzar_meses (today (mundo_vacio (mk_datetime 2024 1 31 10 20 30)))
                            (3 - 1)) <= MAXYEAR)
    by (vm_compute; discriminate).
  rewrite (proj1 (cuotas_monto_redondeado (VInt 7) (VStr "Ana")
                    ["hogar"; "100.00"; "pava"; "electrica"; "3"]
                    (mundo_vacio (mk_datetime 2024 1 31 10 20 30))
                    (decimal "100.00") 3 (nearest_of_Z 3)
                    ltac:(cbn; lia) eq_refl eq_refl eq_refl eq_refl Hv Hmax)).
  vm_compute. reflexivity.
Defined.

(** An amount of 0.25 in 2 installments: the quotient 0.125 is a tie between
    0.12 and 0.13; the program records 0.12 twice, where rounding half up
    gives 0.13. *)
Lemma cuota_redondea_al_par :
  dividir (decimal "0.25") 2 = Ok (decimal "0.125") /\
  round2 (decimal "0.125") = decimal "0.12" /\
  round2_half_up (decimal "0.125") = decimal "0.13" /\
  decimal "0.12" <> decimal "0.13" /\
  map monto_de_fila
    (mov_ws (snd (cmd_cuotas (VInt 7) (VStr "Ana") ["kiosco"; "0.25"; "chicle"; "2"]
                    (mundo_vacio (mk_datetime 2024 1 31 10 20 30)))))
  = [VFloat (decimal "0.12"); VFloat (decimal "0.12")].
Proof.
  split; [vm_compute; reflexivity|].
  split; [vm_compute; reflexivity|].
  split; [vm_compute; reflexivity|].
  split; [vm_compute; discriminate|].
  vm_compute. reflexivity.
Qed.

Lemma parse_monto_cases (a : string) :
  (exists total, parse_monto a = Ok total) \/
  (exists msg, parse_monto a = Raise (ValueError msg)).
Proof.
  unfold parse_monto, py_float.
  destruct (parse_float (replace_comma a)); [left|right]; eexists; reflexivity.
Qed.

(** C8.  [cmd_cuotas] reads the count from the last token.  Once there are
    three tokens and the amount reads: when the last token is no integer
    literal the reply is the not-an-integer message, when it is an integer
    that is zero or negative the reply is the must-be-positive message, and
    in both cases nothing else happens.  Whatever the other tokens are, a
    last token that is no integer or is not positive ends the command with
    one reply and the world otherwise unchanged: no movement is recorded.
    The two messages differ from the replies to a short command and to an
    invalid amount. *)
Theorem cuotas_cantidad_invalida (chat_id first_name : PyVal) (args : list string)
    (w : World) :
  (forall total,
      (3 <= List.length args)%nat -> parse_monto (nth 1 args "") = Ok total ->
      (parse_int (last args "") = None ->
       cmd_cuotas chat_id first_name args w
       = (Ok tt, with_outbox (outbox w ++ [(chat_id, msg_cuotas_no_entero)]) w)) /\
      (forall n,
          parse_int (last args "") = Some n -> n <= 0 ->
          cmd_cuotas chat_id first_name args w
          = (Ok tt, with_outbox (outbox w ++ [(chat_id, msg_cuotas_no_positiva)]) w))) /\
  ((parse_int (last args "") = None \/
    exists n, parse_int (last args "") = Some n /\ n <= 0) ->
   exists msg,
     cmd_cuotas chat_id first_name args w
     = (Ok tt, with_outbox (outbox w ++ [(chat_id, msg)]) w)) /\
  (forall o,
      mov_ws (with_outbox o w) = mov_ws w /\ pres_ws (with_outbox o w) = pres_ws w /\
      obj_ws (with_outbox o w) = obj_ws w) /\
  msg_cuotas_no_entero <> msg_cuotas_faltan /\
  msg_cuotas_no_entero <> msg_cuotas_monto /\
  msg_cuotas_no_positiva <> msg_cuotas_faltan /\
  msg_cuotas_no_positiva <> msg_cuotas_monto.
Proof.
  split.
  { intros total Hlen Hm. unfold cmd_cuotas.
    replace (List.length args <? 3)%nat with false
      by (symmetry; apply Nat.ltb_ge; exact Hlen).
    rewrite Hm. cbn [py_int]. split.
    - intros ->. reflexivity.
    - intros n -> Hn.
      replace (n <=? 0) with true by (symmetry; apply Z.leb_le; exact Hn).
      reflexivity. }
  split.
  { intros H. unfold cmd_cuotas.
    destruct (List.length args <? 3)%nat; [eexists; reflexivity|].
    destruct (parse_monto_cases (nth 1 args "")) as [[total ->]|[msg ->]];
      [|eexists; reflexivity].
    cbn [py_int].
    destruct H as [->|(n & -> & Hn)]; [eexists; reflexivity|].
    replace (n <=? 0) with true by (symmetry; apply Z.leb_le; exact Hn).
    eexists; reflexivity. }
  split; [intros o; repeat split|].
  repeat split; vm_compute; discriminate.
Qed.

(** A count of "3.0", a count of "0", and a count that is the superscript
    three, a digit that is no decimal. *)
Lemma cuotas_cantidad_invalida_witness :
  cmd_cuotas (VInt 7) (VStr "Ana") ["hogar"; "30000"; "pava"; "3.0"]
    (mundo_vacio (mk_datetime 2024 1 31 10 20 30))
  = (Ok tt, with_outbox [(VInt 7, msg_cuotas_no_entero)]
              (mundo_vacio (mk_datetime 2024 1 31 10 20 30))) /\
  cmd_cuotas (VInt 7) (VStr "Ana") ["hogar"; "30000"; "pava"; "0"]
    (mundo_vacio (mk_datetime 2024 1 31 10 20 30))
  = (Ok tt, with_outbox [(VInt 7, msg_cuotas_no_positiva)]
              (mundo_vacio (mk_datetime 2024 1 31 10 20 30))) /\
  cmd_cuotas (VInt 7) (VStr "Ana") ["hogar"; "30000"; "pava"; "³"]
    (mundo_vacio (mk_datetime 2024 1 31 10 20 30))
  = (Ok tt, with_outbox [(VInt 7, msg_cuotas_no_entero)]
              (mundo_vacio (mk_datetime 2024 1 31 10 20 30))).
Proof.
  split; [|split].
  - exact (proj1 (proj1 (cuotas_cantidad_invalida (VInt 7) (VStr "Ana")
                           ["hogar"; "30000"; "pava"; "3.0"]
                           (mundo_vacio (mk_datetime 2024 1 31 10 20 30)))
                    (decimal "30000") ltac:(cbn; lia) eq_refl) eq_refl).
  - exact (proj2 (proj1 (cuotas_cantidad_invalida (VInt 7) (VStr "Ana")
                           ["hogar"; "30000"; "pava"; "0"]
                           (mundo_vacio (mk_datetime 2024 1 31 10 20 30)))
                    (decimal "30000") ltac:(cbn; lia) eq_refl) 0 eq_refl ltac:(lia)).
  - exact (proj1 (proj1 (cuotas_cantidad_invalida (VInt 7) (VStr "Ana")
                           ["hogar"; "30000"; "pava"; "³"]
                           (mundo_vacio (mk_datetime 2024 1 31 10 20 30)))
                    (decimal "30000") ltac:(cbn; lia) eq_refl) eq_refl).
Defined.

(** ** The router *)

Section RouterFacts.

Variable str_of_value : PyVal -> string.

(** An update without text, or with white space only, is dropped. *)
Lemma handle_update_sin_texto (update : PyVal) (m : dict) (w : World) :
  mensaje_de update = Some m -> texto_de m = Some "" ->
  handle_update str_of_value update w = (Ok tt, w).
Proof.
  unfold mensaje_de, texto_de. intros Hm Ht.
  destruct update as [| | | | | |u]; try discriminate.
  destruct (py_or (get "message" u) (VDict [])) as [| | | | | |m'] eqn:Em; try discriminate.
  injection Hm as ->.
  destruct (py_or (get "text" m) (VStr "")) as [| | | |t0| |] eqn:Et; try discriminate.
  injection Ht as Ht.
  unfold handle_update, bind, lift. cbn [get_attr]. rewrite Em. cbn [get_attr].
  rewrite Et. cbn [py_strip str_method]. rewrite Ht. reflexivity.
Qed.

(** An update with text and a sender goes to the handlers, inside the
    [try]. *)
Lemma handle_update_despacha (update : PyVal) (m : dict) (t tok : string)
    (args : list string) (chat_id first_name : PyVal) (w : World) :
  mensaje_de update = Some m -> texto_de m = Some t -> t <> "" ->
  remitente_de m = Some (chat_id, first_name) ->
  split t = tok :: args ->
  handle_update str_of_value update w
  = try_except
      (dispatch str_of_value chat_id first_name
         (if contains_at tok then before_at tok else tok) args)
      (fun _ => send_message chat_id msg_error) w.
Proof.
  unfold mensaje_de, texto_de, remitente_de. intros Hm Ht Hne Hr Hs.
  destruct update as [| | | | | |u]; try discriminate.
  destruct (py_or (get "message" u) (VDict [])) as [| | | | | |m'] eqn:Em; try discriminate.
  injection Hm as ->.
  destruct (py_or (get "text" m) (VStr "")) as [| | | |t0| |] eqn:Et; try discriminate.
  injection Ht as Ht.
  destruct (lookup "chat" m) as [chat|] eqn:Ec; [|discriminate].
  destruct (getitem "id" chat) as [cid|] eqn:Ei; [|discriminate].
  destruct (py_or (get "from" m) (VDict [])) as [| | | | | |usr] eqn:Eu; try discriminate.
  injection Hr as -> <-.
  unfold handle_update, bind, lift. cbn [get_attr]. rewrite Em. cbn [get_attr].
  rewrite Et. cbn [py_strip str_method]. rewrite Ht.
  apply String.eqb_neq in Hne. rewrite Hne.
  cbn [getitem]. rewrite Ec, Ei. cbn [get_attr]. rewrite Eu.
  rewrite Hs. cbn [command_of tl]. reflexivity.
Qed.

Lemma dispatch_no_reconocido (chat_id first_name : PyVal) (command : string)
    (args : list string) :
  ~ In command comandos ->
  dispatch str_of_value chat_id first_name command args
  = send_message chat_id msg_no_reconocido.
Proof.
  intros H. unfold dispatch.
  repeat match goal with
         | |- context [String.eqb command ?c] =>
             destruct (String.eqb_spec command c) as [->|_];
             [exfalso; apply H; unfold comandos; cbn [In]; tauto|]
         end.
  reflexivity.
Qed.

End RouterFacts.

(** C6.  The router, for an update whose message is an object or is
    missing.  When the message has no text, or white space only, nothing is
    sent and nothing changes.  When it has text and a sender, the first
    token is the command (what follows an [@] in it is dropped) and the
    other tokens are the arguments: the update goes to the handlers inside
    the [try], so an exception raised by a handler ends in the fixed error
    reply and never leaves [handle_update]; and a command that has no
    handler gets the fixed unrecognized-command reply. *)
Theorem router_spec (str_of_value : PyVal -> string) (update : PyVal) (m : dict)
    (w : World) :
  mensaje_de update = Some m ->
  (texto_de m = Some "" -> handle_update str_of_value update w = (Ok tt, w)) /\
  (forall t chat_id first_name,
      texto_de m = Some t -> t <> "" -> remitente_de m = Some (chat_id, first_name) ->
      exists tok args,
        split t = tok :: args /\
        handle_update str_of_value update w
        = (match dispatch str_of_value chat_id first_name
                   (if contains_at tok then before_at tok else tok) args w with
           | (Ok _, w') => (Ok tt, w')
           | (Raise _, w') => (Ok tt, with_outbox (outbox w' ++ [(chat_id, msg_error)]) w')
           end) /\
        (~ In (if contains_at tok then before_at tok else tok) comandos ->
         handle_update str_of_value update w
         = (Ok tt, with_outbox (outbox w ++ [(chat_id, msg_no_reconocido)]) w)) /\
        fst (handle_update str_of_value update w) = Ok tt) /\
  handle_update str_of_value (VDict []) w = (Ok tt, w).
Proof.
  intros Hm. split; [apply handle_update_sin_texto, Hm|]. split; [|reflexivity].
  intros t chat_id first_name Ht Hne Hr.
  assert (Hsplit : exists tok args, split t = tok :: args).
  { unfold texto_de in Ht.
    destruct (py_or (get "text" m) (VStr "")) as [| | | |t0| |]; try discriminate.
    injection Ht as Ht. subst t.
    destruct (split (strip t0)) as [|tok args] eqn:Es; [|eauto].
    exfalso. apply Hne. rewrite split_strip in Es. apply split_nil, Es. }
  destruct Hsplit as (tok & args & Hs). exists tok, args.
  split; [exact Hs|].
  pose proof (handle_update_despacha str_of_value update m t tok args chat_id first_name w
                Hm Ht Hne Hr Hs) as Heq.
  unfold try_except in Heq.
  split; [|split].
  - rewrite Heq.
    destruct (dispatch str_of_value chat_id first_name
                (if contains_at tok then before_at tok else tok) args w) as [[[]|e] w'];
      reflexivity.
  - intros Hno. rewrite Heq, (dispatch_no_reconocido _ _ _ _ _ Hno). reflexivity.
  - rewrite Heq.
    destruct (dispatch str_of_value chat_id first_name
                (if contains_at tok then before_at tok else tok) args w) as [[[]|e] w'];
      reflexivity.
Qed.

(** [/resumen] when a row of the month has an amount that is no number:
    the aggregation raises [ValueError], the router replies with the error
    message and returns. *)
Lemma router_spec_witness :
  fst (dispatch str_de_texto (VInt 7) (VStr "Ana") "/resumen" [] mundo_con_monto_malo)
  = Raise (ValueError "could not convert string to float") /\
  fst (handle_update str_de_texto (update_de "/resumen") mundo_con_monto_malo) = Ok tt /\
  outbox (snd (handle_update str_de_texto (update_de "/resumen") mundo_con_monto_malo))
  = [(VInt 7, msg_error)].
Proof.
  split; [vm_compute; reflexivity|]. split; [|vm_compute; reflexivity].
  destruct (proj1 (proj2 (router_spec str_de_texto (update_de "/resumen") _
                            mundo_con_monto_malo eq_refl))
              "/resumen" (VInt 7) (VStr "Ana") eq_refl ltac:(discriminate) eq_refl)
    as (tok & args & _ & _ & _ & H).
  exact H.
Defined.

(** A no-break space parts the command from its arguments as a space
    does: the expense is recorded. *)
Lemma router_spec_espacio_duro :
  split ("/gasto" ++ nbsp ++ "comida 5") = ["/gasto"; "comida"; "5"] /\
  mov_ws (snd (handle_update str_de_texto (update_de ("/gasto" ++ nbsp ++ "comida 5"))
                 (mundo_vacio (mk_datetime 2024 1 31 10 20 30))))
  = [fila_movimiento "gasto" "comida" (decimal "5") ""
       (mk_datetime 2024 1 31 10 20 30) "ARS" "Mica"].
Proof. split; vm_compute; reflexivity. Qed.

(** C10.  An update whose message has text, not only white space, and no
    chat, or a chat without an identifier: [handle_update] raises
    [KeyError] to its caller, with nothing sent and nothing changed; the
    identifier is read before the [try] that guards the handlers. *)
Theorem handle_update_sin_chat (str_of_value : PyVal -> string) (update : PyVal)
    (m : dict) (t : string) (w : World) :
  mensaje_de update = Some m -> texto_de m = Some t -> t <> "" ->
  (lookup "chat" m = None ->
   handle_update str_of_value update w = (Raise (KeyError "chat"), w)) /\
  (forall c,
      lookup "chat" m = Some (VDict c) -> lookup "id" c = None ->
      handle_update str_of_value update w = (Raise (KeyError "id"), w)).
Proof.
  unfold mensaje_de, texto_de. intros Hm Ht Hne.
  destruct update as [| | | | | |u]; try discriminate.
  destruct (py_or (get "message" u) (VDict [])) as [| | | | | |m'] eqn:Em; try discriminate.
  injection Hm as ->.
  destruct (py_or (get "text" m) (VStr "")) as [| | | |t0| |] eqn:Et; try discriminate.
  injection Ht as Ht. apply String.eqb_neq in Hne.
  split.
  - intros Hc. unfold handle_update, bind, lift. cbn [get_attr]. rewrite Em.
    cbn [get_attr]. rewrite Et. cbn [py_strip str_method]. rewrite Ht, Hne.
    cbn [getitem]. rewrite Hc. reflexivity.
  - intros c Hc Hi. unfold handle_update, bind, lift. cbn [get_attr]. rewrite Em.
    cbn [get_attr]. rewrite Et. cbn [py_strip str_method]. rewrite Ht, Hne.
    cbn [getitem]. rewrite Hc. cbn [getitem]. rewrite Hi. reflexivity.
Qed.

(** [/start] in a message without a chat. *)
Lemma handle_update_sin_chat_witness :
  handle_update str_de_texto
    (VDict [("update_id", VInt 1); ("message", VDict [("text", VStr "/start")])])
    (mundo_vacio (mk_datetime 2024 1 31 10 20 30))
  = (Raise (KeyError "chat"), mundo_vacio (mk_datetime 2024 1 31 10 20 30)).
Proof.
  exact (proj1 (handle_update_sin_chat str_de_texto
                  (VDict [("update_id", VInt 1); ("message", VDict [("text", VStr "/start")])])
                  [("text", VStr "/start")] "/start"
                  (mundo_vacio (mk_datetime 2024 1 31 10 20 30))
                  eq_refl eq_refl ltac:(discriminate)) eq_refl).
Defined.

(** * Further properties of the program *)

(** ** Recording and summing *)

Lemma py_or_VStr (s d : string) : s <> "" -> py_or (VStr s) (VStr d) = VStr s.
Proof. destruct s; [congruence|reflexivity]. Qed.

(** The text cell [s], read with the default [d] for a blank, in lower or
    upper case. *)
Lemma py_lower_or (s : string) :
  py_lower (py_or (VStr (lower s)) (VStr "")) = Ok (lower s).
Proof.
  destruct (lower s) as [|c r] eqn:E; [reflexivity|].
  unfold py_or. cbn [truthy py_lower str_method].
  rewrite <- E, lower_idem. reflexivity.
Qed.

Lemma float_of_int_cero : py_float (VInt 0) = Ok cero.
Proof. reflexivity. Qed.

Lemma py_float_or_monto (x : spec_float) :
  py_float (py_or (VFloat x) (VInt 0)) = Ok (monto_leido x).
Proof. destruct x; reflexivity. Qed.

(** What the loop does with a row that [add_movimiento] wrote. *)
Lemma sumar_fila_movimiento (year month : Z) (tot : spec_float * spec_float)
    (tipo categoria : string) (monto : spec_float) (descripcion : string)
    (fecha : datetime) (moneda usuario : string) :
  sumar_fila year month tot
    (combine movimientos_headers
       (fila_movimiento tipo categoria monto descripcion fecha moneda usuario))
  = Ok (if (dt_year fecha =? year) && (dt_month fecha =? month) then
          if String.eqb (upper moneda) "ARS" || String.eqb moneda ""
          then sumar_tipo tipo (monto_leido monto) tot
          else tot
        else tot).
Proof.
  unfold sumar_fila, leer_anio_mes, fila_movimiento.
  set (r := combine movimientos_headers _).
  change (get "Año" r) with (VInt (dt_year fecha)).
  change (get "Mes" r) with (VInt (dt_month fecha)).
  change (get "Moneda" r) with (VStr (upper moneda)).
  change (get "Monto" r) with (VFloat monto).
  change (get "Tipo" r) with (VStr (lower tipo)).
  rewrite !py_int_or_cero. cbn [rbind].
  destruct ((dt_year fecha =? year) && (dt_month fecha =? month)); [|reflexivity].
  rewrite py_float_or_monto, py_lower_or.
  destruct moneda as [|c mo].
  - change (upper "") with "". unfold py_or. cbn [truthy py_upper str_method rbind].
    change (upper "ARS") with "ARS". cbn [String.eqb Ascii.eqb Bool.eqb orb].
    unfold sumar_tipo.
    destruct (String.eqb (lower tipo) "ingreso"); [destruct tot; reflexivity|].
    destruct (String.eqb (lower tipo) "gasto"); destruct tot; reflexivity.
  - assert (Hne : upper (String c mo) <> "")
      by (intros E; apply upper_empty in E; discriminate).
    rewrite (py_or_VStr _ _ Hne). cbn [py_upper str_method rbind].
    rewrite upper_idem.
    replace (String.eqb (String c mo) "") with false by reflexivity.
    rewrite orb_false_r.
    destruct (String.eqb (upper (String c mo)) "ARS"); [|reflexivity].
    cbn [rbind]. unfold sumar_tipo.
    destruct (String.eqb (lower tipo) "ingreso"); [destruct tot; reflexivity|].
    destruct (String.eqb (lower tipo) "gasto"); destruct tot; reflexivity.
Qed.

Lemma registros_de_add_movimiento (tipo categoria : string) (monto : spec_float)
    (descripcion : string) (fecha : option datetime) (moneda usuario : string) (w : World) :
  registros_de (snd (add_movimiento tipo categoria monto descripcion fecha moneda usuario w))
  = (registros_de w
       ++ [combine movimientos_headers
             (fila_movimiento tipo categoria monto descripcion (fecha_de fecha w)
                moneda usuario)])%list.
Proof.
  unfold registros_de, add_movimiento, get_all_records, append_row, fecha_de.
  cbn [snd with_mov_ws mov_ws]. rewrite map_app.
  destruct fecha; reflexivity.
Qed.

Lemma fold_montos_de (l : list (bool * spec_float)) :
  forall t,
    fst (totales t l) = fold_left fadd (montos_de true l) (fst t) /\
    snd (totales t l) = fold_left fadd (montos_de false l) (snd t).
Proof.
  unfold totales, montos_de.
  induction l as [|[b x] l IH]; intros t; [split; reflexivity|].
  cbn [fold_left filter fst]. destruct (IH (sumar_aporte t (b, x))) as [H1 H2].
  rewrite H1, H2. unfold sumar_aporte. cbn [fst snd].
  destruct b; cbn [Bool.eqb map fold_left fst snd]; split; reflexivity.
Qed.

(** X1.  Each total is the sum of the amounts of its own kind only, added
    from the left in row order: expenses do not touch the income total, nor
    incomes the expense total. *)
Theorem sumar_totales_por_tipo (year month : Z) (registros : list dict)
    (t : spec_float * spec_float) :
  sumar_registros year month registros = Ok t ->
  fst t = fold_left fadd (montos_de true (aportes year month registros)) cero /\
  snd t = fold_left fadd (montos_de false (aportes year month registros)) cero.
Proof.
  unfold sumar_registros. intros H. apply sumar_desde_ok in H. destruct H as [_ ->].
  apply (fold_montos_de _ (cero, cero)).
Qed.

(** An income between two expenses. *)
Lemma sumar_totales_por_tipo_witness :
  fst (decimal "100", fadd (fadd cero (decimal "0.1")) (decimal "0.2"))
  = fold_left fadd
      (montos_de true
         (aportes 2024 1
            [gasto_de "0.1";
             [("Tipo", VStr "Ingreso"); ("Monto", VInt 100); ("Año", VInt 2024);
              ("Mes", VInt 1)];
             gasto_de "0.2"])) cero.
Proof.
  refine (proj1 (sumar_totales_por_tipo 2024 1 _ _ _)).
  vm_compute. reflexivity.
Defined.

(** X2.  A movement recorded by [add_movimiento] is read back by the
    aggregation: when the totals of the month of the movement were [t]
    before, and the currency is ARS in any letter case (or empty), they are
    [t] with the amount added to the total its kind names afterwards; a
    kind that is neither ingreso nor gasto adds to neither, and an amount
    of 0.0 or -0.0 is added as 0.0. *)
Theorem add_movimiento_se_suma (tipo categoria : string) (monto : spec_float)
    (descripcion : string) (fecha : option datetime) (moneda usuario : string)
    (w : World) (t : spec_float * spec_float) :
  sumar_registros (dt_year (fecha_de fecha w)) (dt_month (fecha_de fecha w)) (registros_de w)
  = Ok t ->
  String.eqb (upper moneda) "ARS" || String.eqb moneda "" = true ->
  sumar_registros (dt_year (fecha_de fecha w)) (dt_month (fecha_de fecha w))
    (registros_de (snd (add_movimiento tipo categoria monto descripcion fecha moneda
                          usuario w)))
  = Ok (sumar_tipo tipo (monto_leido monto) t).
Proof.
  intros Ht Hars. rewrite registros_de_add_movimiento.
  unfold sumar_registros in *. rewrite sumar_desde_app, Ht. cbn [rbind sumar_desde].
  rewrite sumar_fila_movimiento, !Z.eqb_refl, Hars. reflexivity.
Qed.

(** An expense of 5.5 recorded in an empty sheet. *)
Lemma add_movimiento_se_suma_witness :
  sumar_registros 2024 1
    (registros_de (snd (add_movimiento "Gasto" "comida" (decimal "5.5") "empanadas" None
                          "ars" "Mica" (mundo_vacio (mk_datetime 2024 1 31 10 20 30)))))
  = Ok (cero, decimal "5.5").
Proof.
  exact (add_movimiento_se_suma "Gasto" "comida" (decimal "5.5") "empanadas" None "ars"
           "Mica" (mundo_vacio (mk_datetime 2024 1 31 10 20 30)) (cero, cero)
           eq_refl eq_refl).
Defined.

(** X3.  A movement recorded in another currency changes no monthly
    summary: for every year and month the aggregation gives the same
    result, or raises the same error, as before. *)
Theorem add_movimiento_otra_moneda (tipo categoria : string) (monto : spec_float)
    (descripcion : string) (fecha : option datetime) (moneda usuario : string)
    (w : World) (year month : Z) :
  String.eqb (upper moneda) "ARS" || String.eqb moneda "" = false ->
  sumar_registros year month
    (registros_de (snd (add_movimiento tipo categoria monto descripcion fecha moneda
                          usuario w)))
  = sumar_registros year month (registros_de w).
Proof.
  intros Hm. rewrite registros_de_add_movimiento.
  unfold sumar_registros. rewrite sumar_desde_app.
  destruct (sumar_desde year month (cero, cero) (registros_de w)) as [t|e];
    [|reflexivity].
  cbn [rbind sumar_desde]. rewrite sumar_fila_movimiento, Hm.
  destruct ((dt_year (fecha_de fecha w) =? year) && (dt_month (fecha_de fecha w) =? month));
    reflexivity.
Qed.

(** An expense in dollars after one in pesos. *)
Lemma add_movimiento_otra_moneda_witness :
  sumar_registros 2024 1
    (registros_de (snd (add_movimiento "gasto" "viaje" (decimal "20") "" None "USD" "Mica"
                          (mk_world [[VStr ""; VStr "Mica"; VStr "gasto"; VStr "kiosco";
                                      VStr ""; VFloat (decimal "7"); VInt 2024; VInt 1;
                                      VStr "ARS"]]
                             [] [] [] (mk_datetime 2024 1 31 10 20 30)))))
  = Ok (cero, decimal "7").
Proof.
  rewrite (add_movimiento_otra_moneda "gasto" "viaje" (decimal "20") "" None "USD" "Mica"
             _ 2024 1 eq_refl).
  vm_compute. reflexivity.
Defined.

(** ** Month arithmetic *)

Lemma avanzar_meses_indice (d : datetime) (i : Z) :
  12 * dt_year (avanzar_meses d i) + (dt_month (avanzar_meses d i) - 1)
  = 12 * dt_year d + (dt_month d - 1) + i.
Proof.
  unfold avanzar_meses. cbn [dt_year dt_month].
  pose proof (Z.div_mod (12 * dt_year d + (dt_month d - 1) + i) 12 ltac:(lia)). lia.
Qed.

Lemma avanzar_meses_mes (d : datetime) (i : Z) :
  1 <= dt_month (avanzar_meses d i) <= 12.
Proof.
  unfold avanzar_meses. cbn [dt_month].
  pose proof (Z.mod_pos_bound (12 * dt_year d + (dt_month d - 1) + i) 12 ltac:(lia)). lia.
Qed.

Lemma valid_date_avanzar_rango (d : datetime) (i : Z) :
  valid_date d ->
  MINYEAR <= dt_year (avanzar_meses d i) <= MAXYEAR ->
  valid_date (avanzar_meses d i).
Proof.
  intros (Hy & Hm & Hd) Hr.
  pose proof (avanzar_meses_mes d i) as Hmes.
  unfold valid_date. split; [exact Hr|]. split; [exact Hmes|].
  unfold avanzar_meses. cbn [dt_year dt_month dt_day].
  set (k := 12 * dt_year d + (dt_month d - 1) + i).
  pose proof (days_in_month_bounds (k / 12) (k mod 12 + 1)) as Hdim.
  destruct (Z.leb_spec (dt_day d) (days_in_month (k / 12) (k mod 12 + 1))); lia.
Qed.

(** [month_add] on a well-formed date, for any offset, forwards or
    backwards. *)
Lemma month_add_cases (d : datetime) (i : Z) :
  valid_date d ->
  month_add d i
  = if (MINYEAR <=? dt_year (avanzar_meses d i)) && (dt_year (avanzar_meses d i) <=? MAXYEAR)
    then Ok (avanzar_meses d i)
    else Raise (ValueError ("year " ++ str_of_Z (dt_year (avanzar_meses d i))
                              ++ " is out of range")).
Proof.
  intros (Hy & Hm & Hd).
  pose proof (avanzar_meses_mes d i) as Hmes.
  unfold month_add, avanzar_meses, make_datetime in *. cbn [dt_year dt_month] in *.
  replace (12 * dt_year d + (dt_month d - 1) + i)
    with ((dt_month d - 1 + i) + dt_year d * 12) in * by lia.
  rewrite Z.div_add, Z.mod_add in * by lia.
  replace ((dt_month d - 1 + i) / 12 + dt_year d)
    with (dt_year d + (dt_month d - 1 + i) / 12) by lia.
  set (y := dt_year d + (dt_month d - 1 + i) / 12) in *.
  set (m := (dt_month d - 1 + i) mod 12 + 1) in *.
  destruct ((MINYEAR <=? y) && (y <=? MAXYEAR)); cbn [negb]; [|reflexivity].
  pose proof (days_in_month_bounds y m) as Hdim.
  replace ((1 <=? m) && (m <=? 12)) with true
    by (symmetry; apply andb_true_iff; split; apply Z.leb_le; lia).
  replace ((1 <=? Z.min (dt_day d) (days_in_month y m))
           && (Z.min (dt_day d) (days_in_month y m) <=? days_in_month y m)) with true
    by (symmetry; apply andb_true_iff; split; apply Z.leb_le; lia).
  cbn [negb]. f_equal. f_equal.
  destruct (Z.leb_spec (dt_day d) (days_in_month y m)); lia.
Qed.

(** X4.  On a well-formed date [month_add] accepts any offset, negative
    ones too: it returns the date that many calendar months away, the day
    clamped to the target month, when the target year is one of 1..9999, and
    raises [ValueError] otherwise, and only then. *)
Theorem month_add_rango (d : datetime) (i : Z) :
  valid_date d ->
  (MINYEAR <= dt_year d + (dt_month d - 1 + i) / 12 <= MAXYEAR ->
   month_add d i = Ok (avanzar_meses d i) /\ valid_date (avanzar_meses d i)) /\
  (~ MINYEAR <= dt_year d + (dt_month d - 1 + i) / 12 <= MAXYEAR ->
   exists msg, month_add d i = Raise (ValueError msg)).
Proof.
  intros Hv. pose proof (month_add_cases d i Hv) as H.
  rewrite dt_year_avanzar in H. split.
  - intros Hr.
    replace ((MINYEAR <=? dt_year d + (dt_month d - 1 + i) / 12)
             && (dt_year d + (dt_month d - 1 + i) / 12 <=? MAXYEAR)) with true in H
      by (symmetry; apply andb_true_iff; split; apply Z.leb_le; lia).
    split; [exact H|].
    apply valid_date_avanzar_rango; [exact Hv|]. rewrite dt_year_avanzar. exact Hr.
  - intros Hr.
    replace ((MINYEAR <=? dt_year d + (dt_month d - 1 + i) / 12)
             && (dt_year d + (dt_month d - 1 + i) / 12 <=? MAXYEAR)) with false in H.
    + eexists. exact H.
    + symmetry. apply andb_false_iff.
      destruct (Z.leb_spec MINYEAR (dt_year d + (dt_month d - 1 + i) / 12));
        [|left; reflexivity].
      right. apply Z.leb_gt. lia.
Qed.

(** Two months back from 2024-01-31: 2023-11-30. *)
Lemma month_add_rango_witness :
  month_add (mk_datetime 2024 1 31 0 0 0) (-2) = Ok (mk_datetime 2023 11 30 0 0 0).
Proof.
  refine (proj1 (proj1 (month_add_rango (mk_datetime 2024 1 31 0 0 0) (-2) _) _)).
  - repeat split; vm_compute; discriminate.
  - split; vm_compute; discriminate.
Defined.

(** X5.  Advancing in two steps reaches the same month as advancing once by
    the sum, and never a later day; when the day of the start date is at
    most 28 nothing is ever clamped and the two ways give the same date. *)
Theorem month_add_suma (d : datetime) (i j : Z) (d1 d2 d12 : datetime) :
  valid_date d ->
  month_add d i = Ok d1 -> month_add d1 j = Ok d2 -> month_add d (i + j) = Ok d12 ->
  dt_year d2 = dt_year d12 /\ dt_month d2 = dt_month d12 /\ dt_day d2 <= dt_day d12 /\
  (dt_day d <= 28 -> d2 = d12).
Proof.
  intros Hv H1 H2 H12.
  pose proof (month_add_cases d i Hv) as C1. rewrite H1 in C1.
  destruct ((MINYEAR <=? dt_year (avanzar_meses d i))
            && (dt_year (avanzar_meses d i) <=? MAXYEAR)) eqn:R1; [|discriminate].
  injection C1 as ->.
  apply andb_true_iff in R1. destruct R1 as [R1a R1b].
  apply Z.leb_le in R1a, R1b.
  assert (Hv1 : valid_date (avanzar_meses d i)).
  { apply valid_date_avanzar_rango; [exact Hv|]. lia. }
  pose proof (month_add_cases _ j Hv1) as C2. rewrite H2 in C2.
  destruct ((MINYEAR <=? dt_year (avanzar_meses (avanzar_meses d i) j))
            && (dt_year (avanzar_meses (avanzar_meses d i) j) <=? MAXYEAR)); [|discriminate].
  injection C2 as ->.
  pose proof (month_add_cases d (i + j) Hv) as C12. rewrite H12 in C12.
  destruct ((MINYEAR <=? dt_year (avanzar_meses d (i + j)))
            && (dt_year (avanzar_meses d (i + j)) <=? MAXYEAR)); [|discriminate].
  injection C12 as ->.
  pose proof (avanzar_meses_indice d i) as I1.
  assert (Hk : 12 * dt_year (avanzar_meses d i) + (dt_month (avanzar_meses d i) - 1) + j
               = 12 * dt_year d + (dt_month d - 1) + (i + j)) by lia.
  set (k := 12 * dt_year d + (dt_month d - 1) + (i + j)) in *.
  set (dim := days_in_month (k / 12) (k mod 12 + 1)).
  pose proof (days_in_month_bounds (k / 12) (k mod 12 + 1)) as Hdim. fold dim in Hdim.
  assert (E : avanzar_meses (avanzar_meses d i) j
              = mk_datetime (k / 12) (k mod 12 + 1)
                  (if dt_day (avanzar_meses d i) <=? dim
                   then dt_day (avanzar_meses d i) else dim) 0 0 0).
  { unfold avanzar_meses at 1. rewrite Hk. reflexivity. }
  assert (E12 : avanzar_meses d (i + j)
                = mk_datetime (k / 12) (k mod 12 + 1)
                    (if dt_day d <=? dim then dt_day d else dim) 0 0 0)
    by reflexivity.
  assert (Hday : dt_day (avanzar_meses d i) <= dt_day d).
  { unfold avanzar_meses. cbn [dt_day].
    destruct (Z.leb_spec (dt_day d)
                (days_in_month ((12 * dt_year d + (dt_month d - 1) + i) / 12)
                   ((12 * dt_year d + (dt_month d - 1) + i) mod 12 + 1))); lia. }
  rewrite E, E12. cbn [dt_year dt_month dt_day].
  split; [reflexivity|]. split; [reflexivity|]. split.
  - destruct (Z.leb_spec (dt_day (avanzar_meses d i)) dim);
      destruct (Z.leb_spec (dt_day d) dim); lia.
  - intros H28.
    assert (Hsame : dt_day (avanzar_meses d i) = dt_day d).
    { unfold avanzar_meses. cbn [dt_day].
      pose proof (days_in_month_bounds ((12 * dt_year d + (dt_month d - 1) + i) / 12)
                    ((12 * dt_year d + (dt_month d - 1) + i) mod 12 + 1)).
      destruct (Z.leb_spec (dt_day d)
                  (days_in_month ((12 * dt_year d + (dt_month d - 1) + i) / 12)
                     ((12 * dt_year d + (dt_month d - 1) + i) mod 12 + 1))); lia. }
    rewrite Hsame. reflexivity.
Qed.

(** From 2024-01-31, one month and one more is 2024-03-29; two months at
    once is 2024-03-31. *)
Lemma month_add_suma_witness :
  dt_year (mk_datetime 2024 3 29 0 0 0) = dt_year (mk_datetime 2024 3 31 0 0 0) /\
  dt_month (mk_datetime 2024 3 29 0 0 0) = dt_month (mk_datetime 2024 3 31 0 0 0) /\
  dt_day (mk_datetime 2024 3 29 0 0 0) <= dt_day (mk_datetime 2024 3 31 0 0 0).
Proof.
  destruct (month_add_suma (mk_datetime 2024 1 31 0 0 0) 1 1
              (mk_datetime 2024 2 29 0 0 0) (mk_datetime 2024 3 29 0 0 0)
              (mk_datetime 2024 3 31 0 0 0)
              ltac:(repeat split; vm_compute; discriminate) eq_refl eq_refl eq_refl)
    as (H1 & H2 & H3 & _).
  repeat split; assumption.
Defined.

(** ** Installments and the summary *)

Lemma fila_cuota_movimiento (categoria descripcion : string) (monto_cuota : spec_float)
    (n i : Z) (fecha : datetime) :
  fila_cuota categoria descripcion monto_cuota n i fecha
  = fila_movimiento "gasto" categoria monto_cuota (desc_cuota descripcion i n) fecha
      "ARS" "Mica".
Proof. reflexivity. Qed.

(** The loop on the row of an installment: it counts when it falls in the
    queried month. *)
Lemma sumar_fila_cuota (year month : Z) (tot : spec_float * spec_float)
    (categoria descripcion : string) (monto_cuota : spec_float) (n i : Z) (fecha : datetime) :
  sumar_fila year month tot
    (combine movimientos_headers (fila_cuota categoria descripcion monto_cuota n i fecha))
  = Ok (if (dt_year fecha =? year) && (dt_month fecha =? month)
        then (fst tot, fadd (snd tot) (monto_leido monto_cuota))
        else tot).
Proof. rewrite fila_cuota_movimiento, sumar_fila_movimiento. reflexivity. Qed.

Lemma avanzar_meses_otro_mes (hoy : datetime) (i : Z) :
  1 <= dt_month hoy <= 12 -> i <> 0 ->
  (dt_year (avanzar_meses hoy i) =? dt_year hoy)
  && (dt_month (avanzar_meses hoy i) =? dt_month hoy) = false.
Proof.
  intros Hm Hi.
  pose proof (avanzar_meses_indice hoy i) as Hk.
  pose proof (avanzar_meses_mes hoy i) as Hmes.
  apply andb_false_iff.
  destruct (Z.eqb_spec (dt_year (avanzar_meses hoy i)) (dt_year hoy)) as [Ey|];
    [|left; reflexivity].
  right. apply Z.eqb_neq. lia.
Qed.

Lemma avanzar_meses_mismo_mes (hoy : datetime) :
  1 <= dt_month hoy <= 12 ->
  (dt_year (avanzar_meses hoy 0) =? dt_year hoy)
  && (dt_month (avanzar_meses hoy 0) =? dt_month hoy) = true.
Proof.
  intros Hm.
  pose proof (avanzar_meses_indice hoy 0) as Hk.
  pose proof (avanzar_meses_mes hoy 0) as Hmes.
  apply andb_true_iff. split; apply Z.eqb_eq; lia.
Qed.

(** The installments after the first fall in later months. *)
Lemma sumar_desde_cuotas_futuras (hoy : datetime) (categoria descripcion : string)
    (monto_cuota : spec_float) (n : Z) (N : nat) :
  1 <= dt_month hoy <= 12 ->
  forall (i : Z) (tot : spec_float * spec_float),
    1 <= i ->
    sumar_desde (dt_year hoy) (dt_month hoy) tot
      (map (fun r : row => combine movimientos_headers r)
         (map (fun j => fila_cuota categoria descripcion monto_cuota n j
                          (avanzar_meses hoy j)) (desde i N)))
    = Ok tot.
Proof.
  intros Hm. induction N as [|N IH]; intros i tot Hi; [reflexivity|].
  rewrite desde_succ. cbn [map sumar_desde].
  rewrite sumar_fila_cuota, avanzar_meses_otro_mes by lia.
  cbn [rbind]. apply IH. lia.
Qed.

(** X6.  After a purchase in installments that goes through, the summary
    of the current month has grown by one installment exactly: the first
    one is dated today and counts as an expense of the month, the others
    are dated in later months and do not count yet.  (An installment
    amount of zero is added as 0.0.) *)
Theorem cuotas_en_el_resumen (chat_id first_name : PyVal) (args : list string)
    (w : World) (total : spec_float) (n : Z) (c : spec_float)
    (t : spec_float * spec_float) :
  (3 <= List.length args)%nat ->
  parse_monto (nth 1 args "") = Ok total ->
  parse_int (last args "") = Some n -> 0 < n ->
  float_of_int n = Ok c ->
  valid_date (now w) -> dt_year (avanzar_meses (today w) (n - 1)) <= MAXYEAR ->
  sumar_registros (dt_year (today w)) (dt_month (today w)) (registros_de w) = Ok t ->
  sumar_registros (dt_year (today w)) (dt_month (today w))
    (registros_de (snd (cmd_cuotas chat_id first_name args w)))
  = Ok (fst t, fadd (snd t) (monto_leido (round2 (fdiv total c)))).
Proof.
  intros Hlen Hm Hn Hpos Hc Hv Hmax Ht.
  rewrite (cmd_cuotas_ok chat_id first_name args w total n (fdiv total c))
    by (try assumption; apply dividir_float_of_int, Hc).
  unfold registros_de in *. cbn [snd with_outbox with_mov_ws mov_ws].
  unfold get_all_records in *. rewrite map_app.
  unfold sumar_registros in *. rewrite sumar_desde_app, Ht. cbn [rbind].
  unfold filas_cuotas.
  destruct (Z.to_nat n) as [|N] eqn:EN; [lia|].
  assert (Hmes : 1 <= dt_month (today w) <= 12) by (destruct Hv as (_ & H & _); exact H).
  rewrite desde_succ. cbn [map sumar_desde].
  rewrite sumar_fila_cuota, avanzar_meses_mismo_mes by exact Hmes.
  cbn [rbind]. apply sumar_desde_cuotas_futuras; [exact Hmes|lia].
Qed.

(** 100.00 in 3 installments on 2024-01-31: January has 33.33 more. *)
Lemma cuotas_en_el_resumen_witness :
  sumar_registros 2024 1
    (registros_de
       (snd (cmd_cuotas (VInt 7) (VStr "Ana") ["hogar"; "100.00"; "pava"; "3"]
               (mundo_vacio (mk_datetime 2024 1 31 10 20 30)))))
  = Ok (cero, decimal "33.33").
Proof.
  exact (cuotas_en_el_resumen (VInt 7) (VStr "Ana") ["hogar"; "100.00"; "pava"; "3"]
           (mundo_vacio (mk_datetime 2024 1 31 10 20 30)) (decimal "100.00") 3
           (nearest_of_Z 3) (cero, cero)
           ltac:(cbn; lia) eq_refl eq_refl eq_refl eq_refl
           ltac:(repeat split; vm_compute; discriminate)
           ltac:(vm_compute; discriminate) eq_refl).
Defined.

(** ** What a command may change *)

Lemma marco_refl (tm tp to : bool) (w : World) : marco tm tp to w w.
Proof.
  unfold marco. repeat split; try reflexivity; try lia.
  exists []. split; [symmetry; apply app_nil_r|reflexivity].
Qed.

Lemma marco_trans (tm tp to : bool) (w1 w2 w3 : World) :
  marco tm tp to w1 w2 -> marco tm tp to w2 w3 -> marco tm tp to w1 w3.
Proof.
  intros (Hn1 & (e1 & Hm1 & He1) & Hp1 & Hp1' & Ho1 & Ho1')
         (Hn2 & (e2 & Hm2 & He2) & Hp2 & Hp2' & Ho2 & Ho2').
  unfold marco. split; [congruence|]. split.
  { exists (e1 ++ e2)%list. split.
    - rewrite Hm2, Hm1, app_assoc. reflexivity.
    - intros H. rewrite (He1 H), (He2 H). reflexivity. }
  split; [lia|]. split; [intros H; rewrite (Hp2' H); apply Hp1', H|].
  split; [lia|]. intros H. rewrite (Ho2' H). apply Ho1', H.
Qed.

Lemma marco_outbox (tm tp to : bool) (w w' : World) (o : list (PyVal * string)) :
  marco tm tp to w w' -> marco tm tp to w (with_outbox o w').
Proof. intros H. exact H. Qed.

Section Frames.

Variables tm tp to : bool.

Lemma silencioso_ret {A} (a : A) : silencioso tm tp to (ret a).
Proof. intros w. split; [apply marco_refl|reflexivity]. Qed.

Lemma silencioso_raise {A} (e : exn) : silencioso tm tp to (@raise A e).
Proof. intros w. split; [apply marco_refl|reflexivity]. Qed.

Lemma silencioso_lift {A} (r : result A) : silencioso tm tp to (lift r).
Proof. intros w. split; [apply marco_refl|reflexivity]. Qed.

Lemma silencioso_bind {A B} (m : M A) (k : A -> M B) :
  silencioso tm tp to m -> (forall a, silencioso tm tp to (k a)) ->
  silencioso tm tp to (bind m k).
Proof.
  intros Hm Hk w. unfold bind. specialize (Hm w).
  destruct (m w) as [[a|e] w1]; cbn [snd] in *; [|exact Hm].
  destruct Hm as [Hf Ho]. destruct (Hk a w1) as [Hf2 Ho2].
  split; [eapply marco_trans; eassumption|congruence].
Qed.

Lemma responde_send (chat_id : PyVal) (text : string) :
  responde chat_id tm tp to (send_message chat_id text).
Proof.
  intros w. cbn [send_message fst snd]. split.
  - apply marco_outbox, marco_refl.
  - eexists. reflexivity.
Qed.

Lemma responde_raise (chat_id : PyVal) (e : exn) : responde chat_id tm tp to (raise e).
Proof. intros w. split; [apply marco_refl|reflexivity]. Qed.

Lemma responde_bind {A} (chat_id : PyVal) (m : M A) (k : A -> M unit) :
  silencioso tm tp to m -> (forall a, responde chat_id tm tp to (k a)) ->
  responde chat_id tm tp to (bind m k).
Proof.
  intros Hm Hk w. unfold bind. specialize (Hm w).
  destruct (m w) as [[a|e] w1]; cbn [fst snd] in *; [|exact Hm].
  destruct Hm as [Hf Ho]. destruct (Hk a w1) as [Hf2 Ho2].
  split; [eapply marco_trans; eassumption|].
  destruct (fst (k a w1)); rewrite <- Ho; exact Ho2.
Qed.

(** A handler inside the router's [try]: when it raises, the error reply
    is the one reply. *)
Lemma responde_try_except (chat_id : PyVal) (m : M unit) (text : string) (w : World) :
  responde chat_id tm tp to m ->
  marco tm tp to w (snd (try_except m (fun _ => send_message chat_id text) w)) /\
  exists u msg,
    fst (try_except m (fun _ => send_message chat_id text) w) = Ok u /\
    outbox (snd (try_except m (fun _ => send_message chat_id text) w))
    = (outbox w ++ [(chat_id, msg)])%list.
Proof.
  intros Hm. unfold try_except. specialize (Hm w).
  destruct (m w) as [[u|e] w1]; cbn [fst snd] in *; destruct Hm as [Hf Ho].
  - split; [exact Hf|]. destruct Ho as [msg Ho]. exists u, msg. split; [reflexivity|exact Ho].
  - split; [apply marco_outbox, Hf|].
    exists tt, text. cbn [send_message fst snd with_outbox outbox]. rewrite Ho.
    split; reflexivity.
Qed.

End Frames.

Lemma silencioso_add_movimiento (tp to : bool) (tipo categoria : string)
    (monto : spec_float) (descripcion : string) (fecha : option datetime)
    (moneda usuario : string) :
  silencioso true tp to (add_movimiento tipo categoria monto descripcion fecha moneda usuario).
Proof.
  intros w. unfold add_movimiento, append_row. cbn [snd with_mov_ws outbox].
  split; [|reflexivity].
  unfold marco. cbn [now mov_ws pres_ws obj_ws].
  repeat split; try reflexivity; try lia.
  eexists. split; [reflexivity|discriminate].
Qed.

Lemma silencioso_registrar_cuotas (tp to : bool) (hoy : datetime)
    (categoria descripcion : string) (monto_cuota : spec_float) (cantidad_cuotas : Z)
    (n : nat) :
  forall i,
    silencioso true tp to
      (registrar_cuotas hoy categoria descripcion monto_cuota cantidad_cuotas i n).
Proof.
  induction n as [|n IH]; intros i; cbn [registrar_cuotas].
  - apply silencioso_ret.
  - apply silencioso_bind; [apply silencioso_lift|]. intros fecha.
    apply silencioso_bind; [apply silencioso_add_movimiento|]. intros _. apply IH.
Qed.

Lemma silencioso_sumar (tm tp to : bool) (year month : Z) :
  silencioso tm tp to (sumar_movimientos_del_mes year month).
Proof. intros w. split; [apply marco_refl|reflexivity]. Qed.

Lemma silencioso_today (tm tp to : bool) :
  silencioso tm tp to (fun w => (Ok (today w), w)).
Proof. intros w. split; [apply marco_refl|reflexivity]. Qed.

Lemma upsert_length (headers : list string) (columna clave : string) (monto : spec_float)
    (ws ws' : worksheet) :
  upsert headers columna clave monto ws = Ok ws' ->
  (List.length ws <= List.length ws')%nat.
Proof.
  unfold upsert.
  destruct (buscar_fila columna clave 2 (get_all_records headers ws)) as [[idx|]|e];
    cbn [rbind]; intros H; [| |discriminate]; injection H as <-.
  - unfold update_cell. generalize (idx - 2)%nat. intros k. revert k.
    induction ws as [|x ws IH]; intros [|k]; cbn [alter_nth List.length]; try lia.
    specialize (IH k). lia.
  - unfold append_row. rewrite length_app. cbn. lia.
Qed.

Lemma silencioso_set_presupuesto (tm to : bool) (categoria : string) (monto : spec_float) :
  silencioso tm true to (set_presupuesto categoria monto).
Proof.
  intros w. unfold set_presupuesto.
  destruct (upsert presupuestos_headers "Categoria" categoria monto (pres_ws w))
    as [ws'|e] eqn:H; cbn [snd]; [|split; [apply marco_refl|reflexivity]].
  split; [|reflexivity].
  unfold marco. cbn [with_pres_ws now mov_ws pres_ws obj_ws].
  split; [reflexivity|]. split; [exists []; split; [symmetry; apply app_nil_r|reflexivity]|].
  split; [eapply upsert_length, H|]. split; [discriminate|]. split; [lia|reflexivity].
Qed.

Lemma silencioso_set_objetivo (tm tp : bool) (nombre : string) (monto : spec_float) :
  silencioso tm tp true (set_objetivo nombre monto).
Proof.
  intros w. unfold set_objetivo.
  destruct (upsert objetivos_headers "Nombre" nombre monto (obj_ws w))
    as [ws'|e] eqn:H; cbn [snd]; [|split; [apply marco_refl|reflexivity]].
  split; [|reflexivity].
  unfold marco. cbn [with_obj_ws now mov_ws pres_ws obj_ws].
  split; [reflexivity|]. split; [exists []; split; [symmetry; apply app_nil_r|reflexivity]|].
  split; [lia|]. split; [reflexivity|]. split; [eapply upsert_length, H|discriminate].
Qed.

Lemma responde_cmd_movimiento (tp to : bool) (chat_id first_name : PyVal)
    (args : list string) (tipo moneda : string) :
  responde chat_id true tp to (cmd_movimiento chat_id first_name args tipo moneda).
Proof.
  unfold cmd_movimiento.
  destruct (parse_movimiento_args args) as [[[categoria monto] descripcion]|e].
  - apply responde_bind; [apply silencioso_add_movimiento|]. intros _. apply responde_send.
  - destruct e; try apply responde_raise. apply responde_send.
Qed.

Lemma responde_cmd_cuotas (tp to : bool) (chat_id first_name : PyVal) (args : list string) :
  responde chat_id true tp to (cmd_cuotas chat_id first_name args).
Proof.
  unfold cmd_cuotas.
  destruct (List.length args <? 3)%nat; [apply responde_send|].
  destruct (parse_monto (nth 1 args "")) as [total|e];
    [|destruct e; try apply responde_raise; apply responde_send].
  destruct (py_int (VStr (last args ""))) as [n|e];
    [|destruct e; try apply responde_raise; apply responde_send].
  destruct (n <=? 0); [apply responde_send|].
  apply responde_bind; [apply silencioso_lift|]. intros q.
  apply responde_bind; [apply silencioso_today|]. intros hoy.
  apply responde_bind; [apply silencioso_registrar_cuotas|]. intros _.
  apply responde_send.
Qed.

Lemma responde_cmd_resumen (tm tp to : bool) (chat_id : PyVal) :
  responde chat_id tm tp to (cmd_resumen chat_id).
Proof.
  unfold cmd_resumen.
  apply responde_bind; [apply silencioso_today|]. intros hoy.
  apply responde_bind; [apply silencioso_sumar|]. intros [ingresos gastos].
  apply responde_send.
Qed.

Lemma responde_cmd_saldo (tm tp to : bool) (chat_id : PyVal) :
  responde chat_id tm tp to (cmd_saldo chat_id).
Proof.
  unfold cmd_saldo.
  apply responde_bind; [apply silencioso_today|]. intros hoy.
  apply responde_bind; [apply silencioso_sumar|]. intros [ingresos gastos].
  apply responde_send.
Qed.

Lemma responde_cmd_presupuesto (tm to : bool) (chat_id : PyVal) (args : list string) :
  responde chat_id tm true to (cmd_presupuesto chat_id args).
Proof.
  unfold cmd_presupuesto.
  destruct (List.length args <? 2)%nat; [apply responde_send|].
  destruct (parse_monto (nth 1 args "")) as [monto|e];
    [|destruct e; try apply responde_raise; apply responde_send].
  apply responde_bind; [apply silencioso_set_presupuesto|]. intros _. apply responde_send.
Qed.

Lemma responde_cmd_objetivo (tm tp : bool) (chat_id : PyVal) (args : list string) :
  responde chat_id tm tp true (cmd_objetivo chat_id args).
Proof.
  unfold cmd_objetivo.
  destruct (List.length args <? 2)%nat; [apply responde_send|].
  destruct (parse_monto (nth 1 args "")) as [monto|e];
    [|destruct e; try apply responde_raise; apply responde_send].
  apply responde_bind; [apply silencioso_set_objetivo|]. intros _. apply responde_send.
Qed.

(** Every handler replies once when it returns, sends nothing when it
    raises, and writes to no sheet but its own. *)
Lemma responde_dispatch (str_of_value : PyVal -> string) (chat_id first_name : PyVal)
    (command : string) (args : list string) :
  responde chat_id (escribe_mov command) (escribe_pres command) (escribe_obj command)
    (dispatch str_of_value chat_id first_name command args).
Proof.
  unfold dispatch.
  repeat match goal with
         | |- context [if String.eqb command ?c then _ else _] =>
             destruct (String.eqb_spec command c) as [->|?]
         end;
    try apply responde_send;
    try apply responde_cmd_movimiento;
    try apply responde_cmd_cuotas;
    try apply responde_cmd_resumen;
    try apply responde_cmd_saldo;
    try apply responde_cmd_presupuesto;
    try apply responde_cmd_objetivo.
Qed.

Lemma texto_de_tokens (m : dict) (t : string) :
  texto_de m = Some t -> t <> "" -> exists tok args, split t = tok :: args.
Proof.
  intros Ht Hne. unfold texto_de in Ht.
  destruct (py_or (get "text" m) (VStr "")) as [| | | |t0| |]; try discriminate.
  injection Ht as Ht. subst t.
  destruct (split (strip t0)) as [|tok args] eqn:Es; [|eauto].
  exfalso. apply Hne. rewrite split_strip in Es. apply split_nil, Es.
Qed.

(** X7.  Every update that has text and a sender gets exactly one reply,
    and the reply goes to the chat the message came from: whatever the
    command and its arguments are, and whatever the sheets hold,
    [handle_update] returns normally with one message added to the outbox,
    addressed to the chat identifier of the message. *)
Theorem una_respuesta_por_mensaje (str_of_value : PyVal -> string) (update : PyVal)
    (m : dict) (t : string) (chat_id first_name : PyVal) (w : World) :
  mensaje_de update = Some m -> texto_de m = Some t -> t <> "" ->
  remitente_de m = Some (chat_id, first_name) ->
  fst (handle_update str_of_value update w) = Ok tt /\
  exists msg,
    outbox (snd (handle_update str_of_value update w)) = (outbox w ++ [(chat_id, msg)])%list.
Proof.
  intros Hm Ht Hne Hr.
  destruct (texto_de_tokens m t Ht Hne) as (tok & args & Hs).
  rewrite (handle_update_despacha str_of_value update m t tok args chat_id first_name w
             Hm Ht Hne Hr Hs).
  destruct (responde_try_except _ _ _ chat_id _ msg_error w
              (responde_dispatch str_of_value chat_id first_name
                 (if contains_at tok then before_at tok else tok) args))
    as (_ & u & msg & Hfst & Hout).
  split; [rewrite Hfst; destruct u; reflexivity|].
  exists msg. exact Hout.
Qed.

(** An expense with an amount that does not read: one reply, the error. *)
Lemma una_respuesta_por_mensaje_witness :
  fst (handle_update str_de_texto (update_de "/gasto comida mucho")
         (mundo_vacio (mk_datetime 2024 1 31 10 20 30))) = Ok tt /\
  exists msg,
    outbox (snd (handle_update str_de_texto (update_de "/gasto comida mucho")
                   (mundo_vacio (mk_datetime 2024 1 31 10 20 30))))
    = ([] ++ [(VInt 7, msg)])%list.
Proof.
  exact (una_respuesta_por_mensaje str_de_texto (update_de "/gasto comida mucho") _
           "/gasto comida mucho" (VInt 7) (VStr "Ana")
           (mundo_vacio (mk_datetime 2024 1 31 10 20 30))
           eq_refl eq_refl ltac:(discriminate) eq_refl).
Defined.

(** The steps of [handle_update] before the handlers leave the world as it
    is. *)
Lemma handle_update_cases (str_of_value : PyVal -> string) (update : PyVal) (w : World) :
  snd (handle_update str_of_value update w) = w \/
  exists chat_id first_name command args,
    handle_update str_of_value update w
    = try_except (dispatch str_of_value chat_id first_name command args)
        (fun _ => send_message chat_id msg_error) w.
Proof.
  unfold handle_update, bind, lift.
  destruct (get_attr "message" update) as [message0|e]; [|left; reflexivity].
  destruct (get_attr "text" (py_or message0 (VDict []))) as [text0|e]; [|left; reflexivity].
  destruct (py_strip (py_or text0 (VStr ""))) as [text|e]; [|left; reflexivity].
  destruct (String.eqb text ""); [left; reflexivity|].
  destruct (getitem "chat" (py_or message0 (VDict []))) as [chat|e]; [|left; reflexivity].
  destruct (getitem "id" chat) as [chat_id|e]; [|left; reflexivity].
  destruct (get_attr "from" (py_or message0 (VDict []))) as [user0|e]; [|left; reflexivity].
  destruct (py_or user0 (VDict [])) as [| | | | | |usr]; try (left; reflexivity).
  destruct (command_of (split text)) as [command|e]; [|left; reflexivity].
  right. exists chat_id, (get_or "first_name" (VStr "Mica") usr), command, (tl (split text)).
  reflexivity.
Qed.

(** X8.  Whatever the update is, well formed or not, handling it never
    rewrites the ledger: the Movimientos sheet afterwards is the sheet
    before with rows appended (none is changed or removed), Presupuestos and
    Objetivos lose no row, and the clock is not touched. *)
Theorem libro_solo_crece (str_of_value : PyVal -> string) (update : PyVal) (w : World) :
  (exists extra,
      mov_ws (snd (handle_update str_of_value update w)) = (mov_ws w ++ extra)%list) /\
  (List.length (pres_ws w)
   <= List.length (pres_ws (snd (handle_update str_of_value update w))))%nat /\
  (List.length (obj_ws w)
   <= List.length (obj_ws (snd (handle_update str_of_value update w))))%nat /\
  now (snd (handle_update str_of_value update w)) = now w.
Proof.
  assert (H : marco true true true w (snd (handle_update str_of_value update w))).
  { destruct (handle_update_cases str_of_value update w)
      as [->|(chat_id & first_name & command & args & ->)]; [apply marco_refl|].
    pose proof (responde_dispatch str_of_value chat_id first_name command args) as Hd.
    unfold try_except. specialize (Hd w).
    destruct (dispatch str_of_value chat_id first_name command args w) as [[u|e] w1];
      cbn [fst snd] in *; destruct Hd as [Hf _].
    - destruct Hf as (Hn & (extra & Hm & _) & Hp & _ & Ho & _).
      unfold marco. repeat split; try assumption; try discriminate.
      exists extra. split; [exact Hm|discriminate].
    - destruct Hf as (Hn & (extra & Hm & _) & Hp & _ & Ho & _).
      unfold marco. cbn [send_message snd with_outbox now mov_ws pres_ws obj_ws].
      repeat split; try assumption; try discriminate.
      exists extra. split; [exact Hm|discriminate]. }
  destruct H as (Hn & (extra & Hm & _) & Hp & _ & Ho & _).
  split; [exists extra; exact Hm|]. repeat split; assumption.
Qed.

(** X9.  A command writes to no sheet but its own: only the movement
    commands and [/cuotas] can add to Movimientos, only [/presupuesto] can
    change Presupuestos, only [/objetivo] can change Objetivos; so
    [/resumen], [/saldo], [/start], [/help] and unknown commands leave the
    three sheets exactly as they were, also when they fail. *)
Theorem cada_comando_su_hoja (str_of_value : PyVal -> string) (update : PyVal)
    (m : dict) (t tok : string) (args : list string) (chat_id first_name : PyVal)
    (w : World) :
  mensaje_de update = Some m -> texto_de m = Some t -> t <> "" ->
  remitente_de m = Some (chat_id, first_name) ->
  split t = tok :: args ->
  (escribe_mov (if contains_at tok then before_at tok else tok) = false ->
   mov_ws (snd (handle_update str_of_value update w)) = mov_ws w) /\
  (escribe_pres (if contains_at tok then before_at tok else tok) = false ->
   pres_ws (snd (handle_update str_of_value update w)) = pres_ws w) /\
  (escribe_obj (if contains_at tok then before_at tok else tok) = false ->
   obj_ws (snd (handle_update str_of_value update w)) = obj_ws w).
Proof.
  intros Hm Ht Hne Hr Hs.
  rewrite (handle_update_despacha str_of_value update m t tok args chat_id first_name w
             Hm Ht Hne Hr Hs).
  destruct (responde_try_except _ _ _ chat_id _ msg_error w
              (responde_dispatch str_of_value chat_id first_name
                 (if contains_at tok then before_at tok else tok) args))
    as ((_ & (extra & Hmov & Hex) & _ & Hp & _ & Ho) & _).
  split; [|split; assumption].
  intros H. rewrite Hmov, (Hex H). apply app_nil_r.
Qed.

(** [/resumen] on a sheet with a row: the sheet is the same afterwards.
    And [/presupuesto] with a no-break space after it writes no movement. *)
Lemma cada_comando_su_hoja_witness :
  mov_ws (snd (handle_update str_de_texto (update_de "/resumen@MiBot") mundo_con_monto_malo))
  = mov_ws mundo_con_monto_malo /\
  mov_ws (snd (handle_update str_de_texto
                 (update_de ("/presupuesto" ++ nbsp ++ "comida 5")) mundo_con_monto_malo))
  = mov_ws mundo_con_monto_malo.
Proof.
  split.
  - exact (proj1 (cada_comando_su_hoja str_de_texto (update_de "/resumen@MiBot") _
                    "/resumen@MiBot" "/resumen@MiBot" [] (VInt 7) (VStr "Ana")
                    mundo_con_monto_malo eq_refl eq_refl ltac:(discriminate) eq_refl eq_refl)
             eq_refl).
  - exact (proj1 (cada_comando_su_hoja str_de_texto
                    (update_de ("/presupuesto" ++ nbsp ++ "comida 5")) _
                    ("/presupuesto" ++ nbsp ++ "comida 5") "/presupuesto" ["comida"; "5"]
                    (VInt 7) (VStr "Ana") mundo_con_monto_malo
                    eq_refl ltac:(vm_compute; reflexivity) ltac:(discriminate) eq_refl
                    ltac:(vm_compute; reflexivity))
             eq_refl).
Defined.

(** ** More on budgets and goals *)

Lemma coincide_lower (clave clave' : string) (r : row) :
  lower clave = lower clave' -> coincide clave r = coincide clave' r.
Proof. unfold coincide. intros ->. reflexivity. Qed.

Lemma otra_clave_lower (clave clave' : string) (l : worksheet) :
  lower clave = lower clave' ->
  forallb (otra_clave clave) l = forallb (otra_clave clave') l.
Proof.
  intros H. induction l as [|x l IH]; [reflexivity|].
  cbn [forallb]. rewrite IH. unfold otra_clave. rewrite H. reflexivity.
Qed.

Lemma otra_clave_no_coincide (clave : string) (l : worksheet) :
  forallb (otra_clave clave) l = true ->
  filter (fun r => negb (coincide clave r)) l = l.
Proof.
  induction l as [|x l IH]; [reflexivity|].
  cbn [forallb filter]. intros H. apply andb_true_iff in H. destruct H as [Hx Hl].
  unfold otra_clave in Hx. unfold coincide at 1.
  destruct (clave_fila x); [|discriminate]. rewrite Hx. rewrite (IH Hl). reflexivity.
Qed.

Lemma set_nth_set_nth (v v' : PyVal) (r : row) :
  set_nth 1 v' (set_nth 1 v r) = set_nth 1 v' r.
Proof. destruct r as [|x [|y r']]; reflexivity. Qed.

(** X10.  An upsert touches the rows of no other key: the rows whose key
    is not the given one are the same rows, in the same order, before and
    after; the sheet keeps its length or grows by the one new row; and the
    normalized keys of the rows that were there are unchanged. *)
Theorem upsert_no_toca_otras_claves (columna : string) (otros : list string)
    (clave : string) (monto : spec_float) (ws ws' : worksheet) :
  upsert (columna :: otros) columna clave monto ws = Ok ws' ->
  filter (fun r => negb (coincide clave r)) ws' = filter (fun r => negb (coincide clave r)) ws /\
  (List.length ws' = List.length ws \/ ws' = (ws ++ [[VStr clave; VFloat monto]])%list) /\
  firstn (List.length ws) (map clave_fila ws') = map clave_fila ws.
Proof.
  intros H. apply upsert_inv in H.
  destruct H as [(pre & r & post & -> & Hpre & Hr & ->)|[Hws ->]].
  - split; [|split].
    + rewrite !filter_app. cbn [filter].
      unfold coincide at 2 5. rewrite clave_fila_set_nth.
      fold (coincide clave r). rewrite Hr. reflexivity.
    + left. rewrite !length_app. reflexivity.
    + assert (E : map clave_fila (pre ++ set_nth 1 (VFloat monto) r :: post)
                  = map clave_fila (pre ++ r :: post))
        by (rewrite !map_app; cbn [map]; rewrite clave_fila_set_nth; reflexivity).
      rewrite E, <- (length_map clave_fila (pre ++ r :: post)). apply firstn_all.
  - split; [|split].
    + rewrite filter_app. cbn [filter]. rewrite coincide_fila_nueva. apply app_nil_r.
    + right. reflexivity.
    + rewrite map_app, <- (length_map clave_fila ws), firstn_app, firstn_all, Nat.sub_diag.
      apply app_nil_r.
Qed.

(** A budget for educación between two others: they are as they were. *)
Lemma upsert_no_toca_otras_claves_witness :
  filter (fun r => negb (coincide "EDUCACIÓN" r))
    [[VStr "Alquiler"; VInt 90000]; [VStr "educación"; VFloat (nearest_of_Z 700)];
     [VStr "Nafta"; VInt 1500]]
  = filter (fun r => negb (coincide "EDUCACIÓN" r))
      [[VStr "Alquiler"; VInt 90000]; [VStr "educación"; VInt 500];
       [VStr "Nafta"; VInt 1500]].
Proof.
  exact (proj1 (upsert_no_toca_otras_claves "Categoria" ["PresupuestoMensual"] "EDUCACIÓN"
                  (nearest_of_Z 700)
                  [[VStr "Alquiler"; VInt 90000]; [VStr "educación"; VInt 500];
                   [VStr "Nafta"; VInt 1500]] _ ltac:(vm_compute; reflexivity))).
Defined.

(** X11.  The last amount set for a key wins, however the key is spelled:
    after an upsert with the key [clave], an upsert with a key that differs
    from it in letter case only gives the sheet a single upsert of [clave]
    with the later amount gives; the row keeps the spelling it had. *)
Theorem upsert_ultima_gana (columna : string) (otros : list string)
    (clave clave' : string) (monto monto' : spec_float) (ws ws1 : worksheet) :
  lower clave = lower clave' ->
  upsert (columna :: otros) columna clave monto ws = Ok ws1 ->
  upsert (columna :: otros) columna clave' monto' ws1
  = upsert (columna :: otros) columna clave monto' ws.
Proof.
  intros Hl H. apply upsert_inv in H.
  destruct H as [(pre & r & post & -> & Hpre & Hr & ->)|[Hws ->]].
  - rewrite (upsert_encontrada columna otros clave monto' pre post r Hpre Hr).
    rewrite (upsert_encontrada columna otros clave' monto' pre post).
    + rewrite set_nth_set_nth. reflexivity.
    + rewrite <- (otra_clave_lower clave clave' pre Hl). exact Hpre.
    + rewrite <- (coincide_lower clave clave' _ Hl).
      unfold coincide. rewrite clave_fila_set_nth. exact Hr.
  - rewrite (upsert_ausente columna otros clave monto' ws Hws).
    change (ws ++ [[VStr clave; VFloat monto]])%list
      with (ws ++ [VStr clave; VFloat monto] :: [])%list.
    rewrite (upsert_encontrada columna otros clave' monto' ws []).
    + reflexivity.
    + rewrite <- (otra_clave_lower clave clave' ws Hl). exact Hws.
    + rewrite <- (coincide_lower clave clave' _ Hl). apply coincide_fila_nueva.
Qed.

(** Educación at 1000, then EDUCACIÓN at 2000, on an empty sheet. *)
Lemma upsert_ultima_gana_witness :
  upsert presupuestos_headers "Categoria" "EDUCACIÓN" (nearest_of_Z 2000)
    [[VStr "Educación"; VFloat (nearest_of_Z 1000)]]
  = Ok [[VStr "Educación"; VFloat (nearest_of_Z 2000)]].
Proof.
  exact (upsert_ultima_gana "Categoria" ["PresupuestoMensual"] "Educación" "EDUCACIÓN"
           (nearest_of_Z 1000) (nearest_of_Z 2000) [] _
           ltac:(vm_compute; reflexivity) eq_refl).
Defined.

(** ** A movement command, end to end *)

Lemma parse_movimiento_args_cons (categoria a : string) (resto : list string) :
  parse_movimiento_args (categoria :: a :: resto)
  = match parse_float (replace_comma a) with
    | Some monto => Ok (categoria, monto, join " " resto)
    | None => Raise (ValueError msg_monto_invalido)
    end.
Proof.
  unfold parse_movimiento_args, parse_monto, py_float.
  cbn [List.length Nat.ltb Nat.leb nth].
  destruct (parse_float (replace_comma a)) as [monto|]; [|reflexivity].
  destruct resto as [|d resto']; reflexivity.
Qed.

Lemma dispatch_movimiento (str_of_value : PyVal -> string) (chat_id first_name : PyVal)
    (command : string) (args : list string) (tipo moneda : string) :
  movimiento_de_comando command = Some (tipo, moneda) ->
  dispatch str_of_value chat_id first_name command args
  = cmd_movimiento chat_id first_name args tipo moneda.
Proof.
  unfold movimiento_de_comando.
  destruct (String.eqb_spec command "/gasto") as [->|_];
    [intros H; injection H as <- <-; reflexivity|].
  destruct (String.eqb_spec command "/gasto_usd") as [->|_];
    [intros H; injection H as <- <-; reflexivity|].
  destruct (String.eqb_spec command "/ingreso") as [->|_];
    [intros H; injection H as <- <-; reflexivity|].
  destruct (String.eqb_spec command "/ingreso_usd") as [->|_];
    [intros H; injection H as <- <-; reflexivity|].
  discriminate.
Qed.

(** X12.  A movement command end to end.  For a message whose first token
    is one of [/gasto], [/gasto_usd], [/ingreso], [/ingreso_usd] (with or
    without an [@] suffix) followed by a category and an amount: when the
    amount reads, one row is appended to Movimientos - dated by the clock,
    with the kind and currency of the command, the category as typed, the
    other tokens joined by single spaces as description, the user Mica -
    and the confirmation is sent; when it does not read, nothing is
    recorded and the reply is the invalid-amount message. *)
Theorem comando_de_movimiento (str_of_value : PyVal -> string) (update : PyVal)
    (m : dict) (t tok categoria a : string) (resto : list string)
    (chat_id first_name : PyVal) (tipo moneda : string) (w : World) :
  mensaje_de update = Some m -> texto_de m = Some t -> t <> "" ->
  remitente_de m = Some (chat_id, first_name) ->
  split t = tok :: categoria :: a :: resto ->
  movimiento_de_comando (if contains_at tok then before_at tok else tok)
  = Some (tipo, moneda) ->
  handle_update str_of_value update w
  = match parse_float (replace_comma a) with
    | Some monto =>
        (Ok tt,
         with_outbox
           (outbox w ++ [(chat_id, msg_movimiento_ok tipo monto categoria moneda)])
           (with_mov_ws
              (mov_ws w ++ [fila_movimiento tipo categoria monto (join " " resto) (now w)
                              moneda "Mica"]) w))
    | None =>
        (Ok tt,
         with_outbox
           (outbox w ++ [(chat_id, msg_movimiento_error msg_monto_invalido tipo)]) w)
    end.
Proof.
  intros Hm Ht Hne Hr Hs Hc.
  rewrite (handle_update_despacha str_of_value update m t tok (categoria :: a :: resto)
             chat_id first_name w Hm Ht Hne Hr Hs).
  rewrite (dispatch_movimiento _ _ _ _ _ _ _ Hc).
  unfold try_except, cmd_movimiento. rewrite parse_movimiento_args_cons.
  destruct (parse_float (replace_comma a)) as [monto|]; reflexivity.
Qed.

(** [/ingreso_usd@MiBot ventas 1.234,5 feria de mayo]: the amount has two
    separators after the comma is replaced, so nothing is recorded.  And
    [/gasto comida ٥], with the amount in Arabic-Indic digits: the expense
    of 5 is recorded. *)
Lemma comando_de_movimiento_witness :
  handle_update str_de_texto (update_de "/ingreso_usd@MiBot ventas 1.234,5 feria de mayo")
    (mundo_vacio (mk_datetime 2024 1 31 10 20 30))
  = (Ok tt,
     with_outbox [(VInt 7, msg_movimiento_error msg_monto_invalido "ingreso")]
       (mundo_vacio (mk_datetime 2024 1 31 10 20 30))) /\
  handle_update str_de_texto (update_de "/gasto comida ٥")
    (mundo_vacio (mk_datetime 2024 1 31 10 20 30))
  = (Ok tt,
     with_outbox [(VInt 7, msg_movimiento_ok "gasto" (decimal "5") "comida" "ARS")]
       (with_mov_ws
          [fila_movimiento "gasto" "comida" (decimal "5") ""
             (mk_datetime 2024 1 31 10 20 30) "ARS" "Mica"]
          (mundo_vacio (mk_datetime 2024 1 31 10 20 30)))).
Proof.
  split.
  - exact (comando_de_movimiento str_de_texto
             (update_de "/ingreso_usd@MiBot ventas 1.234,5 feria de mayo") _
             "/ingreso_usd@MiBot ventas 1.234,5 feria de mayo" "/ingreso_usd@MiBot"
             "ventas" "1.234,5" ["feria"; "de"; "mayo"] (VInt 7) (VStr "Ana")
             "ingreso" "USD" (mundo_vacio (mk_datetime 2024 1 31 10 20 30))
             eq_refl eq_refl ltac:(discriminate) eq_refl eq_refl eq_refl).
  - exact (comando_de_movimiento str_de_texto (update_de "/gasto comida ٥") _
             "/gasto comida ٥" "/gasto" "comida" "٥" [] (VInt 7) (VStr "Ana")
             "gasto" "ARS" (mundo_vacio (mk_datetime 2024 1 31 10 20 30))
             eq_refl eq_refl ltac:(discriminate) eq_refl eq_refl eq_refl).
Defined.

(** ** A schedule that runs past the calendar *)

Lemma registrar_cuotas_parcial (hoy : datetime) (categoria descripcion : string)
    (monto_cuota : spec_float) (cantidad_cuotas : Z) (k : nat) :
  forall (n : nat) (i : Z) (w : World),
    valid_date hoy -> 0 <= i -> (k < n)%nat ->
    (forall j, i <= j < i + Z.of_nat k -> dt_year (avanzar_meses hoy j) <= MAXYEAR) ->
    MAXYEAR < dt_year (avanzar_meses hoy (i + Z.of_nat k)) ->
    registrar_cuotas hoy categoria descripcion monto_cuota cantidad_cuotas i n w
    = (Raise (ValueError ("year " ++ str_of_Z (dt_year (avanzar_meses hoy (i + Z.of_nat k)))
                            ++ " is out of range")),
       with_mov_ws
         (mov_ws w ++ map (fun j => fila_cuota categoria descripcion monto_cuota
                                       cantidad_cuotas j (avanzar_meses hoy j))
                          (desde i k)) w).
Proof.
  induction k as [|k IH]; intros n i w Hv Hi Hkn Hok Hbad.
  - destruct n as [|n]; [lia|].
    cbn [registrar_cuotas]. unfold bind at 1, lift.
    rewrite (month_add_cases hoy i Hv).
    replace (i + Z.of_nat 0) with i in * by lia.
    replace ((MINYEAR <=? dt_year (avanzar_meses hoy i))
             && (dt_year (avanzar_meses hoy i) <=? MAXYEAR)) with false
      by (symmetry; apply andb_false_iff; right; apply Z.leb_gt; exact Hbad).
    cbn [desde seq map]. rewrite app_nil_r. destruct w; reflexivity.
  - destruct n as [|n]; [lia|].
    cbn [registrar_cuotas]. unfold bind at 1, lift.
    rewrite (month_add_avanzar hoy i Hv Hi) by (apply Hok; lia).
    unfold bind at 1. unfold add_movimiento at 1.
    rewrite (IH n (i + 1)); [|assumption|lia|lia|intros j Hj; apply Hok; lia|].
    + replace (i + 1 + Z.of_nat k) with (i + Z.of_nat (S k)) by lia.
      rewrite desde_succ. cbn [map]. rewrite with_mov_ws_twice.
      cbn [with_mov_ws mov_ws]. unfold append_row. rewrite <- app_assoc. reflexivity.
    + replace (i + 1 + Z.of_nat k) with (i + Z.of_nat (S k)) by lia. exact Hbad.
Qed.

Lemma firstn_desde (k : nat) :
  forall (i : Z) (n : nat), (k <= n)%nat -> firstn k (desde i n) = desde i k.
Proof.
  induction k as [|k IH]; intros i n H; [reflexivity|].
  destruct n as [|n]; [lia|].
  rewrite !desde_succ. cbn [firstn]. rewrite IH by lia. reflexivity.
Qed.

(** X13.  No rollback.  When the purchase has [n] installments and the
    due date of installment [k] (from 0) is the first one past year 9999,
    [cmd_cuotas] raises [ValueError] with the rows of the first [k]
    installments recorded and nothing sent: the schedule stays partial. *)
Theorem cuotas_parciales (chat_id first_name : PyVal) (args : list string) (w : World)
    (total : spec_float) (n k : Z) (c : spec_float) :
  (3 <= List.length args)%nat ->
  parse_monto (nth 1 args "") = Ok total ->
  parse_int (last args "") = Some n -> float_of_int n = Ok c ->
  valid_date (now w) -> 0 <= k < n ->
  (0 < k -> dt_year (avanzar_meses (today w) (k - 1)) <= MAXYEAR) ->
  MAXYEAR < dt_year (avanzar_meses (today w) k) ->
  cmd_cuotas chat_id first_name args w
  = (Raise (ValueError ("year " ++ str_of_Z (dt_year (avanzar_meses (today w) k))
                          ++ " is out of range")),
     with_mov_ws
       (mov_ws w ++ firstn (Z.to_nat k)
                      (filas_cuotas (today w) (nth 0 args "") (descripcion_cuotas args)
                         (round2 (fdiv total c)) n)) w).
Proof.
  intros Hlen Hm Hn Hc Hv Hk Hok Hbad. unfold cmd_cuotas.
  replace (List.length args <? 3)%nat with false
    by (symmetry; apply Nat.ltb_ge; exact Hlen).
  rewrite Hm. cbn [py_int]. rewrite Hn.
  replace (n <=? 0) with false by (symmetry; apply Z.leb_gt; lia).
  unfold bind at 1, lift. rewrite (dividir_float_of_int _ _ _ Hc).
  unfold bind at 1. unfold bind at 1.
  rewrite (registrar_cuotas_parcial (today w) _ _ _ _ (Z.to_nat k)).
  - unfold filas_cuotas. rewrite firstn_map, firstn_desde by lia.
    rewrite Z2Nat.id by lia. reflexivity.
  - exact Hv.
  - lia.
  - lia.
  - intros j Hj. rewrite Z2Nat.id in Hj by lia.
    eapply Z.le_trans; [apply dt_year_avanzar_mono with (j := k - 1); lia|apply Hok; lia].
  - rewrite Z2Nat.id by lia. exact Hbad.
Qed.

(** Three installments from 9999-11-30: two rows, then the error. *)
Lemma cuotas_parciales_witness :
  List.length
    (mov_ws (snd (cmd_cuotas (VInt 7) (VStr "Ana") ["hogar"; "100"; "3"]
                    (mundo_vacio (mk_datetime 9999 11 30 10 20 30)))))
  = 2%nat.
Proof.
  rewrite (cuotas_parciales (VInt 7) (VStr "Ana") ["hogar"; "100"; "3"]
             (mundo_vacio (mk_datetime 9999 11 30 10 20 30)) (decimal "100") 3 2
             (nearest_of_Z 3)
             ltac:(cbn; lia) eq_refl eq_refl eq_refl
             ltac:(repeat split; vm_compute; discriminate) ltac:(lia)
             ltac:(intros _; vm_compute; discriminate) ltac:(vm_compute; reflexivity)).
  vm_compute. reflexivity.
Defined.

(** ** Tokens *)

Lemma split_join (l : list string) :
  forallb es_token l = true -> split (join " " l) = l.
Proof.
  unfold join. induction l as [|a l IH]; [reflexivity|].
  cbn [forallb]. intros H. apply andb_true_iff in H. destruct H as [Ha Hl].
  destruct l as [|b l'].
  - cbn [String.concat]. apply split_token, Ha.
  - change (String.concat " " (a :: b :: l'))
      with (a ++ String " " (String.concat " " (b :: l')))%string.
    rewrite (split_token_space _ _ Ha), (IH Hl). reflexivity.
Qed.

Lemma forallb_skipn {A} (f : A -> bool) (n : nat) (l : list A) :
  forallb f l = true -> forallb f (skipn n l) = true.
Proof.
  revert l. induction n as [|n IH]; intros l H; [exact H|].
  destruct l as [|a l]; [reflexivity|]. cbn [skipn]. apply IH.
  cbn [forallb] in H. apply andb_true_iff in H. apply H.
Qed.

Lemma forallb_removelast {A} (f : A -> bool) (l : list A) :
  forallb f l = true -> forallb f (removelast l) = true.
Proof.
  induction l as [|a l IH]; [reflexivity|].
  cbn [forallb]. intros H. apply andb_true_iff in H. destruct H as [Ha Hl].
  cbn [removelast]. destruct l as [|b l']; [reflexivity|].
  cbn [forallb]. rewrite Ha. apply IH, Hl.
Qed.

Lemma before_at_sin_arroba (s : string) : contains_at s = false -> before_at s = s.
Proof.
  induction s as [|c r IH]; [reflexivity|].
  cbn [contains_at before_at]. destruct (Ascii.eqb c "@"); [discriminate|].
  cbn [orb]. intros H. rewrite (IH H). reflexivity.
Qed.

Lemma comando_before_at (tok : string) :
  (if contains_at tok then before_at tok else tok) = before_at tok.
Proof.
  destruct (contains_at tok) eqn:H; [reflexivity|].
  symmetry. apply before_at_sin_arroba, H.
Qed.

(** X14.  What the handlers get from [handle_update], for a message
    that has a sender.  The strip of the text changes nothing for the
    tokens: they are the tokens of the text as it came.  A text without a
    token, that is empty or white space only, is dropped.  Otherwise the
    command is the first token up to its first [@] and the arguments are
    the other tokens, each of them not empty and free of white space, the
    white space of other scripts included. *)
Theorem handle_update_tokens (str_of_value : PyVal -> string) (update : PyVal)
    (m : dict) (t0 : string) (chat_id first_name : PyVal) (w : World) :
  mensaje_de update = Some m -> get "text" m = VStr t0 ->
  remitente_de m = Some (chat_id, first_name) ->
  (split t0 = [] /\ handle_update str_of_value update w = (Ok tt, w)) \/
  (exists tok args,
      split t0 = tok :: args /\ forallb es_token (tok :: args) = true /\
      handle_update str_of_value update w
      = try_except (dispatch str_of_value chat_id first_name (before_at tok) args)
          (fun _ => send_message chat_id msg_error) w).
Proof.
  intros Hm Hg Hr.
  assert (Ht : texto_de m = Some (strip t0)).
  { unfold texto_de. rewrite Hg. destruct t0; reflexivity. }
  destruct (split t0) as [|tok args] eqn:Es.
  - left. split; [reflexivity|].
    apply (handle_update_sin_texto str_of_value update m w Hm).
    rewrite Ht. f_equal. apply split_nil, Es.
  - right. exists tok, args. split; [reflexivity|].
    split; [rewrite <- Es; apply split_tokens|].
    assert (Hne : strip t0 <> "") by (intros E; apply split_nil in E; congruence).
    assert (Hs : split (strip t0) = tok :: args) by (rewrite split_strip; exact Es).
    rewrite (handle_update_despacha str_of_value update m (strip t0) tok args chat_id
               first_name w Hm Ht Hne Hr Hs).
    rewrite comando_before_at. reflexivity.
Qed.

(** An expense typed with the bot name, a no-break space after the command
    and spaces around. *)
Lemma handle_update_tokens_witness :
  handle_update str_de_texto (update_de ("  /gasto@MiBot" ++ nbsp ++ "comida  5,5 "))
    (mundo_vacio (mk_datetime 2024 1 31 10 20 30))
  = try_except (dispatch str_de_texto (VInt 7) (VStr "Ana") "/gasto" ["comida"; "5,5"])
      (fun _ => send_message (VInt 7) msg_error)
      (mundo_vacio (mk_datetime 2024 1 31 10 20 30)).
Proof.
  destruct (handle_update_tokens str_de_texto
              (update_de ("  /gasto@MiBot" ++ nbsp ++ "comida  5,5 ")) _
              ("  /gasto@MiBot" ++ nbsp ++ "comida  5,5 ") (VInt 7) (VStr "Ana")
              (mundo_vacio (mk_datetime 2024 1 31 10 20 30)) eq_refl eq_refl eq_refl)
    as [[Hs _]|(tok & args & Hs & _ & H)]; vm_compute in Hs; [discriminate Hs|].
  injection Hs as <- <-. exact H.
Defined.

(** X15.  The description keeps the words of the message.  When the
    arguments are tokens, [parse_movimiento_args] returns a description
    whose tokens are the arguments after the amount, in order, so the
    arguments can be read back from what it returns; and the description of
    a purchase in installments has for tokens the arguments between the
    amount and the number of installments. *)
Theorem descripcion_conserva_palabras (args : list string) :
  forallb es_token args = true ->
  (forall categoria monto descripcion,
      parse_movimiento_args args = Ok (categoria, monto, descripcion) ->
      args = categoria :: nth 1 args "" :: split descripcion) /\
  split (descripcion_cuotas args) = removelast (skipn 2 args).
Proof.
  intros Ht. split.
  - intros categoria monto descripcion. unfold parse_movimiento_args.
    destruct args as [|c [|a [|d rest]]]; try discriminate;
      cbn [List.length Nat.ltb Nat.leb nth skipn];
      (destruct (parse_monto a) as [x|[]]; try discriminate);
      intros H; injection H as <- _ <-; [reflexivity|].
    change (c :: a :: d :: rest = c :: a :: split (join " " (d :: rest))).
    rewrite split_join; [reflexivity|]. apply (forallb_skipn _ 2 _ Ht).
  - unfold descripcion_cuotas.
    destruct (3 <? List.length args)%nat eqn:E.
    + apply split_join, forallb_removelast, forallb_skipn, Ht.
    + apply Nat.ltb_ge in E.
      destruct args as [|c [|a [|d [|e rest]]]]; try reflexivity. cbn in E. lia.
Qed.

(** The description of [/gasto comida 5 dos  empanadas]. *)
Lemma descripcion_conserva_palabras_witness :
  tl (split "/gasto comida 5 dos  empanadas") = "comida" :: "5" :: split "dos empanadas".
Proof.
  exact (proj1 (descripcion_conserva_palabras
                  (tl (split "/gasto comida 5 dos  empanadas")) eq_refl)
           "comida" (decimal "5") "dos empanadas" eq_refl).
Defined.

(** X16.  A message is handled by its tokens alone: two updates from the
    same sender whose texts have the same arguments, and first tokens that
    agree up to the first [@], are handled in the same way - the same
    result, the same rows, the same reply.  The amount of white space
    between the words and the bot name after the command do not matter. *)
Theorem handle_update_por_tokens (str_of_value : PyVal -> string)
    (update1 update2 : PyVal) (m1 m2 : dict) (t1 t2 tok1 tok2 : string)
    (args : list string) (chat_id first_name : PyVal) (w : World) :
  mensaje_de update1 = Some m1 -> mensaje_de update2 = Some m2 ->
  texto_de m1 = Some t1 -> texto_de m2 = Some t2 ->
  remitente_de m1 = Some (chat_id, first_name) ->
  remitente_de m2 = Some (chat_id, first_name) ->
  split t1 = tok1 :: args -> split t2 = tok2 :: args ->
  before_at tok1 = before_at tok2 ->
  handle_update str_of_value update1 w = handle_update str_of_value update2 w.
Proof.
  intros Hm1 Hm2 Ht1 Ht2 Hr1 Hr2 Hs1 Hs2 Hb.
  assert (Hne1 : t1 <> "") by (intros ->; discriminate).
  assert (Hne2 : t2 <> "") by (intros ->; discriminate).
  rewrite (handle_update_despacha str_of_value update1 m1 t1 tok1 args chat_id first_name w
             Hm1 Ht1 Hne1 Hr1 Hs1).
  rewrite (handle_update_despacha str_of_value update2 m2 t2 tok2 args chat_id first_name w
             Hm2 Ht2 Hne2 Hr2 Hs2).
  rewrite !comando_before_at, Hb. reflexivity.
Qed.

(** The same expense, typed with the bot name, more spaces and a no-break
    space. *)
Lemma handle_update_por_tokens_witness :
  handle_update str_de_texto (update_de ("  /gasto@MiBot" ++ nbsp ++ "  comida  5,5 "))
    (mundo_vacio (mk_datetime 2024 1 31 10 20 30))
  = handle_update str_de_texto (update_de "/gasto comida 5,5")
      (mundo_vacio (mk_datetime 2024 1 31 10 20 30)).
Proof.
  exact (handle_update_por_tokens str_de_texto
           (update_de ("  /gasto@MiBot" ++ nbsp ++ "  comida  5,5 "))
           (update_de "/gasto comida 5,5")
           _ _ ("/gasto@MiBot" ++ nbsp ++ "  comida  5,5") "/gasto comida 5,5"
           "/gasto@MiBot" "/gasto"
           ["comida"; "5,5"] (VInt 7) (VStr "Ana")
           (mundo_vacio (mk_datetime 2024 1 31 10 20 30))
           eq_refl eq_refl ltac:(vm_compute; reflexivity) eq_refl eq_refl eq_refl
           ltac:(vm_compute; reflexivity) eq_refl eq_refl).
Defined.

(** ** Opening the sheets *)

Lemma worksheet_of_app (sh : spreadsheet) (name title : string) (ws : list row) :
  worksheet_of (sh ++ [(title, ws)]) name
  = match worksheet_of sh name with
    | Some x => Some x
    | None => if String.eqb name title then Some ws else None
    end.
Proof.
  induction sh as [|[t x] sh IH]; cbn [app worksheet_of]; [reflexivity|].
  destruct (String.eqb name t); [reflexivity|exact IH].
Qed.

(** X17.  [get_or_create_worksheet] never destroys anything and needs to
    run only once: afterwards the sheet of that title exists and is the one
    returned; every sheet that existed, the requested one included, holds
    what it held (an existing sheet is not given the headers); a new sheet
    holds the header row alone, or nothing without headers; and asking
    again, with any headers, returns the same sheet and changes nothing. *)
Theorem get_or_create_worksheet_spec (sh : spreadsheet) (name : string)
    (headers : option (list string)) :
  worksheet_of (fst (get_or_create_worksheet sh name headers)) name
  = Some (snd (get_or_create_worksheet sh name headers)) /\
  (forall title ws,
      worksheet_of sh title = Some ws ->
      worksheet_of (fst (get_or_create_worksheet sh name headers)) title = Some ws) /\
  (worksheet_of sh name = None ->
   snd (get_or_create_worksheet sh name headers)
   = match headers with
     | Some (h :: hs) => [map VStr (h :: hs)]
     | _ => []
     end) /\
  (forall headers',
      get_or_create_worksheet (fst (get_or_create_worksheet sh name headers)) name headers'
      = get_or_create_worksheet sh name headers).
Proof.
  unfold get_or_create_worksheet.
  destruct (worksheet_of sh name) as [ws0|] eqn:H; cbn [fst snd].
  - split; [exact H|]. split; [intros title ws Ht; exact Ht|].
    split; [discriminate|]. intros headers'. rewrite H. reflexivity.
  - assert (Hnew : forall ws,
               worksheet_of (sh ++ [(name, ws)]) name = Some ws)
      by (intros ws; rewrite worksheet_of_app, H, String.eqb_refl; reflexivity).
    split; [apply Hnew|]. split.
    + intros title ws Ht. rewrite worksheet_of_app, Ht. reflexivity.
    + split; [reflexivity|]. intros headers'. rewrite Hnew. reflexivity.
Qed.

(** Opening Presupuestos in a spreadsheet that has Movimientos only. *)
Lemma get_or_create_worksheet_spec_witness :
  worksheet_of
    (fst (get_or_create_worksheet [("Movimientos", [map VStr movimientos_headers])]
            "Presupuestos" (Some presupuestos_headers)))
    "Movimientos"
  = Some [map VStr movimientos_headers].
Proof.
  exact (proj1 (proj2 (get_or_create_worksheet_spec
                         [("Movimientos", [map VStr movimientos_headers])]
                         "Presupuestos" (Some presupuestos_headers)))
           "Movimientos" _ eq_refl).
Defined.

(** ** The budget command *)

Lemma upsert_falla (columna : string) (otros : list string) (clave : string)
    (monto : spec_float) (pre post : worksheet) (r : row) :
  forallb (otra_clave clave) pre = true -> clave_fila r = None ->
  upsert (columna :: otros) columna clave monto (pre ++ r :: post)
  = Raise (AttributeError "object has no attribute 'lower'").
Proof.
  intros Hpre Hr. unfold upsert.
  assert (H : forall idx,
             buscar_fila columna clave idx
               (get_all_records (columna :: otros) (pre ++ r :: post))
             = Raise (AttributeError "object has no attribute 'lower'")).
  { induction pre as [|x pre IH]; intros idx.
    - cbn [app]. rewrite buscar_fila_cons, Hr. reflexivity.
    - cbn [forallb] in Hpre. apply andb_true_iff in Hpre. destruct Hpre as [Hx Hpre].
      cbn [app]. rewrite buscar_fila_cons. unfold otra_clave in Hx.
      destruct (clave_fila x); [|discriminate].
      apply negb_true_iff in Hx. rewrite Hx. apply IH, Hpre. }
  rewrite H. reflexivity.
Qed.

(** X18.  [/presupuesto].  Only the first two arguments count: the tokens
    after the amount are ignored.  With an amount that reads, on a sheet
    whose key cells are text, the command returns with the confirmation
    sent and leaves in Presupuestos a row with the category (letter case
    apart) that holds the amount, reached before any other row of that
    key.  When the scan meets a key cell that is not text before it finds
    the category, the command raises [AttributeError] and the world is
    unchanged. *)
Theorem cmd_presupuesto_spec (chat_id : PyVal) (categoria a : string)
    (resto : list string) (monto : spec_float) (w : World) :
  parse_float (replace_comma a) = Some monto ->
  cmd_presupuesto chat_id (categoria :: a :: resto) w
  = cmd_presupuesto chat_id [categoria; a] w /\
  (forallb tiene_clave (pres_ws w) = true ->
   exists pre r post,
     cmd_presupuesto chat_id (categoria :: a :: resto) w
     = (Ok tt,
        with_outbox (outbox w ++ [(chat_id, msg_presupuesto_ok categoria monto)])
          (with_pres_ws (pre ++ r :: post) w)) /\
     forallb (otra_clave categoria) pre = true /\ coincide categoria r = true /\
     nth 1 r VNone = VFloat monto) /\
  (forall pre r post,
      pres_ws w = (pre ++ r :: post)%list ->
      forallb (otra_clave categoria) pre = true -> clave_fila r = None ->
      cmd_presupuesto chat_id (categoria :: a :: resto) w
      = (Raise (AttributeError "object has no attribute 'lower'"), w)).
Proof.
  intros Hp.
  assert (Hcmd : cmd_presupuesto chat_id (categoria :: a :: resto) w
                 = match upsert presupuestos_headers "Categoria" categoria monto (pres_ws w) with
                   | Ok ws =>
                       (Ok tt,
                        with_outbox
                          (outbox w ++ [(chat_id, msg_presupuesto_ok categoria monto)])
                          (with_pres_ws ws w))
                   | Raise e => (Raise e, w)
                   end).
  { unfold cmd_presupuesto, parse_monto, py_float. cbn [List.length Nat.ltb Nat.leb nth].
    rewrite Hp. unfold bind, set_presupuesto.
    destruct (upsert presupuestos_headers "Categoria" categoria monto (pres_ws w));
      reflexivity. }
  split; [|split].
  - unfold cmd_presupuesto. reflexivity.
  - intros Hkeys. rewrite Hcmd. unfold presupuestos_headers.
    destruct (primera_coincidencia categoria (pres_ws w) Hkeys)
      as [Hall|(pre & r & post & Hws & Hpre & Hr)].
    + exists (pres_ws w), [VStr categoria; VFloat monto], [].
      rewrite (upsert_ausente _ _ _ _ _ Hall).
      split; [reflexivity|]. split; [exact Hall|].
      split; [apply coincide_fila_nueva|reflexivity].
    + exists pre, (set_nth 1 (VFloat monto) r), post.
      rewrite Hws, (upsert_encontrada _ _ _ _ _ _ _ Hpre Hr).
      split; [reflexivity|]. split; [exact Hpre|].
      split; [|apply nth_set_nth].
      unfold coincide. rewrite clave_fila_set_nth. exact Hr.
  - intros pre r post Hws Hpre Hr. rewrite Hcmd, Hws. unfold presupuestos_headers.
    rewrite (upsert_falla _ _ _ _ _ _ _ Hpre Hr). reflexivity.
Qed.

(** A budget whose name has two words: the second word is taken for the
    amount when it reads.  And a budget for AÑO on a sheet that has the row
    año. *)
Lemma cmd_presupuesto_spec_witness :
  cmd_presupuesto (VInt 7) ["comida"; "5000"; "por"; "semana"]
    (mundo_vacio (mk_datetime 2024 1 31 10 20 30))
  = cmd_presupuesto (VInt 7) ["comida"; "5000"]
      (mundo_vacio (mk_datetime 2024 1 31 10 20 30)) /\
  exists pre r post,
    cmd_presupuesto (VInt 7) ["AÑO"; "5000"]
      (mundo_con_presupuestos [[VStr "año"; VInt 1]] (mk_datetime 2024 1 31 10 20 30))
    = (Ok tt,
       with_outbox [(VInt 7, msg_presupuesto_ok "AÑO" (decimal "5000"))]
         (with_pres_ws (pre ++ r :: post)
            (mundo_con_presupuestos [[VStr "año"; VInt 1]]
               (mk_datetime 2024 1 31 10 20 30)))) /\
    forallb (otra_clave "AÑO") pre = true /\ coincide "AÑO" r = true /\
    nth 1 r VNone = VFloat (decimal "5000").
Proof.
  split.
  - exact (proj1 (cmd_presupuesto_spec (VInt 7) "comida" "5000" ["por"; "semana"]
                    (decimal "5000") (mundo_vacio (mk_datetime 2024 1 31 10 20 30))
                    eq_refl)).
  - exact (proj1 (proj2 (cmd_presupuesto_spec (VInt 7) "AÑO" "5000" []
                           (decimal "5000")
                           (mundo_con_presupuestos [[VStr "año"; VInt 1]]
                              (mk_datetime 2024 1 31 10 20 30))
                           eq_refl)) eq_refl).
Defined.

(** The sheet after it: the one row año, with the new amount. *)
Lemma cmd_presupuesto_otra_caja :
  pres_ws (snd (cmd_presupuesto (VInt 7) ["AÑO"; "5000"]
                  (mundo_con_presupuestos [[VStr "año"; VInt 1]]
                     (mk_datetime 2024 1 31 10 20 30))))
  = [[VStr "año"; VFloat (decimal "5000")]].
Proof. vm_compute. reflexivity. Qed.
